(** * OrcaNet training harness: batching, label encoding, zero-centering,
      model set-up

    A shallow embedding of the parts of [orcanet/utilities/nn_utilities.py]
    and [orcanet/model_setup.py] that supply batches to the network, derive
    the labels, compute the mean image and build or reload a model; of the
    logger of the training and the model names; and of the parts of
    [orcanet/in_out.py] and [orcanet/eval_nn.py] that go with them.

    Conventions.
    - Python integers are [Z]; the values stored in the arrays are rationals
      [Q] (every finite float is one).  Rounding to single precision is the
      section variable [to_float32]; NaN is not a rational, the one place
      where numpy produces it (the mean of an empty slice) is an [option].
      Sums, means and quotients of floats are those of the rationals.
    - Code that can raise returns [exc A]: either a value or the exception.
    - numpy is a library the repository calls.  Slicing, [np.reshape],
      [np.zeros] and [np.mean] are written out; [np.subtract],
      [np.transpose] and [np.concatenate] stay section variables.
    - [print] and [warnings.warn] are not modelled. *)

From Stdlib Require Import ZArith QArith Qabs Ascii String List Lia.
From stdpp Require Import base tactics option list strings pretty gmap.

Local Open Scope string_scope.
Local Open Scope Z_scope.

(** ** Python exceptions *)

Module Py.

Inductive exn : Type :=
| ValueError (msg : string)
| KeyError
| IndexError
| AssertionError
| ZeroDivisionError
| NameError (msg : string)
| OSError (path : string).

Inductive exc (A : Type) : Type :=
| Ok (a : A)
| Raise (e : exn).

Arguments Ok {A} a.
Arguments Raise {A} e.

Definition bind {A B : Type} (c : exc A) (k : A -> exc B) : exc B :=
  match c with
  | Ok a => k a
  | Raise e => Raise e
  end.

#[global] Instance exc_ret : MRet exc := fun A a => Ok a.
#[global] Instance exc_bind : MBind exc := fun A B k c => bind c k.

(** [for x in l: f(x)] collecting the results; the first exception ends
    the loop. *)
Fixpoint for_each {A B : Type} (f : A -> exc B) (l : list A) : exc (list B) :=
  match l with
  | [] => Ok []
  | a :: l' =>
      b ← f a;
      bs ← for_each f l';
      Ok (b :: bs)
  end.

(** [l[i]] on a list or tuple, and [d[i]] on a dict with keys [0 .. n-1]. *)
Definition getitem {A : Type} (l : list A) (i : nat) : exc A :=
  match l !! i with
  | Some a => Ok a
  | None => Raise IndexError
  end.

Definition dict_getitem {A : Type} (d : list A) (i : nat) : exc A :=
  match d !! i with
  | Some a => Ok a
  | None => Raise KeyError
  end.

(** [l[a:b]] for integers [a], [b]: negative bounds count from the end,
    bounds are clipped to the length. *)
Definition slice_bound (len i : Z) : Z :=
  if i <? 0 then Z.max 0 (i + len) else Z.min i len.

Definition slice {A : Type} (l : list A) (a b : Z) : list A :=
  let len := Z.of_nat (length l) in
  let lo := slice_bound len a in
  let hi := slice_bound len b in
  take (Z.to_nat (hi - lo)) (drop (Z.to_nat lo) l).

(** [needle in hay] on strings. *)
Definition contains (hay needle : string) : bool :=
  match String.index 0 needle hay with
  | Some _ => true
  | None => false
  end.

End Py.

Import Py.

(** ** numpy arrays *)

Module Np.

(** An n-dimensional array: its shape and its entries in row-major order. *)
Record ndarray : Type := mk_ndarray { nd_shape : list Z; nd_data : list Q }.

Definition shape_size (s : list Z) : Z := fold_right Z.mul 1 s.

Definition size (a : ndarray) : Z := Z.of_nat (length (nd_data a)).

(** [np.reshape(a, dims)]: the entries stay as they are, the shape must
    account for all of them.  One dimension may be negative ([-1] by
    convention) and is then inferred from the others. *)
Definition np_reshape (a : ndarray) (dims : list Z) : exc ndarray :=
  match filter (fun d => d < 0) dims with
  | [] =>
      if shape_size dims =? size a
      then Ok (mk_ndarray dims (nd_data a))
      else Raise (ValueError "cannot reshape array")
  | [_] =>
      let known := shape_size (filter (fun d => 0 <= d) dims) in
      if (known =? 0) || negb (size a mod known =? 0)
      then Raise (ValueError "cannot reshape array")
      else Ok (mk_ndarray
                 (map (fun d => if d <? 0 then size a / known else d) dims)
                 (nd_data a))
  | _ => Raise (ValueError "can only specify one unknown dimension")
  end.

(** [np.zeros(n)] for a one-dimensional array. *)
Definition np_zeros (n : Z) : exc (list Q) :=
  if n <? 0 then Raise (ValueError "negative dimensions are not allowed")
  else Ok (replicate (Z.to_nat n) 0%Q).

(** [a[i] = v] on a one-dimensional array, [i >= 0]. *)
Definition setitem (a : list Q) (i : nat) (v : Q) : exc (list Q) :=
  if decide (i < length a)%nat then Ok (<[i := v]> a) else Raise IndexError.

(** Sum and mean over axis 0 of a stack of rows of one length; [width] is
    that length, needed when the stack is empty. *)
Definition add_rows (r1 r2 : list Q) : list Q := zip_with Qplus r1 r2.

Definition sum_axis0 (width : nat) (rows : list (list Q)) : list Q :=
  fold_right add_rows (replicate width 0%Q) rows.

(** [np.mean(rows, axis=0)]: [None] stands for the array of NaN that numpy
    returns for an empty stack. *)
Definition mean_axis0 (width : nat) (rows : list (list Q)) : option (list Q) :=
  match rows with
  | [] => None
  | _ => Some (map (fun s => s / inject_Z (Z.of_nat (length rows)))%Q
                 (sum_axis0 width rows))
  end.

End Np.

Import Np.

(** ** HDF5 files *)

(** A dataset is a stack of rows; [ds_row_shape] is the shape of one row
    (the dataset has shape [len(rows) :: ds_row_shape]) and every row holds
    its entries in row-major order. *)
Record dataset : Type := mk_dataset { ds_row_shape : list Z; ds_rows : list (list Q) }.

(** [ds[a:b]] as an array. *)
Definition ds_slice (ds : dataset) (a b : Z) : ndarray :=
  let rows := slice (ds_rows ds) a b in
  mk_ndarray (Z.of_nat (length rows) :: ds_row_shape ds) (concat rows).

(** The files of this project hold the images in ['x'] and one row of
    event information per image in ['y']. *)
Record h5file : Type := mk_h5file { h5_x : dataset; h5_y : dataset }.

(** ** nn_utilities.py: [get_dimensions_encoding] *)

Definition bins : Type := (Z * Z * Z * Z)%type.

Definition get_dimensions_encoding (n_bins : bins) (batchsize : Z) : list Z :=
  let '(n_bins_x, n_bins_y, n_bins_z, n_bins_t) := n_bins in
  if n_bins_x =? 1 then
    if n_bins_y =? 1 then [batchsize; n_bins_z; n_bins_t; 1]
    else if n_bins_z =? 1 then [batchsize; n_bins_y; n_bins_t; 1]
    else if n_bins_t =? 1 then [batchsize; n_bins_y; n_bins_z; 1]
    else [batchsize; n_bins_y; n_bins_z; n_bins_t; 1]
  else if n_bins_y =? 1 then
    if n_bins_z =? 1 then [batchsize; n_bins_x; n_bins_t; 1]
    else if n_bins_t =? 1 then [batchsize; n_bins_x; n_bins_z; 1]
    else [batchsize; n_bins_x; n_bins_z; n_bins_t; 1]
  else if n_bins_z =? 1 then
    if n_bins_t =? 1 then [batchsize; n_bins_x; n_bins_y; 1]
    else [batchsize; n_bins_x; n_bins_y; n_bins_t; 1]
  else if n_bins_t =? 1 then [batchsize; n_bins_x; n_bins_y; n_bins_z; 1]
  else [batchsize; n_bins_x; n_bins_y; n_bins_z; n_bins_t].

(** ** nn_utilities.py: label encoding *)

(** [class_type]: the number of output classes and the string that names
    them. *)
Definition class_type_t : Type := (Z * string)%type.

(** A two-dimensional array as numpy hands it to the label functions: the
    number of columns and the rows.  Every row of a well-formed array has
    [a2_ncols] entries. *)
Record array2 : Type := mk_array2 { a2_ncols : nat; a2_rows : list (list Q) }.


(** [a[:, lo:hi]] *)
Definition columns (a : array2) (lo hi : Z) : list (list Q) :=
  map (fun r => slice r lo hi) (a2_rows a).

(** Entry [j] of a row; rows of a well-formed array are long enough
    wherever the code has checked [j] against the number of columns. *)
Definition entry (r : list Q) (j : nat) : Q := nth j r 0%Q.

Definition particle_type_dict : list ((Z * Z) * nat) :=
  [((12, 0), 0%nat); ((12, 1), 1%nat); ((14, 1), 2%nat); ((16, 1), 3%nat)].

(** [particle_type_dict[(p, c)]] for float keys: a float finds the integer
    key it is equal to. *)
Fixpoint dict_lookup_QQ (d : list ((Z * Z) * nat)) (p c : Q) : exc nat :=
  match d with
  | [] => Raise KeyError
  | ((kp, kc), v) :: d' =>
      if Qeq_bool p (inject_Z kp) && Qeq_bool c (inject_Z kc) then Ok v
      else dict_lookup_QQ d' p c
  end.

Definition convert_particle_class_to_categorical
    (particle_type is_cc : Q) (num_classes : Z) : exc (list Q) :=
  if num_classes =? 4 then
    category ← dict_lookup_QQ particle_type_dict (Qabs particle_type) is_cc;
    categorical ← np_zeros num_classes;
    setitem categorical category 1%Q
  else Raise (ValueError "A number of classes !=4 is currently not supported!").

(** [int(np.sign(dir_z))] *)
Definition sign_int (q : Q) : Z := Z.sgn (Qnum q).

(** [rand] is the value [np.random.randint(2)] draws when it is called. *)
Definition get_class_up_down_categorical
    (rand : bool) (dir_z : Q) (n_neurons : Z) : exc (list Q) :=
  let up_down_class_value := sign_int dir_z in
  let up_down_class_value :=
    if up_down_class_value =? 0 then (if rand then 1 else 0)
    else up_down_class_value in
  let up_down_class_value :=
    if up_down_class_value =? -1 then 0 else up_down_class_value in
  y_cat_up_down ← np_zeros n_neurons;
  if n_neurons =? 1
  then setitem y_cat_up_down 0 (inject_Z up_down_class_value)
  else setitem y_cat_up_down (Z.to_nat up_down_class_value) 1%Q.

Definition encode_targets
    (rand : bool) (y_val : list Q) (class_type : class_type_t) : exc (list Q) :=
  if String.eqb class_type.2 "track-shower" then
    if negb (class_type.1 =? 2) then Raise AssertionError
    else
      particle_type ← getitem y_val 1;
      is_cc ← getitem y_val 3;
      categorical_type ← convert_particle_class_to_categorical particle_type is_cc 4;
      train_y ← np_zeros class_type.1;
      c2 ← getitem categorical_type 2;
      if Qeq_bool c2 1 then setitem train_y 1 1%Q else setitem train_y 0 1%Q
  else if String.eqb class_type.2 "up_down" then
    dir_z ← getitem y_val 7;
    get_class_up_down_categorical rand dir_z class_type.1
  else if String.eqb class_type.2 "tau-CC_vs_other_neutrinos" then
    particle_type ← getitem y_val 1;
    is_cc ← getitem y_val 3;
    categorical_type ← convert_particle_class_to_categorical particle_type is_cc 4;
    train_y ← np_zeros class_type.1;
    c3 ← getitem categorical_type 3;
    if class_type.1 =? 1 then
      if negb (Qeq_bool c3 0) then setitem train_y 0 c3 else Ok train_y
    else if negb (class_type.1 =? 2) then Raise AssertionError
    else
      train_y ← setitem train_y 0 c3;
      if negb (Qeq_bool c3 1) then setitem train_y 1 1%Q else Ok train_y
  else Ok y_val.

Section Float32.

(** Rounding to the nearest single-precision value, as [astype(np.float32)]
    and float32 arithmetic do. *)
Variable to_float32 : Q -> Q.

Definition astype_float32 (a : array2) : array2 :=
  mk_array2 (a2_ncols a) (map (map to_float32) (a2_rows a)).

(** [np.logical_and(np.abs(particle_type) == 12, is_cc == 0)], for one
    row. *)
Definition elec_nc_bool_id (r : list Q) : bool :=
  Qeq_bool (Qabs (entry r 1)) 12 && Qeq_bool (entry r 3) 0.

(** The two in-place updates of the rows selected by [elec_nc_bool_id]:
    the energy becomes the visible energy, then bjorken-y becomes 1. *)
Definition correct_elec_nc_row (r : list Q) : list Q :=
  if elec_nc_bool_id r
  then <[4%nat := 1%Q]> (<[2%nat := to_float32 (entry r 2 * entry r 4)]> r)
  else r.

Definition correct_elec_nc (a : array2) : exc array2 :=
  if decide (a2_ncols a <= 4)%nat then Raise IndexError
  else Ok (mk_array2 (a2_ncols a) (map correct_elec_nc_row (a2_rows a))).

Definition get_regression_labels
    (y_values : array2) (class_type : class_type_t)
  : exc (gmap string (list (list Q))) :=
  let ys : gmap string (list (list Q)) := ∅ in
  let y_values := astype_float32 y_values in
  if String.eqb class_type.2 "energy_and_direction_and_bjorken-y" then
    let ys := <["dir_x" := columns y_values 5 6]> ys in
    let ys := <["dir_y" := columns y_values 6 7]> ys in
    let ys := <["dir_z" := columns y_values 7 8]> ys in
    let ys := <["energy" := columns y_values 2 3]> ys in
    let ys := <["bjorken-y" := columns y_values 4 5]> ys in
    Ok ys
  else if String.eqb class_type.2 "energy_dir_bjorken-y_errors" then
    y_values ← correct_elec_nc y_values;
    let ys := <["dir_x_err" := columns y_values 5 6]> (<["dir_x" := columns y_values 5 6]> ys) in
    let ys := <["dir_y_err" := columns y_values 6 7]> (<["dir_y" := columns y_values 6 7]> ys) in
    let ys := <["dir_z_err" := columns y_values 7 8]> (<["dir_z" := columns y_values 7 8]> ys) in
    let ys := <["e_err" := columns y_values 2 3]> (<["e" := columns y_values 2 3]> ys) in
    let ys := <["by_err" := columns y_values 4 5]> (<["by" := columns y_values 4 5]> ys) in
    Ok ys
  else if String.eqb class_type.2 "energy_dir_bjorken-y_vtx_errors" then
    y_values ← correct_elec_nc y_values;
    let ys := <["dx_err" := columns y_values 5 6]> (<["dx" := columns y_values 5 6]> ys) in
    let ys := <["dy_err" := columns y_values 6 7]> (<["dy" := columns y_values 6 7]> ys) in
    let ys := <["dz_err" := columns y_values 7 8]> (<["dz" := columns y_values 7 8]> ys) in
    let ys := <["e_err" := columns y_values 2 3]> (<["e" := columns y_values 2 3]> ys) in
    let ys := <["by_err" := columns y_values 4 5]> (<["by" := columns y_values 4 5]> ys) in
    let ys := <["vx_err" := columns y_values 10 11]> (<["vx" := columns y_values 10 11]> ys) in
    let ys := <["vy_err" := columns y_values 11 12]> (<["vy" := columns y_values 11 12]> ys) in
    let ys := <["vz_err" := columns y_values 12 13]> (<["vz" := columns y_values 12 13]> ys) in
    let ys := <["vt_err" := columns y_values 13 14]> (<["vt" := columns y_values 13 14]> ys) in
    Ok ys
  else
    Raise (ValueError ("The regression label " ++ class_type.2
                       ++ " in class_type[1] is not available.")).

End Float32.

(** ** nn_utilities.py: [generate_batches_from_hdf5_file] *)

(** What [np.transpose] is called on: an array, or the dict [xs] itself. *)
Inductive np_arg : Type :=
| ArrArg (a : ndarray)
| DictArg (d : list ndarray).

(** [xs_list]: a list of input arrays, or a single array. *)
Inductive inputs : Type :=
| InputList (l : list ndarray)
| InputSingle (a : ndarray).

(** [ys]: the dict of regression labels, or the array of one-hot rows. *)
Inductive labels : Type :=
| RegLabels (d : gmap string (list (list Q)))
| CatLabels (rows : list (list Q)).

Record batch : Type :=
  mk_batch { b_xs_list : inputs; b_ys : labels; b_y_values : array2 }.

(** The tuple that is yielded. *)
Inductive output : Type :=
| Out2 (xs_list : inputs) (ys : labels)
| Out3 (xs_list : inputs) (ys : labels) (y_values : array2).

Record gen_args : Type := mk_gen_args {
  filepath : list string;
  batchsize : Z;
  n_bins : list bins;
  class_type : class_type_t;
  str_ident : string;
  f_size : option Z;
  zero_center_image : option (list ndarray);
  yield_mc_info : bool;
  swap_col : option string
}.

(** [r] rows of [c] entries each, cut from the front of [data]. *)
Fixpoint chunks (c r : nat) (data : list Q) : list (list Q) :=
  match r with
  | O => []
  | S r' => take c data :: chunks c r' (drop c data)
  end.

(** A two-dimensional [ndarray] seen as rows. *)
Definition to_array2 (a : ndarray) : exc array2 :=
  match nd_shape a with
  | [r; c] => Ok (mk_array2 (Z.to_nat c) (chunks (Z.to_nat c) (Z.to_nat r) (nd_data a)))
  | _ => Raise (ValueError "not a two-dimensional array")
  end.

Definition swap_4d_channels_dict (key : string) : exc (list Z) :=
  if String.eqb key "yzt-x" then Ok [0; 2; 3; 4; 1]
  else if String.eqb key "xyt-z" then Ok [0; 1; 2; 4; 3]
  else if String.eqb key "t-xyz" then Ok [0; 4; 1; 2; 3]
  else if String.eqb key "tyz-x" then Ok [0; 4; 2; 3; 1]
  else Raise KeyError.

Section Generator.

Variable to_float32 : Q -> Q.
Variable np_subtract : ndarray -> ndarray -> exc ndarray.
Variable np_transpose : np_arg -> list Z -> exc ndarray.
(** [np.concatenate(l, axis=-1)] *)
Variable np_concatenate : list ndarray -> exc ndarray.
(** The value of [np.random.randint(2)]. *)
Variable rand : bool.
(** The HDF5 files on disk, by path. *)
Variable fs : gmap string h5file.

Variable args : gen_args.

Definition n_files : nat := length (filepath args).


Definition nd_astype_float32 (a : ndarray) : ndarray :=
  mk_ndarray (nd_shape a) (map to_float32 (nd_data a)).

(** [dimensions[i] = get_dimensions_encoding(n_bins[i], batchsize)] *)
Definition dimensions : exc (list (list Z)) :=
  for_each (fun i => nb ← getitem (n_bins args) i;
                     Ok (get_dimensions_encoding nb (batchsize args)))
           (seq 0 n_files).

(** [f[i] = h5py.File(filepath[i], 'r')] *)
Definition h5py_File (path : string) : exc h5file :=
  match fs !! path with
  | Some f => Ok f
  | None => Raise (OSError path)
  end.

Definition open_files : exc (list h5file) := for_each h5py_File (filepath args).

(** [xs[i]]: the slice of file [i], reshaped and cast. *)
Definition read_image (f : list h5file) (dims : list (list Z)) (n_entries : Z)
    (i : nat) : exc ndarray :=
  fi ← dict_getitem f i;
  di ← dict_getitem dims i;
  a ← np_reshape (ds_slice (h5_x fi) n_entries (n_entries + batchsize args)) di;
  Ok (nd_astype_float32 a).

Definition zero_center (xs : list ndarray) : exc (list ndarray) :=
  match zero_center_image args with
  | None => Ok xs
  | Some image =>
      for_each (fun i => x ← dict_getitem xs i;
                         z ← getitem image i;
                         np_subtract x z)
               (seq 0 n_files)
  end.

Definition build_xs_list (xs : list ndarray) : exc inputs :=
  match swap_col args with
  | Some sc =>
      if String.eqb sc "yzt-x" || String.eqb sc "xyt-z" then
        axes ← swap_4d_channels_dict sc;
        t ← np_transpose (DictArg xs) axes;
        Ok (InputList [t])
      else if String.eqb sc "xyz-t_and_yzt-x" then
        x0 ← dict_getitem xs 0;
        axes ← swap_4d_channels_dict "yzt-x";
        xs_yzt_x ← np_transpose (ArrArg x0) axes;
        Ok (InputList [x0; xs_yzt_x])
      else if contains (sc ++ str_ident args)
                ("xyz-t_and_yzt-x" ++ "multi_input_single_train_tight-1_tight-2") then
        x0 ← dict_getitem xs 0;
        axes ← swap_4d_channels_dict "yzt-x";
        xs_yzt_x_tight_1 ← np_transpose (ArrArg x0) axes;
        x1 ← dict_getitem xs 1;
        axes ← swap_4d_channels_dict "yzt-x";
        xs_yzt_x_tight_2 ← np_transpose (ArrArg x1) axes;
        Ok (InputList [x0; xs_yzt_x_tight_1; x1; xs_yzt_x_tight_2])
      else if String.eqb sc "xyz-t_and_xyz-c_single_input" then
        x0 ← dict_getitem xs 0;
        x1 ← dict_getitem xs 1;
        xyz_t_and_xyz_c ← np_concatenate [x0; x1];
        Ok (InputSingle xyz_t_and_xyz_c)
      else Raise (ValueError ("The argument 'swap_col'=" ++ sc ++ " is not valid."))
  | None => xs_list ← for_each (dict_getitem xs) (seq 0 n_files); Ok (InputList xs_list)
  end.

(** [y_values]: the slice of the first file's ['y'], as
    [(batchsize, y_values.shape[1])]. *)
Definition read_y_values (f : list h5file) (n_entries : Z) : exc array2 :=
  f0 ← dict_getitem f 0;
  let y_values := ds_slice (h5_y f0) n_entries (n_entries + batchsize args) in
  shape1 ← getitem (nd_shape y_values) 1;
  y_values ← np_reshape y_values [batchsize args; shape1];
  to_array2 y_values.

Definition build_ys (y_values : array2) : exc labels :=
  if negb (String.eqb (class_type args).2 "track-shower") then
    ys ← get_regression_labels to_float32 y_values (class_type args);
    Ok (RegLabels ys)
  else if (batchsize args <? 0) || ((class_type args).1 <? 0)
  then Raise (ValueError "negative dimensions are not allowed")
  else
    ys ← for_each (fun y_val => encode_targets rand y_val (class_type args))
                  (a2_rows y_values);
    Ok (CatLabels ys).

(** The body of the inner loop up to the [yield]. *)
Definition make_batch (f : list h5file) (dims : list (list Z)) (n_entries : Z)
  : exc batch :=
  xs ← for_each (read_image f dims n_entries) (seq 0 n_files);
  xs ← zero_center xs;
  xs_list ← build_xs_list xs;
  y_values ← read_y_values f n_entries;
  ys ← build_ys y_values;
  Ok (mk_batch xs_list ys y_values).

Definition output_of (bt : batch) : output :=
  if yield_mc_info args
  then Out3 (b_xs_list bt) (b_ys bt) (b_y_values bt)
  else Out2 (b_xs_list bt) (b_ys bt).

(** One test of the inner [while]: either a batch is yielded and
    [n_entries] advances, or the body raises, or the loop is left. *)
Inductive inner_step_result : Type :=
| StepYield (bt : batch) (n_entries' : Z)
| StepRaise (e : exn)
| StepExit.

Definition inner_step (f : list h5file) (dims : list (list Z)) (f_size n_entries : Z)
  : inner_step_result :=
  if n_entries <=? f_size - batchsize args then
    match make_batch f dims n_entries with
    | Ok bt => StepYield bt (n_entries + batchsize args)
    | Raise e => StepRaise e
    end
  else StepExit.

(** How a pass of the inner loop ends. *)
Inductive pass_end : Type :=
| PassDone
| PassRaised (e : exn)
| PassOutOfFuel.

(** One pass of the inner loop from [n_entries]: the batches it yields in
    order, and how it ends.  [fuel] bounds the number of loop tests. *)
Fixpoint inner_loop (fuel : nat) (f : list h5file) (dims : list (list Z))
    (f_size n_entries : Z) : list batch * pass_end :=
  match fuel with
  | O => ([], PassOutOfFuel)
  | S fuel' =>
      match inner_step f dims f_size n_entries with
      | StepYield bt n_entries' =>
          let '(yielded, e) := inner_loop fuel' f dims f_size n_entries' in
          (bt :: yielded, e)
      | StepRaise e => ([], PassRaised e)
      | StepExit => ([], PassDone)
      end
  end.

(** The generator object: where its frame is suspended. *)
Inductive gen_state : Type :=
| GenStart
| GenOuter (dims : list (list Z)) (f_size : option Z)
| GenInner (dims : list (list Z)) (f : list h5file) (f_size n_entries : Z)
| GenFinished.

Inductive next_result : Type :=
| Yield (o : output) (st : gen_state)
| Raised (e : exn)
| StopIteration
| NoAnswer.

(** [next(gen)]: run the frame until the next [yield].  [fuel] bounds the
    number of control transfers; [NoAnswer] is the frame still running
    when it is used up. *)
Fixpoint next (fuel : nat) (st : gen_state) : next_result :=
  match fuel with
  | O => NoAnswer
  | S fuel' =>
      match st with
      | GenStart =>
          match dimensions with
          | Ok dims => next fuel' (GenOuter dims (f_size args))
          | Raise e => Raised e
          end
      | GenOuter dims f_size =>
          match open_files with
          | Ok f =>
              match f_size with
              | Some f_size => next fuel' (GenInner dims f f_size 0)
              | None =>
                  match dict_getitem f 0 with
                  | Ok f0 =>
                      next fuel' (GenInner dims f (Z.of_nat (length (ds_rows (h5_y f0)))) 0)
                  | Raise e => Raised e
                  end
              end
          | Raise e => Raised e
          end
      | GenInner dims f f_size n_entries =>
          match inner_step f dims f_size n_entries with
          | StepYield bt n_entries' =>
              Yield (output_of bt) (GenInner dims f f_size n_entries')
          | StepRaise e => Raised e
          | StepExit => next fuel' (GenOuter dims (Some f_size))
          end
      | GenFinished => StopIteration
      end
  end.

(** What a batch made at [n] holds.  [xs] has one array per file of
    [filepath], in that order, each the slice [x[n : n + batchsize]] of its
    file, reshaped, cast and (if asked for) zero-centered; [xs_list] is
    built from [xs], and is [xs] itself when [swap_col is None].  The event
    information and the labels come from the slice [y[n : n + batchsize]]
    of the first file. *)
Definition batch_of_slices (dims : list (list Z)) (n : Z) (bt : batch) : Prop :=
  exists xs : list ndarray,
    length xs = n_files /\
    (forall (i : nat) (path : string),
       filepath args !! i = Some path ->
       exists (fi : h5file) (di : list Z) (a img : ndarray),
         fs !! path = Some fi /\
         dims !! i = Some di /\
         np_reshape (ds_slice (h5_x fi) n (n + batchsize args)) di = Ok a /\
         xs !! i = Some img /\
         match zero_center_image args with
         | None => img = nd_astype_float32 a
         | Some image =>
             exists z, image !! i = Some z /\
                       np_subtract (nd_astype_float32 a) z = Ok img
         end) /\
    build_xs_list xs = Ok (b_xs_list bt) /\
    (swap_col args = None -> b_xs_list bt = InputList xs) /\
    exists (path0 : string) (f0 : h5file) (shape1 : Z) (y_values : ndarray),
      filepath args !! 0%nat = Some path0 /\
      fs !! path0 = Some f0 /\
      nd_shape (ds_slice (h5_y f0) n (n + batchsize args)) !! 1%nat = Some shape1 /\
      np_reshape (ds_slice (h5_y f0) n (n + batchsize args)) [batchsize args; shape1]
      = Ok y_values /\
      to_array2 y_values = Ok (b_y_values bt) /\
      build_ys (b_y_values bt) = Ok (b_ys bt).

(** What holds of a frame the generator can be suspended in: the
    dimensions and the open files are those computed from the arguments,
    and the counter is a multiple of the batchsize. *)
Definition gen_wf (st : gen_state) : Prop :=
  match st with
  | GenStart | GenFinished => True
  | GenOuter dims _ => dimensions = Ok dims
  | GenInner dims f _ n_entries =>
      dimensions = Ok dims /\ open_files = Ok f /\
      exists j : nat, n_entries = Z.of_nat j * batchsize args
  end.

(** The outputs of the first [count] calls of [next], up to the first call
    that does not yield. *)
Fixpoint yielded_from (fuel count : nat) (st : gen_state) : list output :=
  match count with
  | O => []
  | S count' =>
      match next fuel st with
      | Yield o st' => o :: yielded_from fuel count' st'
      | _ => []
      end
  end.

End Generator.

(** A generator object: the arguments of the call and the frame. *)
Record generator : Type := mk_generator { gen_args_of : gen_args; gen_frame : gen_state }.

(** Calling the generator function runs nothing of its body: it returns
    the generator object, suspended at the start. *)
Definition generate_batches_from_hdf5_file
    (filepath : list string) (batchsize : Z) (n_bins : list bins)
    (class_type : class_type_t) (str_ident : string) (f_size : option Z)
    (zero_center_image : option (list ndarray)) (yield_mc_info : bool)
    (swap_col : option string) : generator :=
  mk_generator
    (mk_gen_args filepath batchsize n_bins class_type str_ident f_size
       zero_center_image yield_mc_info swap_col)
    GenStart.

(** The outputs of the first [count] calls of [next(gen)]. *)
Definition yielded_by
    (to_float32 : Q -> Q) (np_subtract : ndarray -> ndarray -> exc ndarray)
    (np_transpose : np_arg -> list Z -> exc ndarray)
    (np_concatenate : list ndarray -> exc ndarray) (rand : bool)
    (fs : gmap string h5file) (fuel count : nat) (gen : generator) : list output :=
  yielded_from to_float32 np_subtract np_transpose np_concatenate rand fs
    (gen_args_of gen) fuel count (gen_frame gen).

(** ** nn_utilities.py: the mean image *)

(** A mean image: the shape of one row of the dataset and the mean of every
    bin; [None] when the bins are NaN. *)
Record image : Type := mk_image { im_shape : list Z; im_data : option (list Q) }.

(** [int(np.ceil(a / b))] for integers [a], [b <> 0] taken as floats. *)
Definition ceil_div (a b : Z) : Z := - ((- a) / b).

Definition get_array_memsize (x : dataset) : Z :=
  let shape := Z.of_nat (length (ds_rows x)) :: ds_row_shape x in
  let n_numbers := fold_left Z.mul (tail shape) (hd 1 shape) in
  let precision := 8 in
  (n_numbers * precision) / 8.

Definition row_width (x : dataset) : nat := Z.to_nat (shape_size (ds_row_shape x)).

(** [range(n)] *)
Definition range (n : Z) : list Z := map Z.of_nat (seq 0 (Z.to_nat n)).

(** [xs_mean_temp] of step [i]. *)
Definition step_mean (x : dataset) (steps stepsize n_rows i : Z) : option (list Q) :=
  if (i =? steps - 1) || (steps =? 1)
  then mean_axis0 (row_width x) (slice (ds_rows x) (i * stepsize) n_rows)
  else mean_axis0 (row_width x) (slice (ds_rows x) (i * stepsize) ((i + 1) * stepsize)).

(** The mean over axis 0 of a stack of means; one NaN row makes every bin
    NaN. *)
Definition mean_of_means (width : nat) (means : list (option (list Q))) : option (list Q) :=
  rows ← mapM id means;
  mean_axis0 width rows.

Section MeanImage.

Variable to_float32 : Q -> Q.

(** The loop of [get_mean_image] and the final mean, for a given number of
    [steps]. *)
Definition mean_image_in_steps (x : dataset) (steps : Z) : exc image :=
  let n_rows := Z.of_nat (length (ds_rows x)) in
  if steps =? 0 then Raise ZeroDivisionError
  else
    let stepsize := Z.quot n_rows steps in
    if steps <? 0 then Raise (ValueError "axis 0 is out of bounds for array of dimension 0")
    else
      let xs_mean_arr := map (step_mean x steps stepsize n_rows) (range steps) in
      let xs_mean := mean_of_means (row_width x) xs_mean_arr in
      Ok (mk_image (ds_row_shape x) (map to_float32 <$> xs_mean)).

Definition get_mean_image (h5 : gmap string h5file) (filepath : string) (n_gpu : Z)
  : exc image :=
  match h5 !! filepath with
  | None => Raise (OSError filepath)
  | Some f =>
      let total_memory := n_gpu * 8000000000 in
      let filesize := get_array_memsize (h5_x f) in
      if total_memory =? 0 then Raise ZeroDivisionError
      else
        let steps := ceil_div filesize total_memory in
        mean_image_in_steps (h5_x f) steps
  end.

End MeanImage.

(** The per-bin mean over all rows of a dataset. *)
Definition whole_mean (x : dataset) : option (list Q) :=
  mean_axis0 (row_width x) (ds_rows x).

(** ** nn_utilities.py: [load_zero_center_data] *)

(** A saved [.npz] file: the mean image and the train files it was
    computed from. *)
Record npz_file : Type :=
  mk_npz { npz_xs_mean : image; npz_zero_center_used_ip_files : list string }.

(** The part of the file system the code touches: HDF5 files by path,
    directories (by the string that names them) with their listing, and
    [.npz] files by path. *)
Record disk : Type := mk_disk {
  d_h5 : gmap string h5file;
  d_dirs : gmap string (list string);
  d_npz : gmap string npz_file
}.

Definition is_slash (c : Ascii.ascii) : bool := Ascii.eqb c "/"%char.

(** [os.path.basename]: what follows the last slash. *)
Fixpoint basename_from (s acc : string) : string :=
  match s with
  | EmptyString => acc
  | String c s' =>
      if is_slash c then basename_from s' EmptyString
      else basename_from s' (acc ++ String c EmptyString)
  end.

Definition basename (s : string) : string := basename_from s EmptyString.

(** The path up to and including the last slash. *)
Definition dirname_slash (s : string) : string :=
  String.substring 0 (String.length s - String.length (basename s)) s.

Definition endswith (s suffix : string) : bool :=
  String.eqb
    (String.substring (String.length s - String.length suffix) (String.length suffix) s)
    suffix
  && (String.length suffix <=? String.length s)%nat.

Definition np_load (d : disk) (path : string) : exc npz_file :=
  match d_npz d !! path with
  | Some z => Ok z
  | None => Raise (OSError path)
  end.

(** [np.savez(filename, ...)] for a filename that ends in [.npz]: the file
    is written and shows up in the listing of the directory it lies in. *)
Definition np_savez (d : disk) (filename : string) (z : npz_file) : disk :=
  let dir := dirname_slash filename in
  let name := basename filename in
  mk_disk (d_h5 d)
    (match d_dirs d !! dir with
     | Some names =>
         if bool_decide (name ∈ names) then d_dirs d
         else <[dir := (names ++ [name])%list]> (d_dirs d)
     | None => d_dirs d
     end)
    (<[filename := z]> (d_npz d)).

(** The attributes of the settings object [cfg] that are read here. *)
Record settings : Type := mk_settings {
  cfg_train_files : list (list string * Z);
  cfg_zero_center_folder : string;
  cfg_list_file : string;
  cfg_n_gpu : Z * string
}.

Definition load_fpaths_of_existing_zero_center_files
    (d : disk) (zero_center_folder : string) : list string * disk :=
  match d_dirs d !! zero_center_folder with
  | Some names =>
      (map (fun file => zero_center_folder ++ file)
           (filter (fun file => endswith file ".npz" = true) names), d)
  | None =>
      ([], mk_disk (d_h5 d) (<[zero_center_folder := []]> (d_dirs d)) (d_npz d))
  end.

Definition get_fpaths_for_train_files_input_i
    (train_files : list (list string * Z)) (i : nat) : exc (list string) :=
  for_each (fun tf : list string * Z => getitem tf.1 i) train_files.

Fixpoint get_precalculated_xs_mean_if_exists
    (d : disk) (zero_center_files : list string) (all_train_files_for_ip_i : list string)
  : exc (option image) :=
  match zero_center_files with
  | [] => Ok None
  | file :: rest =>
      z ← np_load d file;
      if bool_decide (npz_zero_center_used_ip_files z = all_train_files_for_ip_i)
      then z' ← np_load d file; Ok (Some (npz_xs_mean z'))
      else get_precalculated_xs_mean_if_exists d rest all_train_files_for_ip_i
  end.

(** [str(i)] for a natural number. *)
Definition str_nat (i : nat) : string := pretty i.

Section ZeroCenter.

Variable to_float32 : Q -> Q.

(** The mean over the files of one input; the images must have one shape. *)
Definition mean_over_files (steps : list image) : exc image :=
  match steps with
  | [] => Raise IndexError
  | first :: _ =>
      if bool_decide (Forall (fun s => im_shape s = im_shape first) steps) then
        if decide (1 < length steps)%nat then
          Ok (mk_image (im_shape first)
                (map to_float32 <$>
                   mean_of_means (Z.to_nat (shape_size (im_shape first)))
                     (map im_data steps)))
        else Ok first
      else Raise (ValueError "could not broadcast input array")
  end.

(** One turn of the loop over the model inputs, from the list [xs_mean]
    and the disk as they are to what they are afterwards. *)
Definition load_zero_center_data_input
    (cfg : settings) (xs_mean : list image) (d : disk) (i : nat)
  : exc (list image * disk) :=
  let train_files := cfg_train_files cfg in
  let zero_center_folder := cfg_zero_center_folder cfg in
  let train_files_list_name := basename (cfg_list_file cfg) in
  let '(zero_center_files, d) :=
    load_fpaths_of_existing_zero_center_files d zero_center_folder in
  all_train_files_for_ip_i ← get_fpaths_for_train_files_input_i train_files i;
  xs_mean_for_ip_i ←
    get_precalculated_xs_mean_if_exists d zero_center_files all_train_files_for_ip_i;
  '(xs_mean, xs_mean_for_ip_i, d) ←
    match xs_mean_for_ip_i with
    | Some xs_mean_for_ip_i =>
        (* xs_mean.append(xs_mean_for_ip_i) *)
        Ok ((xs_mean ++ [xs_mean_for_ip_i])%list, xs_mean_for_ip_i, d)
    | None =>
        steps ← for_each
          (fun tf : list string * Z =>
             filepath_j ← getitem tf.1 i;
             get_mean_image to_float32 (d_h5 d) filepath_j (cfg_n_gpu cfg).1)
          train_files;
        xs_mean_for_ip_i ← mean_over_files steps;
        let filename :=
          zero_center_folder ++ train_files_list_name ++ "_" ++ str_nat i ++ ".npz" in
        let d := np_savez d filename (mk_npz xs_mean_for_ip_i all_train_files_for_ip_i) in
        Ok (xs_mean, xs_mean_for_ip_i, d)
    end;
  (* xs_mean.append(xs_mean_for_ip_i) *)
  Ok ((xs_mean ++ [xs_mean_for_ip_i])%list, d).

Fixpoint load_zero_center_data_loop
    (cfg : settings) (xs_mean : list image) (d : disk) (inputs : list nat)
  : exc (list image * disk) :=
  match inputs with
  | [] => Ok (xs_mean, d)
  | i :: rest =>
      '(xs_mean, d) ← load_zero_center_data_input cfg xs_mean d i;
      load_zero_center_data_loop cfg xs_mean d rest
  end.

(** Returns [xs_mean] and the disk with the files that were saved. *)
Definition load_zero_center_data (cfg : settings) (d : disk) : exc (list image * disk) :=
  first ← getitem (cfg_train_files cfg) 0;
  load_zero_center_data_loop cfg [] d (seq 0 (length first.1)).

End ZeroCenter.

(** ** model_setup.py *)

Module ModelSetup.

(** A Keras model, as the call that produced it. *)
Inductive model : Type :=
| WideResidualNetwork (n_bins : bins) (nb_classes : Z) (swap_4d_channels : option string)
| VggMultiInputFromSingleNns (n_bins : list bins) (str_ident : string) (nb_classes : Z)
    (swap_4d_channels : option string)
| VggLikeModel (n_bins : list bins) (class_type : class_type_t)
    (swap_4d_channels : option string)
| LoadedModel (path : string)
| ParallelModel (m : model) (gpus_list : list string).

Inductive loss_function : Type :=
| CustomLoss (name : string)
| KerasLoss (name : string).

Inductive optimizer_t : Type := Adam | SGD.

(** One entry of [loss_opt[0]]: the name of the loss function and, if
    given, its weight. *)
Record loss_entry : Type := mk_loss_entry { le_function : string; le_weight : option Q }.

Definition loss_opt_t : Type := (gmap string loss_entry * option (list string))%type.

(** The arguments of [model.compile]. *)
Record compile_args : Type := mk_compile_args {
  ca_loss : gmap string loss_function;
  ca_optimizer : optimizer_t;
  ca_metrics : list string;
  ca_loss_weights : gmap string Q
}.

(** The calls on Keras that act on a model or on the disk. *)
Inductive event : Type :=
| LoadModel (path : string)
| MakeParallel (m : model) (gpus_list : list string)
| PrintMgpuModelsummary (m : model)
| Compile (m : model) (a : compile_args)
| Summary (m : model).

(** A computation that logs the calls it makes and may raise. *)
Record keras (A : Type) : Type := mk_keras { k_log : list event; k_result : exc A }.

Arguments mk_keras {A} k_log k_result.
Arguments k_log {A} k.
Arguments k_result {A} k.

Definition keras_ret {A : Type} (a : A) : keras A := mk_keras [] (Ok a).

Definition keras_bind {A B : Type} (c : keras A) (k : A -> keras B) : keras B :=
  match k_result c with
  | Ok a => mk_keras (k_log c ++ k_log (k a))%list (k_result (k a))
  | Raise e => mk_keras (k_log c) (Raise e)
  end.

#[global] Instance keras_mret : MRet keras := fun A a => keras_ret a.
#[global] Instance keras_mbind : MBind keras := fun A B k c => keras_bind c k.

Definition call (ev : event) : keras unit := mk_keras [ev] (Ok tt).
Definition raise {A : Type} (e : exn) : keras A := mk_keras [] (Raise e).
Definition lift {A : Type} (c : exc A) : keras A := mk_keras [] c.

Definition is_compile (ev : event) : bool :=
  match ev with
  | Compile _ _ => true
  | _ => false
  end.

(** The [model.compile] calls in a log, in order. *)
Definition compile_calls (log : list event) : list event := List.filter is_compile log.

Section Setup.

(** [get_available_gpus(n)] of [utilities/multi_gpu/multi_gpu.py]: the
    names of the GPUs that are used. *)
Variable get_available_gpus : Z -> list string.
(** The names in [get_all_loss_functions()] of [utilities/losses.py]. *)
Variable custom_objects : gset string.

Definition parallelize_model_to_n_gpus
    (m : model) (n_gpu : Z * string) (batchsize : Z) (a : compile_args)
  : keras (model * Z) :=
  if String.eqb n_gpu.2 "avolkov" then
    if n_gpu.1 =? 1 then mret (m, batchsize)
    else if negb (1 <? n_gpu.1) then raise AssertionError
    else
      let gpus_list := get_available_gpus n_gpu.1 in
      let ngpus := Z.of_nat (length gpus_list) in
      let batchsize := batchsize * ngpus in
      _ ← call (MakeParallel m gpus_list);
      let m := ParallelModel m gpus_list in
      _ ← call (PrintMgpuModelsummary m);
      _ ← call (Compile m a);
      mret (m, batchsize)
  else raise (ValueError "Currently, no multi_gpu mode other than avolkov is available.").

Definition build_nn_model
    (nn_arch : string) (n_bins : list bins) (class_type : class_type_t)
    (swap_4d_channels : option string) (str_ident : string) : exc model :=
  if String.eqb nn_arch "WRN" then
    n_bins_0 ← getitem n_bins 0;
    Ok (WideResidualNetwork n_bins_0 class_type.1 swap_4d_channels)
  else if String.eqb nn_arch "VGG" then
    if contains str_ident "multi_input_single_train"
    then Ok (VggMultiInputFromSingleNns n_bins str_ident class_type.1 swap_4d_channels)
    else Ok (VggLikeModel n_bins class_type swap_4d_channels)
  else Raise (ValueError "Currently, only WRN or VGG are available as nn_arch").

Definition get_optimizer_info (loss_opt : loss_opt_t) (optimizer : string)
  : exc compile_args :=
  optimizer ←
    (if String.eqb optimizer "adam" then Ok Adam
     else if String.eqb optimizer "sgd" then Ok SGD
     else Raise (NameError ("Unknown optimizer name (" ++ optimizer ++ ")")));
  let loss_functions :=
    (fun e => if bool_decide (le_function e ∈ custom_objects)
              then CustomLoss (le_function e) else KerasLoss (le_function e))
      <$> loss_opt.1 in
  let loss_weight := (fun e => default 1%Q (le_weight e)) <$> loss_opt.1 in
  let metrics := default [] loss_opt.2 in
  Ok (mk_compile_args loss_functions optimizer metrics loss_weight).

Definition path_of_model (folder_name : string) (epoch : Z * Z) : string :=
  folder_name ++ "/saved_models/model_epoch_" ++ pretty epoch.1
              ++ "_file_" ++ pretty epoch.2 ++ ".h5".

Definition build_or_load_nn_model
    (epoch : Z * Z) (folder_name nn_arch : string) (n_bins : list bins)
    (class_type : class_type_t) (swap_4d_channels : option string) (str_ident : string)
    (loss_opt : loss_opt_t) (n_gpu : Z * string) (batchsize : Z) : keras model :=
  m ← (if epoch.1 =? 0
       then lift (build_nn_model nn_arch n_bins class_type swap_4d_channels str_ident)
       else
         let path_of_model := path_of_model folder_name epoch in
         _ ← call (LoadModel path_of_model);
         mret (LoadedModel path_of_model));
  a ← lift (get_optimizer_info loss_opt "adam");
  '(m, batchsize) ← parallelize_model_to_n_gpus m n_gpu batchsize a;
  _ ← call (Summary m);
  _ ← (if epoch.1 =? 0 then call (Compile m a) else mret tt);
  mret m.

End Setup.

End ModelSetup.

(** ** Example data *)

(** Five events in one file: images of two bins, and per event the columns
    event id, particle type, energy, is_cc. *)
Definition example_file : h5file :=
  mk_h5file
    (mk_dataset [2] [[1; 2]; [3; 4]; [5; 6]; [7; 8]; [9; 10]]%Q)
    (mk_dataset [4] [[0; 12; 5; 0]; [1; 14; 7; 1]; [2; -12; 3; 1];
                     [3; 16; 9; 1]; [4; -14; 2; 1]]%Q).

Definition example_fs : gmap string h5file := {[ "train.h5" := example_file ]}.

(** Batches of two events, the first five events of the file, track-shower
    labels, no zero-centering, no swapping of columns. *)
Definition example_args : gen_args :=
  mk_gen_args ["train.h5"] 2 [(2, 1, 1, 1)] (2, "track-shower") "" (Some 5) None true None.

(** The numpy functions the example never reaches. *)
Definition not_reached {A B : Type} (a : A) (b : B) : exc ndarray :=
  Raise (ValueError "not reached").

Definition not_reached1 {A : Type} (a : A) : exc ndarray :=
  Raise (ValueError "not reached").

(** A dataset of three images of one bin each. *)
Definition three_rows : dataset := mk_dataset [1] [[0]; [0]; [6]]%Q.

(** A file of three images whose bins all hold [v0], [v1], [v2]. *)
Definition flat_rows (n : nat) (v0 v1 v2 : Q) : dataset :=
  mk_dataset [Z.of_nat n] [replicate n v0; replicate n v1; replicate n v2].

(** Four thousand million bins per image: a file of 12 GB. *)
Definition big_width : nat := Z.to_nat 4000000000.

Definition one_input_cfg : settings :=
  mk_settings [(["train_0.h5"], 3)] "zero_center/" "lists/run.toml" (1, "avolkov").

Definition train_0 : h5file :=
  mk_h5file three_rows (mk_dataset [2] [[1; 12]; [2; 14]; [3; 16]]%Q).

(** A disk with the train file and an empty zero-center folder. *)
Definition fresh_disk : disk :=
  mk_disk {[ "train_0.h5" := train_0 ]} {[ "zero_center/" := [] ]} ∅.

Definition result_length (r : exc (list image * disk)) : option nat :=
  match r with
  | Ok (xs_mean, _) => Some (length xs_mean)
  | Raise _ => None
  end.

Definition disk_after (r : exc (list image * disk)) (d : disk) : disk :=
  match r with
  | Ok (_, d') => d'
  | Raise _ => d
  end.

(** A machine with two GPUs. *)
Definition two_gpus (n : Z) : list string := ["/gpu:0"; "/gpu:1"].

Ltac case_bins :=
  repeat match goal with
         | |- context [Z.eqb ?a ?b] => destruct (Z.eqb_spec a b)
         end.

(** A string in which the character [c] does not occur; without a slash it
    is a file name, not a path. *)
Fixpoint lacks (c : ascii) (s : string) : bool :=
  match s with
  | EmptyString => true
  | String c' s' => negb (Ascii.eqb c' c) && lacks c s'
  end.


(** A file that loads and was saved for other train files. *)
Definition other_files (d : disk) (paths : list string) (file : string) : Prop :=
  exists z, d_npz d !! file = Some z /\ npz_zero_center_used_ip_files z <> paths.

(** ** nn_utilities.py and eval_nn.py: [get_modelname] *)

Definition bins_list (b : bins) : list Z :=
  let '(nx, ny, nz, nt) := b in [nx; ny; nz; nt].

(** [bins.count(v)] *)
Definition bins_count (b : bins) (v : Z) : Z :=
  Z.of_nat (length (filter (fun n => n = v) (bins_list b))).

(** The body of the loop over [enumerate(n_bins)]: what one input adds to
    [projection]. *)
Definition projection_step
    (swap_4d_channels : option string) (i : nat) (b : bins) (projection : string) : string :=
  let '(nx, ny, nz, nt) := b in
  let dim := 4 - bins_count b 1 in
  let projection := if (0 <? i)%nat then projection ++ "_and_" else projection in
  let projection := projection ++ (pretty dim ++ "d_") in
  if (bins_count b 1 =? 0) && (i =? 0)%nat then
    match swap_4d_channels with
    | Some s => projection ++ s
    | None => projection ++ (if nt =? 31 then "xyz-c" else "xyz-t")
    end
  else
    let projection := if 1 <? nx then projection ++ "x" else projection in
    let projection := if 1 <? ny then projection ++ "y" else projection in
    let projection := if 1 <? nz then projection ++ "z" else projection in
    let projection := if 1 <? nt then projection ++ "t" else projection in
    projection.

Fixpoint projection_loop
    (swap_4d_channels : option string) (i : nat) (n_bins : list bins) (projection : string)
  : string :=
  match n_bins with
  | [] => projection
  | b :: rest =>
      projection_loop swap_4d_channels (S i) rest
        (projection_step swap_4d_channels i b projection)
  end.

(** [str_ident is not ''] *)
Definition is_not_empty (s : string) : bool :=
  match s with
  | EmptyString => false
  | String _ _ => true
  end.

Definition get_modelname
    (n_bins : list bins) (class_type : class_type_t) (nn_arch : string)
    (swap_4d_channels : option string) (str_ident : string) : string :=
  let modelname := "model_" ++ nn_arch ++ "_" in
  let projection := projection_loop swap_4d_channels 0 n_bins "" in
  let str_ident := if is_not_empty str_ident then "_" ++ str_ident else str_ident in
  modelname ++ (((projection ++ "_") ++ class_type.2) ++ str_ident).

Module EvalNn.

(** The copy in eval_nn.py, which takes the class string itself. *)
Definition get_modelname
    (n_bins : list bins) (class_type : string) (nn_arch : string)
    (swap_4d_channels : option string) (str_ident : string) : string :=
  let modelname := "model_" ++ nn_arch ++ "_" in
  let projection := projection_loop swap_4d_channels 0 n_bins "" in
  let str_ident := if is_not_empty str_ident then "_" ++ str_ident else str_ident in
  modelname ++ (((projection ++ "_") ++ class_type) ++ str_ident).

End EvalNn.

(** Two bin tuples that agree on which bins are 1, which are larger than
    1, and whether the time bins are 31. *)
Definition same_projection (b b' : bins) : Prop :=
  Forall2 (fun n n' => (n = 1 <-> n' = 1) /\ (1 < n <-> 1 < n')) (bins_list b) (bins_list b')
  /\ (b.2 = 31 <-> b'.2 = 31).

(** ** The steps of an epoch: [BatchLevelPerformanceLogger] and
       [write_summary_logfile] *)

(** [l[i]] for a Python integer [i]: a negative index counts from the
    end. *)
Definition py_getitem {A : Type} (l : list A) (i : Z) : exc A :=
  let len := Z.of_nat (length l) in
  if (0 <=? i) && (i <? len) then getitem l (Z.to_nat i)
  else if (- len <=? i) && (i <? 0) then getitem l (Z.to_nat (len + i))
  else Raise IndexError.

(** The loop that both [BatchLevelPerformanceLogger.__init__] and
    [write_summary_logfile] run over the file sizes; [int(f_size /
    batchsize)] is taken without the rounding of the float division. *)
Fixpoint steps_loop (batchsize : Z) (f_sizes : list Z)
    (steps_per_total_epoch : Z) (steps_cum : list Z) : exc (Z * list Z) :=
  match f_sizes with
  | [] => Ok (steps_per_total_epoch, steps_cum)
  | f_size :: rest =>
      if batchsize =? 0 then Raise ZeroDivisionError
      else
        let steps_per_file := Z.quot f_size batchsize in
        let steps_per_total_epoch := steps_per_total_epoch + steps_per_file in
        last ← py_getitem steps_cum (-1);
        steps_loop batchsize rest steps_per_total_epoch
          (steps_cum ++ [last + steps_per_file])%list
  end.

(** in_out.py: the [epoch_number_float] that [write_summary_logfile]
    writes into the first column of summary.txt. *)
Definition epoch_number_float (file_sizes : list Z) (batchsize : Z) (epoch : Z * Z)
  : exc Q :=
  '(steps_per_total_epoch, steps_cum) ← steps_loop batchsize file_sizes 0 [0];
  done ← py_getitem steps_cum epoch.2;
  if steps_per_total_epoch =? 0 then Raise ZeroDivisionError
  else Ok (inject_Z epoch.1
           - inject_Z (steps_per_total_epoch - done) / inject_Z steps_per_total_epoch)%Q.

Module Logger.

(** What a callback can raise: the exceptions above and [TypeError]. *)
Inductive error : Type :=
| Exn (e : exn)
| TypeError.

Inductive result (A : Type) : Type :=
| Done (a : A)
| Fail (e : error).

Arguments Done {A} a.
Arguments Fail {A} e.

#[global] Instance result_ret : MRet result := fun A a => Done a.
#[global] Instance result_bind : MBind result :=
  fun A B k c => match c with Done a => k a | Fail e => Fail e end.

Definition of_exc {A : Type} (c : exc A) : result A :=
  match c with
  | Ok a => Done a
  | Raise e => Fail (Exn e)
  end.

(** A line of the log file, as the values that are formatted into it:
    ['\n{seen}\t{batchnumber_float}'] and one ['\t' + str(mean)] for every
    metric. *)
Record line : Type := mk_line { ln_seen : Z; ln_batchnumber_float : Q; ln_means : list Q }.

(** The attributes of the callback, and the lines it has written into its
    log file after the head line. *)
Record logger : Type := mk_logger {
  display : Z;
  epoch_number : Z;
  f_number : Z;
  metrics_names : list string;
  flush : Z;
  seen : Z;
  logfile_train_fname : string;
  loglist : list line;
  cum_metrics : gmap string Q;
  steps_per_total_epoch : Z;
  steps_cum : list Z;
  logfile_train : list line
}.

(** [__init__]; [metrics_names] is [model.metrics_names]. *)
Definition init
    (train_files : list (list string * Z)) (batchsize display : Z)
    (metrics_names : list string) (folder_name : string) (epoch : Z * Z)
    (flush_after_n_lines : Z) : exc logger :=
  let logfile_train_fname :=
    folder_name ++ "/log_train/log_epoch_" ++ pretty epoch.1
                ++ "_file_" ++ pretty epoch.2 ++ ".txt" in
  let cum_metrics :=
    fold_left (fun cum metric => <[metric := 0%Q]> cum) metrics_names ∅ in
  '(steps_per_total_epoch, steps_cum) ← steps_loop batchsize (map snd train_files) 0 [0];
  Ok (mk_logger display epoch.1 epoch.2 metrics_names flush_after_n_lines 0
        logfile_train_fname [] cum_metrics steps_per_total_epoch steps_cum []).

(** [self.cum_metrics[metric] += logs.get(metric)] for every metric. *)
Fixpoint add_logs (logs cum : gmap string Q) (metrics : list string)
  : result (gmap string Q) :=
  match metrics with
  | [] => Done cum
  | metric :: rest =>
      match cum !! metric with
      | None => Fail (Exn KeyError)
      | Some c =>
          match logs !! metric with
          | None => Fail TypeError
          | Some v => add_logs logs (<[metric := (c + v)%Q]> cum) rest
          end
      end
  end.

(** The loop that appends the means to the line and sets the sums back to
    0. *)
Fixpoint take_means (display : Z) (cum : gmap string Q) (metrics : list string)
  : result (list Q * gmap string Q) :=
  match metrics with
  | [] => Done ([], cum)
  | metric :: rest =>
      match cum !! metric with
      | None => Fail (Exn KeyError)
      | Some c =>
          '(means, cum) ← take_means display (<[metric := 0%Q]> cum) rest;
          Done ((c / inject_Z display)%Q :: means, cum)
      end
  end.

Definition on_batch_end (lg : logger) (logs : gmap string Q) : result logger :=
  let seen := seen lg + 1 in
  cum_metrics ← add_logs logs (cum_metrics lg) (metrics_names lg);
  if display lg =? 0 then Fail (Exn ZeroDivisionError)
  else if negb (seen mod display lg =? 0) then
    Done (mk_logger (display lg) (epoch_number lg) (f_number lg) (metrics_names lg)
            (flush lg) seen (logfile_train_fname lg) (loglist lg) cum_metrics
            (steps_per_total_epoch lg) (steps_cum lg) (logfile_train lg))
  else if steps_per_total_epoch lg =? 0 then Fail (Exn ZeroDivisionError)
  else
    offset ← of_exc (py_getitem (steps_cum lg) (f_number lg - 1));
    let batchnumber_float :=
      ((inject_Z seen - inject_Z (display lg) / 2) / inject_Z (steps_per_total_epoch lg)
       + inject_Z (epoch_number lg) - 1
       + inject_Z offset / inject_Z (steps_per_total_epoch lg))%Q in
    '(means, cum_metrics) ← take_means (display lg) cum_metrics (metrics_names lg);
    let loglist := (loglist lg ++ [mk_line seen batchnumber_float means])%list in
    if negb (flush lg =? -1) then
      if flush lg =? 0 then Fail (Exn ZeroDivisionError)
      else if display lg mod flush lg =? 0 then
        Done (mk_logger (display lg) (epoch_number lg) (f_number lg) (metrics_names lg)
                (flush lg) seen (logfile_train_fname lg) [] cum_metrics
                (steps_per_total_epoch lg) (steps_cum lg)
                (logfile_train lg ++ loglist)%list)
      else
        Done (mk_logger (display lg) (epoch_number lg) (f_number lg) (metrics_names lg)
                (flush lg) seen (logfile_train_fname lg) loglist cum_metrics
                (steps_per_total_epoch lg) (steps_cum lg) (logfile_train lg))
    else
      Done (mk_logger (display lg) (epoch_number lg) (f_number lg) (metrics_names lg)
              (flush lg) seen (logfile_train_fname lg) loglist cum_metrics
              (steps_per_total_epoch lg) (steps_cum lg) (logfile_train lg)).

Definition on_epoch_end (lg : logger) : logger :=
  mk_logger (display lg) (epoch_number lg) (f_number lg) (metrics_names lg)
    (flush lg) (seen lg) (logfile_train_fname lg) (loglist lg) (cum_metrics lg)
    (steps_per_total_epoch lg) (steps_cum lg)
    (logfile_train lg ++ loglist lg)%list.

(** The calls of [on_batch_end] that Keras makes in one [fit_generator],
    one for every batch, with the logs of that batch. *)
Fixpoint on_batches (lg : logger) (batches : list (gmap string Q)) : result logger :=
  match batches with
  | [] => Done lg
  | logs :: rest =>
      lg ← on_batch_end lg logs;
      on_batches lg rest
  end.

(** The attributes that [on_batch_end] never assigns. *)
Definition same_settings (lg lg' : logger) : Prop :=
  display lg' = display lg /\ epoch_number lg' = epoch_number lg /\
  f_number lg' = f_number lg /\ metrics_names lg' = metrics_names lg /\
  flush lg' = flush lg /\ steps_per_total_epoch lg' = steps_per_total_epoch lg /\
  steps_cum lg' = steps_cum lg /\ logfile_train_fname lg' = logfile_train_fname lg.

(** The line that [on_batch_end] appends when [seen] is a multiple of
    [display]. *)
Definition new_line (lg : logger) (offset : Z) (means : list Q) : line :=
  mk_line (seen lg + 1)
    ((inject_Z (seen lg + 1) - inject_Z (display lg) / 2)
       / inject_Z (steps_per_total_epoch lg)
     + inject_Z (epoch_number lg) - 1
     + inject_Z offset / inject_Z (steps_per_total_epoch lg))%Q
    means.

Definition flushes (lg : logger) : Prop :=
  flush lg <> -1 /\ display lg mod flush lg = 0.

(** What [cum_metrics[metric]] holds after the batches [batches], starting
    from 0. *)
Definition metric_sum (metric : string) (batches : list (gmap string Q)) : Q :=
  fold_left Qplus (map (fun logs => default 0%Q (logs !! metric)) batches) 0%Q.

(** The lines of the log: those in the file and those still in
    [loglist]. *)
Definition log_of (lg : logger) : list line := (logfile_train lg ++ loglist lg)%list.

(** The state of the callback after the batches [processed], for
    [display = dn] and the metrics [ms]. *)
Definition logged (dn : nat) (ms : list string) (processed : list (gmap string Q))
    (lg : logger) : Prop :=
  seen lg = Z.of_nat (length processed) /\
  (forall metric, metric ∈ ms ->
     cum_metrics lg !! metric
     = Some (metric_sum metric (drop (length processed / dn * dn) processed))) /\
  length (log_of lg) = (length processed / dn)%nat /\
  forall (j : nat) (l : line),
    log_of lg !! j = Some l ->
    ln_seen l = Z.of_nat ((j + 1) * dn) /\
    ln_means l
    = map (fun metric =>
             (metric_sum metric (take dn (drop (j * dn) processed))
              / inject_Z (Z.of_nat dn))%Q) ms.

End Logger.

(** Five batches with their loss and accuracy, and two train files of 10
    and 7 rows. *)
Definition example_logs (loss acc : Q) : gmap string Q :=
  {[ "loss" := loss; "acc" := acc ]}.

Definition example_batches : list (gmap string Q) :=
  [example_logs 1 2; example_logs 3 4; example_logs 5 6; example_logs 7 8;
   example_logs 9 10].

Definition example_train_files : list (list string * Z) :=
  [(["a.h5"], 10); (["b.h5"], 7)].

(** ** in_out.py: [read_out_list_file], [h5_get_number_of_rows] and the
       file names of [read_logfiles] *)

(** [l.count(x)] *)
Definition py_count {A : Type} `{EqDecision A} (l : list A) (x : A) : nat :=
  length (filter (fun y => y = x) l).

(** What [toml.load] gives for one input of a list file: the values under
    the keys 'train_files' and 'validation_files', if present. *)
Record list_file_input : Type := mk_list_file_input {
  lf_train_files : option (list string);
  lf_validation_files : option (list string)
}.

Definition dict_get {A : Type} (v : option A) : exc A :=
  match v with
  | Some a => Ok a
  | None => Raise KeyError
  end.

(** The loop over the inputs.  A dict is the list of its items, in the
    order of insertion; the keys are distinct. *)
Fixpoint read_out_list_file_loop
    (file_content : list (string * list_file_input))
    (train_files validation_files : list (string * list string)) (n_train n_val : list nat)
  : exc (list (string * list string) * list (string * list string) * list nat * list nat) :=
  match file_content with
  | [] => Ok (train_files, validation_files, n_train, n_val)
  | (input_key, input) :: rest =>
      train ← dict_get (lf_train_files input);
      validation ← dict_get (lf_validation_files input);
      read_out_list_file_loop rest
        (train_files ++ [(input_key, train)])%list
        (validation_files ++ [(input_key, validation)])%list
        (n_train ++ [length train])%list
        (n_val ++ [length validation])%list
  end.

(** [read_out_list_file], from the content that [toml.load(file)]
    returns. *)
Definition read_out_list_file (file_content : list (string * list_file_input))
  : exc (list (string * list string) * list (string * list string)) :=
  '(train_files, validation_files, n_train, n_val) ←
    read_out_list_file_loop file_content [] [] [] [];
  n_train_0 ← getitem n_train 0;
  if negb (bool_decide (py_count n_train n_train_0 = length n_train))
  then Raise AssertionError
  else
    n_val_0 ← getitem n_val 0;
    if negb (bool_decide (py_count n_val n_val_0 = length n_val))
    then Raise AssertionError
    else Ok (train_files, validation_files).

(** [f[dataset]] on a file that holds the datasets 'x' and 'y'. *)
Definition h5_getitem (f : h5file) (name : string) : exc dataset :=
  if String.eqb name "x" then Ok (h5_x f)
  else if String.eqb name "y" then Ok (h5_y f)
  else Raise KeyError.

Definition h5_get_number_of_rows
    (fs : gmap string h5file) (h5_filepath : string) (datasets : list string) : exc nat :=
  match fs !! h5_filepath with
  | None => Raise (OSError h5_filepath)
  | Some f =>
      number_of_rows ←
        for_each (fun name => ds ← h5_getitem f name; Ok (length (ds_rows ds)))
          datasets;
      first ← getitem number_of_rows 0;
      if negb (bool_decide (py_count number_of_rows first = length number_of_rows))
      then Raise AssertionError
      else getitem number_of_rows 0
  end.

(** [s.split(c)] for a separator of one character. *)
Fixpoint split_on (c : ascii) (s : string) : list string :=
  match s with
  | EmptyString => [EmptyString]
  | String c' s' =>
      if Ascii.eqb c' c then EmptyString :: split_on c s'
      else
        match split_on c s' with
        | [] => [String c' EmptyString]
        | piece :: pieces => String c' piece :: pieces
        end
  end.

(** [sep.join(pieces)] *)
Fixpoint join (sep : string) (pieces : list string) : string :=
  match pieces with
  | [] => EmptyString
  | [piece] => piece
  | piece :: rest => piece ++ sep ++ join sep rest
  end.

(** [read_logfiles]: the folder of the training logs. *)
Definition log_train_folder (summary_logfile : string) : string :=
  join "/" (slice (split_on "/" summary_logfile) 0 (-1)) ++ "/log_train/".

(** [read_logfiles]: the epoch and the file number taken from the name of
    a training log; [py_int] is Python's [int] on strings. *)
Definition epoch_and_file_no (py_int : string -> exc Z) (file : string) : exc (Z * Z) :=
  stem ← getitem (split_on "." file) 0;
  let parts := split_on "_" stem in
  part ← getitem parts 2;
  epoch ← py_int part;
  part ← getitem parts 4;
  file_no ← py_int part;
  Ok (epoch, file_no).

(** An [int] that reads the numerals 1 and 2. *)
Definition int_1_2 (s : string) : exc Z :=
  if String.eqb s "1" then Ok 1
  else if String.eqb s "2" then Ok 2
  else Raise (ValueError "invalid literal for int() with base 10").

(** * Properties *)

(** ** Slices *)

Lemma slice_take_drop {A : Type} (l : list A) (n b : Z) :
  0 <= n -> 0 <= b ->
  slice l n (n + b) = take (Z.to_nat b) (drop (Z.to_nat n) l).
Proof.
  intros Hn Hb. unfold slice, slice_bound.
  destruct (Z.ltb_spec n 0); [lia|]. destruct (Z.ltb_spec (n + b) 0); [lia|].
  set (len := Z.of_nat (length l)).
  assert (Hlen : length l = Z.to_nat len) by (subst len; lia).
  destruct (Z.le_gt_cases n len) as [Hle|Hgt].
  - rewrite (Z.min_l n len) by lia.
    destruct (Z.le_gt_cases (n + b) len).
    + rewrite Z.min_l by lia. f_equal. lia.
    + rewrite Z.min_r by lia.
      rewrite !take_ge; [reflexivity| |]; rewrite length_drop; lia.
  - rewrite !Z.min_r by lia.
    rewrite (drop_ge l (Z.to_nat n)) by lia.
    rewrite Z.sub_diag. simpl. rewrite take_nil. reflexivity.
Qed.


Lemma concat_rows_length (rows : list (list Q)) (w : Z) :
  Forall (fun r => Z.of_nat (length r) = w) rows ->
  Z.of_nat (length (concat rows)) = Z.of_nat (length rows) * w.
Proof.
  induction 1 as [|r rows Hr _ IH]; [reflexivity|].
  simpl. rewrite length_app. lia.
Qed.

(** ** The dimensions tuple *)

Lemma filter_negative_nil (dims : list Z) :
  Forall (fun d => 0 <= d) dims -> filter (fun d => d < 0) dims = [].
Proof.
  induction 1 as [|d dims Hd _ IH]; [reflexivity|].
  rewrite filter_cons. destruct (decide (d < 0)); [lia | exact IH].
Qed.

Lemma np_reshape_same_size (a : ndarray) (dims : list Z) :
  Forall (fun d => 0 <= d) dims ->
  shape_size dims = size a ->
  np_reshape a dims = Ok (mk_ndarray dims (nd_data a)).
Proof.
  intros Hpos Hsize. unfold np_reshape.
  rewrite (filter_negative_nil dims Hpos).
  apply Z.eqb_eq in Hsize. rewrite Hsize. reflexivity.
Qed.

(** C9.  For a batchsize of at least 1 and positive bin counts, the entries
    of the tuple returned by [get_dimensions_encoding] multiply to
    [batchsize * n_bins[0] * n_bins[1] * n_bins[2] * n_bins[3]]; hence
    [np.reshape] accepts it for every array of that many entries and keeps
    the entries as they are, and in particular for the slice
    [x[n_entries : n_entries + batchsize]] of a dataset whose images have
    [n_bins[0] * n_bins[1] * n_bins[2] * n_bins[3]] bins and that has the
    [batchsize] rows from [n_entries] on. *)
Theorem get_dimensions_encoding_size (batchsize nx ny nz nt : Z) :
  1 <= batchsize -> 0 < nx -> 0 < ny -> 0 < nz -> 0 < nt ->
  let dims := get_dimensions_encoding (nx, ny, nz, nt) batchsize in
  shape_size dims = batchsize * nx * ny * nz * nt /\
  (forall a : ndarray,
     size a = batchsize * nx * ny * nz * nt ->
     np_reshape a dims = Ok (mk_ndarray dims (nd_data a))) /\
  (forall (x : dataset) (n_entries : Z),
     Forall (fun r => Z.of_nat (length r) = nx * ny * nz * nt) (ds_rows x) ->
     0 <= n_entries ->
     n_entries + batchsize <= Z.of_nat (length (ds_rows x)) ->
     np_reshape (ds_slice x n_entries (n_entries + batchsize)) dims
     = Ok (mk_ndarray dims
             (concat (take (Z.to_nat batchsize)
                        (drop (Z.to_nat n_entries) (ds_rows x)))))).
Proof.
  intros Hb Hx Hy Hz Ht dims.
  assert (Hsize : shape_size dims = batchsize * nx * ny * nz * nt).
  { subst dims. unfold get_dimensions_encoding.
    case_bins; subst; unfold shape_size; simpl; ring. }
  assert (Hreshape : forall a : ndarray,
             size a = batchsize * nx * ny * nz * nt ->
             np_reshape a dims = Ok (mk_ndarray dims (nd_data a))).
  { intros a Ha. apply np_reshape_same_size; [|congruence].
    subst dims. unfold get_dimensions_encoding.
    case_bins; repeat constructor; lia. }
  split; [exact Hsize|]. split; [exact Hreshape|].
  intros x n Hrows Hn Hlen.
  rewrite Hreshape.
  - unfold ds_slice. simpl. rewrite slice_take_drop by lia. reflexivity.
  - unfold size, ds_slice. simpl. rewrite slice_take_drop by lia.
    rewrite (concat_rows_length _ (nx * ny * nz * nt)).
    + rewrite length_take, length_drop. nia.
    + apply Forall_take, Forall_drop, Hrows.
Qed.

Lemma get_dimensions_encoding_size_witness :
  shape_size (get_dimensions_encoding (11, 13, 18, 1) 32) = 32 * 11 * 13 * 18 * 1 /\
  (forall a : ndarray,
     size a = 32 * 11 * 13 * 18 * 1 ->
     np_reshape a (get_dimensions_encoding (11, 13, 18, 1) 32)
     = Ok (mk_ndarray (get_dimensions_encoding (11, 13, 18, 1) 32) (nd_data a))) /\
  (forall (x : dataset) (n_entries : Z),
     Forall (fun r => Z.of_nat (length r) = 11 * 13 * 18 * 1) (ds_rows x) ->
     0 <= n_entries ->
     n_entries + 32 <= Z.of_nat (length (ds_rows x)) ->
     np_reshape (ds_slice x n_entries (n_entries + 32))
       (get_dimensions_encoding (11, 13, 18, 1) 32)
     = Ok (mk_ndarray (get_dimensions_encoding (11, 13, 18, 1) 32)
             (concat (take (Z.to_nat 32) (drop (Z.to_nat n_entries) (ds_rows x)))))).
Proof. apply (get_dimensions_encoding_size 32 11 13 18 1); lia. Defined.

(** ** Label encoding *)

Lemma Qeq_bool_true (x y : Q) : (x == y)%Q -> Qeq_bool x y = true.
Proof. apply Qeq_bool_iff. Qed.

Lemma Qeq_bool_false (x y : Q) : ~ (x == y)%Q -> Qeq_bool x y = false.
Proof.
  intros H. destruct (Qeq_bool x y) eqn:E; [|reflexivity].
  apply Qeq_bool_iff in E. contradiction.
Qed.

(** Two integers that differ are different rationals. *)
Lemma Qeq_bool_via (x : Q) (a b : Z) :
  (x == inject_Z a)%Q -> Qeq_bool x (inject_Z b) = (a =? b).
Proof.
  intros H. destruct (Z.eqb_spec a b) as [->|Hne].
  - apply Qeq_bool_true, H.
  - apply Qeq_bool_false. intros H'. rewrite H in H'.
    apply Hne. unfold Qeq in H'. simpl in H'. lia.
Qed.

(** C4.  With [class_type = (2, 'track-shower')], an event whose pair
    [(|particle_type|, is_cc)] is one of (12,0), (12,1), (14,1), (16,1) is
    encoded as a one-hot vector of length 2: [0, 1] (track) exactly for
    muon-CC, i.e. (14,1), and [1, 0] (shower) for the three other pairs. *)
Theorem encode_targets_track_shower
    (rand : bool) (y_val : list Q) (particle_type is_cc : Q) :
  y_val !! 1%nat = Some particle_type ->
  y_val !! 3%nat = Some is_cc ->
  ((Qabs particle_type == 12 /\ is_cc == 0) \/
   (Qabs particle_type == 12 /\ is_cc == 1) \/
   (Qabs particle_type == 14 /\ is_cc == 1) \/
   (Qabs particle_type == 16 /\ is_cc == 1))%Q ->
  encode_targets rand y_val (2, "track-shower")
  = Ok (if Qeq_bool (Qabs particle_type) 14 && Qeq_bool is_cc 1
        then [0; 1]%Q else [1; 0]%Q).
Proof.
  intros H1 H3 Hpair.
  unfold encode_targets, getitem. simpl. rewrite H1, H3. simpl.
  unfold convert_particle_class_to_categorical. simpl.
  change 14%Q with (inject_Z 14). change (Qeq_bool is_cc 1) with (Qeq_bool is_cc (inject_Z 1)).
  destruct Hpair as [[Hp Hc]|[[Hp Hc]|[[Hp Hc]|[Hp Hc]]]];
    rewrite !(Qeq_bool_via _ _ _ Hp), !(Qeq_bool_via _ _ _ Hc); reflexivity.
Qed.

Lemma encode_targets_track_shower_witness :
  encode_targets true [7; -14; 3; 1; 0; 0; 0; 1]%Q (2, "track-shower")
  = Ok (if Qeq_bool (Qabs (-14)) 14 && Qeq_bool 1 1 then [0; 1]%Q else [1; 0]%Q).
Proof.
  apply (encode_targets_track_shower true [7; -14; 3; 1; 0; 0; 0; 1]%Q (-14) 1);
    [reflexivity | reflexivity |].
  right; right; left. split; reflexivity.
Defined.

(** C10.  For a [class_type] whose string is none of ['track-shower'],
    ['up_down'], ['tau-CC_vs_other_neutrinos'], [encode_targets] raises
    nothing and returns its argument [y_val] as it is. *)
Theorem encode_targets_unsupported
    (rand : bool) (y_val : list Q) (n : Z) (ident : string) :
  ident <> "track-shower" ->
  ident <> "up_down" ->
  ident <> "tau-CC_vs_other_neutrinos" ->
  encode_targets rand y_val (n, ident) = Ok y_val.
Proof.
  intros H1 H2 H3. unfold encode_targets. simpl.
  apply String.eqb_neq in H1, H2, H3. rewrite H1, H2, H3. reflexivity.
Qed.

Lemma encode_targets_unsupported_witness :
  encode_targets false [1; 12; 5; 0]%Q (4, "muon-CC_to_elec-CC") = Ok [1; 12; 5; 0]%Q.
Proof.
  apply (encode_targets_unsupported false [1; 12; 5; 0]%Q 4 "muon-CC_to_elec-CC");
    discriminate.
Defined.

(** ** Regression labels *)

Section RegressionLabels.

Variable to_float32 : Q -> Q.






End RegressionLabels.


(** ** The exception monad *)

Lemma bind_Ok {A B : Type} (c : exc A) (k : A -> exc B) (b : B) :
  c ≫= k = Ok b -> exists a, c = Ok a /\ k a = Ok b.
Proof. destruct c as [a|e]; [eauto | discriminate]. Qed.

Ltac inv_bind H :=
  let x := fresh "x" in
  let Hx := fresh "H" x in
  apply bind_Ok in H; destruct H as (x & Hx & H).

Lemma getitem_Ok {A : Type} (l : list A) (i : nat) (a : A) :
  getitem l i = Ok a -> l !! i = Some a.
Proof. unfold getitem. destruct (l !! i); [congruence | discriminate]. Qed.

Lemma dict_getitem_Ok {A : Type} (d : list A) (i : nat) (a : A) :
  dict_getitem d i = Ok a -> d !! i = Some a.
Proof. unfold dict_getitem. destruct (d !! i); [congruence | discriminate]. Qed.

Lemma for_each_Ok {A B : Type} (f : A -> exc B) (l : list A) (r : list B) :
  for_each f l = Ok r -> Forall2 (fun a b => f a = Ok b) l r.
Proof.
  revert r. induction l as [|a l IH]; intros r H; simpl in H.
  - injection H as <-. constructor.
  - inv_bind H. inv_bind H. injection H as <-. constructor; auto.
Qed.

Lemma for_each_seq_Ok {B : Type} (f : nat -> exc B) (n : nat) (r : list B) :
  for_each f (seq 0 n) = Ok r ->
  length r = n /\ forall i, (i < n)%nat -> exists b, r !! i = Some b /\ f i = Ok b.
Proof.
  intros H. apply for_each_Ok in H.
  split.
  - apply Forall2_length in H. rewrite length_seq in H. congruence.
  - intros i Hi.
    destruct (Forall2_lookup_l _ _ _ i i H) as (b & Hb & Hf).
    + apply lookup_seq. lia.
    + eauto.
Qed.



(** ** The batch generator *)

Section GeneratorFacts.

Variable to_float32 : Q -> Q.
Variable np_subtract : ndarray -> ndarray -> exc ndarray.
Variable np_transpose : np_arg -> list Z -> exc ndarray.
Variable np_concatenate : list ndarray -> exc ndarray.
Variable rand : bool.
Variable args : gen_args.

Local Abbreviation b := (batchsize args).
Local Abbreviation read_image' := (read_image to_float32 args).
Local Abbreviation make_batch' :=
  (make_batch to_float32 np_subtract np_transpose np_concatenate rand args).
Local Abbreviation inner_step' :=
  (inner_step to_float32 np_subtract np_transpose np_concatenate rand args).
Local Abbreviation inner_loop' :=
  (inner_loop to_float32 np_subtract np_transpose np_concatenate rand args).

Lemma read_image_Ok (f : list h5file) (dims : list (list Z)) (n : Z) (i : nat) (a : ndarray) :
  read_image' f dims n i = Ok a ->
  exists fi di a0,
    f !! i = Some fi /\ dims !! i = Some di /\
    np_reshape (ds_slice (h5_x fi) n (n + b)) di = Ok a0 /\
    a = nd_astype_float32 to_float32 a0.
Proof.
  unfold read_image, dict_getitem. intros H.
  destruct (f !! i) as [fi|]; [|discriminate].
  destruct (dims !! i) as [di|]; [|discriminate]. simpl in H.
  inv_bind H. injection H as <-. eauto 10.
Qed.


Lemma make_batch_Ok (f : list h5file) (dims : list (list Z)) (n : Z) (bt : batch) :
  make_batch' f dims n = Ok bt ->
  exists xs xs',
    for_each (read_image' f dims n) (seq 0 (n_files args)) = Ok xs /\
    zero_center np_subtract args xs = Ok xs' /\
    build_xs_list np_transpose np_concatenate args xs' = Ok (b_xs_list bt) /\
    read_y_values args f n = Ok (b_y_values bt) /\
    build_ys to_float32 rand args (b_y_values bt) = Ok (b_ys bt).
Proof.
  unfold make_batch. intros H.
  inv_bind H. inv_bind H. inv_bind H. inv_bind H. inv_bind H.
  injection H as <-. simpl. eauto 10.
Qed.




End GeneratorFacts.

(** ** The generator object *)

Section NextFacts.

Variable to_float32 : Q -> Q.
Variable np_subtract : ndarray -> ndarray -> exc ndarray.
Variable np_transpose : np_arg -> list Z -> exc ndarray.
Variable np_concatenate : list ndarray -> exc ndarray.
Variable rand : bool.
Variable fs : gmap string h5file.
Variable args : gen_args.

Local Abbreviation b := (batchsize args).
Local Abbreviation make_batch' :=
  (make_batch to_float32 np_subtract np_transpose np_concatenate rand args).
Local Abbreviation next' :=
  (next to_float32 np_subtract np_transpose np_concatenate rand fs args).
Local Abbreviation batch_of_slices' :=
  (batch_of_slices to_float32 np_subtract np_transpose np_concatenate rand fs args).

Lemma open_files_Ok (f : list h5file) :
  open_files fs args = Ok f ->
  length f = n_files args /\
  forall (i : nat) (path : string),
    filepath args !! i = Some path ->
    exists fi, fs !! path = Some fi /\ f !! i = Some fi.
Proof.
  unfold open_files. intros H. apply for_each_Ok in H. split.
  - symmetry. apply (Forall2_length _ _ _ H).
  - intros i path Hpath.
    destruct (Forall2_lookup_l _ _ _ i path H Hpath) as (fi & Hfi & Hopen).
    exists fi. split; [|exact Hfi].
    unfold h5py_File in Hopen. destruct (fs !! path); [congruence | discriminate].
Qed.

Lemma zero_center_Ok (xs xs' : list ndarray) :
  length xs = n_files args ->
  zero_center np_subtract args xs = Ok xs' ->
  length xs' = n_files args /\
  forall (i : nat) (x : ndarray),
    xs !! i = Some x ->
    exists img,
      xs' !! i = Some img /\
      match zero_center_image args with
      | None => img = x
      | Some image => exists z, image !! i = Some z /\ np_subtract x z = Ok img
      end.
Proof.
  unfold zero_center. intros Hlen H.
  destruct (zero_center_image args) as [image|].
  - destruct (for_each_seq_Ok _ _ _ H) as [Hlen' Hi]. split; [exact Hlen'|].
    intros i x Hx.
    assert (Hlt : (i < n_files args)%nat) by (rewrite <- Hlen; eapply lookup_lt_Some; eauto).
    destruct (Hi i Hlt) as (img & Himg & Hsub).
    exists img. split; [exact Himg|].
    unfold dict_getitem, getitem in Hsub. rewrite Hx in Hsub. simpl in Hsub.
    destruct (image !! i) as [z|]; [|discriminate]. eauto.
  - injection H as <-. split; [exact Hlen|]. eauto.
Qed.

Lemma build_xs_list_None (xs : list ndarray) (inp : inputs) :
  swap_col args = None ->
  length xs = n_files args ->
  build_xs_list np_transpose np_concatenate args xs = Ok inp ->
  inp = InputList xs.
Proof.
  unfold build_xs_list. intros -> Hlen H.
  inv_bind H. injection H as <-. f_equal.
  destruct (for_each_seq_Ok _ _ _ Hx) as [Hlen' Hi].
  apply list_eq. intros i.
  destruct (decide (i < n_files args)%nat) as [Hlt|Hge].
  - destruct (Hi i Hlt) as (a & Ha & Hget). rewrite Ha.
    unfold dict_getitem in Hget. destruct (xs !! i); [congruence | discriminate].
  - rewrite !lookup_ge_None_2 by lia. reflexivity.
Qed.

Lemma make_batch_slices (f : list h5file) (dims : list (list Z)) (n : Z) (bt : batch) :
  open_files fs args = Ok f ->
  make_batch' f dims n = Ok bt ->
  batch_of_slices' dims n bt.
Proof.
  intros Hopen Hmk.
  destruct (open_files_Ok f Hopen) as [Hflen Hfiles].
  destruct (make_batch_Ok _ _ _ _ _ _ f dims n bt Hmk)
    as (xs & xs' & Hxs & Hzc & Hbuild & Hy & Hys).
  destruct (for_each_seq_Ok _ _ _ Hxs) as [Hxlen Hread].
  destruct (zero_center_Ok xs xs' Hxlen Hzc) as [Hxlen' Hzero].
  exists xs'. split; [exact Hxlen'|]. split; [|split; [exact Hbuild|split]].
  - intros i path Hpath.
    destruct (Hfiles i path Hpath) as (fi & Hfs & Hfi).
    assert (Hlt : (i < n_files args)%nat) by (eapply lookup_lt_Some; eauto).
    destruct (Hread i Hlt) as (x & Hx & Hri).
    apply read_image_Ok in Hri. destruct Hri as (fi' & di & a & Hfi' & Hdi & Hre & ->).
    assert (fi' = fi) by congruence. subst fi'.
    destruct (Hzero i _ Hx) as (img & Himg & Hsub).
    exists fi, di, a, img. auto.
  - intros Hswap. apply (build_xs_list_None xs' _ Hswap Hxlen' Hbuild).
  - unfold read_y_values in Hy.
    apply bind_Ok in Hy. destruct Hy as (f0 & Hf0 & Hy). apply dict_getitem_Ok in Hf0.
    apply bind_Ok in Hy. destruct Hy as (shape1 & Hs & Hy). apply getitem_Ok in Hs.
    apply bind_Ok in Hy. destruct Hy as (y_values & Hre & Hy).
    destruct (filepath args !! 0%nat) as [path0|] eqn:Hp0.
    + destruct (Hfiles 0%nat path0 Hp0) as (f0' & Hfs & Hf0').
      assert (f0' = f0) by congruence. subst f0'.
      exists path0, f0, shape1, y_values. auto 10.
    + apply lookup_ge_None in Hp0. apply lookup_lt_Some in Hf0.
      unfold n_files in Hflen. lia.
Qed.

(** A call of [next] that yields: the frame it leaves behind and the batch
    it has made. *)
Lemma next_Yield (fuel : nat) (st st' : gen_state) (o : output) :
  gen_wf fs args st ->
  next' fuel st = Yield o st' ->
  gen_wf fs args st' /\
  exists (dims : list (list Z)) (n_entries : Z) (bt : batch),
    dimensions args = Ok dims /\
    (exists j : nat, n_entries = Z.of_nat j * b) /\
    o = output_of args bt /\
    batch_of_slices' dims n_entries bt.
Proof.
  revert st.
  induction fuel as [|fuel IH]; intros st Hwf Hnext; [discriminate|].
  destruct st as [|dims fsz|dims f fsz n|]; simpl in Hnext.
  - destruct (dimensions args) as [dims|] eqn:Hdims; [|discriminate].
    apply (IH (GenOuter dims (f_size args)) Hdims Hnext).
  - assert (Hstart : exists j : nat, 0 = Z.of_nat j * b) by (exists 0%nat; lia).
    destruct (open_files fs args) as [f|] eqn:Hopen; [|discriminate].
    destruct fsz as [fsz|].
    + apply (IH (GenInner dims f fsz 0)); [|exact Hnext]. repeat split; assumption.
    + destruct (dict_getitem f 0) as [f0|]; [|discriminate].
      apply (IH (GenInner dims f (Z.of_nat (length (ds_rows (h5_y f0)))) 0));
        [|exact Hnext].
      repeat split; assumption.
  - destruct Hwf as (Hdims & Hopen & j & Hj).
    unfold inner_step in Hnext.
    destruct (n <=? fsz - b).
    + destruct (make_batch' f dims n) as [bt|] eqn:Hmk; [|discriminate].
      injection Hnext as <- <-. split.
      * split; [exact Hdims|]. split; [exact Hopen|]. exists (S j). lia.
      * exists dims, n, bt. split; [exact Hdims|]. split; [eauto|].
        split; [reflexivity|]. apply (make_batch_slices f); assumption.
    + apply (IH (GenOuter dims (Some fsz)) Hdims Hnext).
  - discriminate.
Qed.

Lemma yielded_from_slices (fuel count : nat) (st : gen_state) (k : nat) (o : output) :
  gen_wf fs args st ->
  yielded_from to_float32 np_subtract np_transpose np_concatenate rand fs args
    fuel count st !! k = Some o ->
  exists (dims : list (list Z)) (n_entries : Z) (bt : batch),
    dimensions args = Ok dims /\
    (exists j : nat, n_entries = Z.of_nat j * b) /\
    o = output_of args bt /\
    batch_of_slices' dims n_entries bt.
Proof.
  revert st k. induction count as [|count IH]; intros st k Hwf Hk; simpl in Hk.
  - rewrite lookup_nil in Hk. discriminate.
  - destruct (next' fuel st) as [o1 st1| | |] eqn:Hnext;
      try (rewrite lookup_nil in Hk; discriminate).
    destruct (next_Yield fuel st st1 o1 Hwf Hnext) as [Hwf1 Hbatch].
    destruct k as [|k]; simpl in Hk.
    + injection Hk as <-. exact Hbatch.
    + apply (IH st1 k Hwf1 Hk).
Qed.

(** The batches of a pass of the inner loop are what the calls of [next]
    yield, one call per batch, from a frame suspended in that loop. *)
Lemma yielded_from_inner_loop
    (pass_fuel : nat) (dims : list (list Z)) (f : list h5file) (fsz n : Z)
    (yielded : list batch) (e : pass_end) (fuel : nat) :
  inner_loop to_float32 np_subtract np_transpose np_concatenate rand args
    pass_fuel f dims fsz n = (yielded, e) ->
  yielded_from to_float32 np_subtract np_transpose np_concatenate rand fs args
    (S fuel) (length yielded) (GenInner dims f fsz n)
  = map (output_of args) yielded.
Proof.
  revert n yielded e. induction pass_fuel as [|pass_fuel IH]; intros n yielded e H;
    simpl in H.
  - injection H as <- _. reflexivity.
  - destruct (inner_step to_float32 np_subtract np_transpose np_concatenate rand args
                f dims fsz n) as [bt n'| |] eqn:Hstep.
    + destruct (inner_loop to_float32 np_subtract np_transpose np_concatenate rand args
                  pass_fuel f dims fsz n') as [rest e'] eqn:Hrest.
      injection H as <- _. simpl. rewrite Hstep. f_equal.
      apply (IH n' rest e' Hrest).
    + injection H as <- _. reflexivity.
    + injection H as <- _. reflexivity.
Qed.

End NextFacts.

(** C2.  Every batch that [generate_batches_from_hdf5_file] yields was made
    at a counter [n_entries], a multiple of the batchsize: for every file
    [i] of [filepath] the slice [x[n_entries : n_entries + batchsize]] of
    that file was taken, reshaped to [dimensions[i]], cast to float32 and,
    if asked for, zero-centered with [zero_center_image[i]]; with
    [swap_col is None] these arrays, one per file and in the order of
    [filepath], are [xs_list].  The event information and the labels come
    from the slice [y[n_entries : n_entries + batchsize]] of the first
    file alone. *)
Theorem generate_batches_from_hdf5_file_slices
    (to_float32 : Q -> Q) (np_subtract : ndarray -> ndarray -> exc ndarray)
    (np_transpose : np_arg -> list Z -> exc ndarray)
    (np_concatenate : list ndarray -> exc ndarray) (rand : bool)
    (fs : gmap string h5file)
    (filepath : list string) (batchsize : Z) (n_bins : list bins)
    (class_type : class_type_t) (str_ident : string) (f_size : option Z)
    (zero_center_image : option (list ndarray)) (yield_mc_info : bool)
    (swap_col : option string)
    (fuel count k : nat) (o : output) :
  let gen :=
    generate_batches_from_hdf5_file filepath batchsize n_bins class_type str_ident
      f_size zero_center_image yield_mc_info swap_col in
  yielded_by to_float32 np_subtract np_transpose np_concatenate rand fs fuel count gen
    !! k = Some o ->
  exists (dims : list (list Z)) (n_entries : Z) (bt : batch),
    dimensions (gen_args_of gen) = Ok dims /\
    (exists j : nat, n_entries = Z.of_nat j * batchsize) /\
    o = output_of (gen_args_of gen) bt /\
    batch_of_slices to_float32 np_subtract np_transpose np_concatenate rand fs
      (gen_args_of gen) dims n_entries bt.
Proof.
  intros gen Hk.
  apply (yielded_from_slices to_float32 np_subtract np_transpose np_concatenate rand fs
           (gen_args_of gen) fuel count GenStart k o I Hk).
Qed.

(** The pass over the first five events of [example_file] in batches of
    two: it runs to its end after two batches, rows 0-1 and rows 2-3; the
    fifth event is in no batch. *)
Example inner_loop_example :
  let '(yielded, e) :=
    inner_loop (fun q => q) not_reached not_reached not_reached1 true example_args
      3 [example_file] [[2; 2; 1; 1]] 5 0 in
  e = PassDone /\
  map (fun bt => a2_rows (b_y_values bt)) yielded
  = [[[0; 12; 5; 0]; [1; 14; 7; 1]]; [[2; -12; 3; 1]; [3; 16; 9; 1]]]%Q /\
  map b_ys yielded
  = [CatLabels [[1; 0]; [0; 1]]%Q; CatLabels [[1; 0]; [1; 0]]%Q].
Proof. vm_compute. repeat split. Qed.


(** Three calls of [next] on a fresh generator over [example_fs]: events 0
    and 1, events 2 and 3, and, the pass being over, events 0 and 1 again. *)
Example yielded_by_example :
  yielded_by (fun q => q) not_reached not_reached not_reached1 true example_fs 3 3
    (generate_batches_from_hdf5_file ["train.h5"] 2 [(2, 1, 1, 1)] (2, "track-shower") ""
       (Some 5) None true None)
  = [Out3 (InputList [mk_ndarray [2; 2; 1; 1] [1; 2; 3; 4]%Q])
          (CatLabels [[1; 0]; [0; 1]]%Q)
          (mk_array2 4 [[0; 12; 5; 0]; [1; 14; 7; 1]]%Q);
     Out3 (InputList [mk_ndarray [2; 2; 1; 1] [5; 6; 7; 8]%Q])
          (CatLabels [[1; 0]; [1; 0]]%Q)
          (mk_array2 4 [[2; -12; 3; 1]; [3; 16; 9; 1]]%Q);
     Out3 (InputList [mk_ndarray [2; 2; 1; 1] [1; 2; 3; 4]%Q])
          (CatLabels [[1; 0]; [0; 1]]%Q)
          (mk_array2 4 [[0; 12; 5; 0]; [1; 14; 7; 1]]%Q)].
Proof. vm_compute. reflexivity. Qed.

Lemma generate_batches_from_hdf5_file_slices_witness :
  exists (dims : list (list Z)) (n_entries : Z) (bt : batch),
    dimensions example_args = Ok dims /\
    (exists j : nat, n_entries = Z.of_nat j * 2) /\
    Out3 (InputList [mk_ndarray [2; 2; 1; 1] [5; 6; 7; 8]%Q])
         (CatLabels [[1; 0]; [1; 0]]%Q)
         (mk_array2 4 [[2; -12; 3; 1]; [3; 16; 9; 1]]%Q)
    = output_of example_args bt /\
    batch_of_slices (fun q => q) not_reached not_reached not_reached1 true
      example_fs example_args dims n_entries bt.
Proof.
  apply (generate_batches_from_hdf5_file_slices
           (fun q => q) not_reached not_reached not_reached1 true example_fs
           ["train.h5"] 2 [(2, 1, 1, 1)] (2, "track-shower") "" (Some 5) None true None
           3 3 1).
  vm_compute. reflexivity.
Defined.

(** ** The mean image *)

Lemma map_replicate {A B : Type} (g : A -> B) (n : nat) (x : A) :
  map g (replicate n x) = replicate n (g x).
Proof. induction n as [|n IH]; simpl; [reflexivity | rewrite IH; reflexivity]. Qed.

Lemma add_rows_replicate (n : nat) (x y : Q) :
  add_rows (replicate n x) (replicate n y) = replicate n (x + y)%Q.
Proof. unfold add_rows. induction n as [|n IH]; simpl; [reflexivity | rewrite IH; reflexivity]. Qed.

Lemma row_width_flat_rows (n : nat) (v0 v1 v2 : Q) : row_width (flat_rows n v0 v1 v2) = n.
Proof. unfold row_width, flat_rows, shape_size. simpl. lia. Qed.

(** [get_mean_image] on a file of three images that takes two steps (more
    than 8e9 and at most 16e9 entries, one GPU): the first step averages
    row 0 alone, the second rows 1 and 2. *)
Lemma get_mean_image_two_steps (to_float32 : Q -> Q) (n : nat) (v0 v1 v2 : Q) (path : string) :
  8000000000 < 3 * Z.of_nat n <= 16000000000 ->
  get_mean_image to_float32
    {[ path := mk_h5file (flat_rows n v0 v1 v2) (mk_dataset [] []) ]} path 1
  = Ok (mk_image [Z.of_nat n]
          (Some (replicate n
             (to_float32
                (((v0 + 0) / inject_Z 1 + ((v1 + (v2 + 0)) / inject_Z 2 + 0))
                 / inject_Z 2)%Q)))).
Proof.
  intros Hn. unfold get_mean_image. rewrite lookup_singleton_eq.
  cbn [h5_x].
  assert (Hsize : get_array_memsize (flat_rows n v0 v1 v2) = 3 * Z.of_nat n).
  { unfold get_array_memsize, flat_rows. cbn [ds_rows ds_row_shape length hd tail fold_left].
    change (Z.of_nat 3) with 3. rewrite Z.div_mul by lia. reflexivity. }
  rewrite Hsize. change (1 * 8000000000 =? 0) with false. cbv iota.
  assert (Hsteps : ceil_div (3 * Z.of_nat n) (1 * 8000000000) = 2).
  { unfold ceil_div. change (1 * 8000000000) with 8000000000.
    rewrite <- (Z.div_unique (- (3 * Z.of_nat n)) 8000000000 (-2)
                  (16000000000 - 3 * Z.of_nat n)); lia. }
  rewrite Hsteps. unfold mean_image_in_steps.
  change (2 =? 0) with false. change (2 <? 0) with false. cbv iota.
  change (range 2) with [0; 1]. cbn [map].
  unfold step_mean. rewrite row_width_flat_rows.
  cbn [flat_rows ds_rows ds_row_shape length].
  change (Z.quot (Z.of_nat 3) 2) with 1.
  change (slice [replicate n v0; replicate n v1; replicate n v2] (0 * 1) ((0 + 1) * 1))
    with [replicate n v0].
  change (slice [replicate n v0; replicate n v1; replicate n v2] (1 * 1) (Z.of_nat 3))
    with [replicate n v1; replicate n v2].
  change ((0 =? 2 - 1) || (2 =? 1)) with false.
  change ((1 =? 2 - 1) || (2 =? 1)) with true. cbv iota.
  unfold mean_axis0, sum_axis0. cbn [fold_right length].
  rewrite !add_rows_replicate, !map_replicate.
  unfold mean_of_means. cbn [mapM mbind option_bind id mret option_ret].
  unfold mean_axis0, sum_axis0. cbn [fold_right length].
  rewrite !add_rows_replicate, !map_replicate.
  cbn [fmap option_fmap option_map]. rewrite map_replicate. reflexivity.
Qed.

(** C3.  The mean of the per-chunk means is not the mean of the dataset
    when the chunks differ in size.  In the loop: three images [0], [0],
    [6] in two steps are averaged as rows [0:1] and rows [1:3], with means
    0 and 3, and the result is 3/2, not 2.  In [get_mean_image]: a file of
    three images of [big_width] bins each (12e9 entries, one GPU) takes two
    steps of that kind, and every bin of the result is 3/2 where the mean
    image has 2. *)
Theorem get_mean_image_not_the_mean :
  (mean_image_in_steps (fun q => q) three_rows 2 = Ok (mk_image [1] (Some [6 # 4]%Q)) /\
   whole_mean three_rows = Some [6 # 3]%Q /\
   ~ (6 # 4 == 6 # 3)%Q) /\
  exists m w : Q,
    get_mean_image (fun q => q)
      {[ "train.h5" := mk_h5file (flat_rows big_width 0 0 6) (mk_dataset [] []) ]}
      "train.h5" 1
    = Ok (mk_image [Z.of_nat big_width] (Some (replicate big_width m))) /\
    whole_mean (flat_rows big_width 0 0 6) = Some (replicate big_width w) /\
    (m == 3 # 2)%Q /\ (w == 2)%Q.
Proof.
  split.
  { split; [reflexivity|]. split; [reflexivity|]. discriminate. }
  eexists _, _. split; [|split; [|split]].
  - apply (get_mean_image_two_steps (fun q => q) big_width 0 0 6 "train.h5").
    unfold big_width. rewrite Z2Nat.id; lia.
  - unfold whole_mean. rewrite row_width_flat_rows.
    unfold mean_axis0, sum_axis0, flat_rows. cbn [ds_rows fold_right length].
    rewrite !add_rows_replicate, map_replicate. reflexivity.
  - reflexivity.
  - reflexivity.
Qed.

(** ** Zero-centering *)

Section ZeroCenterFacts.

Variable to_float32 : Q -> Q.

(** One turn of the loop appends the image once when it was computed and
    twice when it was loaded from a saved file. *)
Lemma load_zero_center_data_input_appended
    (cfg : settings) (xs_mean xs_mean' : list image) (d d' : disk) (i : nat) :
  load_zero_center_data_input to_float32 cfg xs_mean d i = Ok (xs_mean', d') ->
  exists (files : list string) (d0 : disk) (paths : list string) (found : option image),
    load_fpaths_of_existing_zero_center_files d (cfg_zero_center_folder cfg) = (files, d0) /\
    get_fpaths_for_train_files_input_i (cfg_train_files cfg) i = Ok paths /\
    get_precalculated_xs_mean_if_exists d0 files paths = Ok found /\
    match found with
    | Some img => xs_mean' = (xs_mean ++ [img; img])%list /\ d' = d0
    | None => exists img, xs_mean' = (xs_mean ++ [img])%list
    end.
Proof.
  unfold load_zero_center_data_input. intros H.
  destruct (load_fpaths_of_existing_zero_center_files d (cfg_zero_center_folder cfg))
    as [files d0].
  apply bind_Ok in H. destruct H as (paths & Hpaths & H).
  apply bind_Ok in H. destruct H as (found & Hfound & H).
  exists files, d0, paths, found. split; [reflexivity|]. split; [exact Hpaths|].
  split; [exact Hfound|].
  apply bind_Ok in H. destruct H as ([[xs1 img] d1] & Hbranch & H).
  injection H as <- <-.
  destruct found as [img0|].
  - injection Hbranch as <- <- <-. rewrite <- app_assoc. split; reflexivity.
  - inv_bind Hbranch. inv_bind Hbranch. injection Hbranch as <- <- _. eauto.
Qed.

Lemma load_zero_center_data_loop_length
    (cfg : settings) (inputs : list nat) (xs_mean xs_mean' : list image) (d d' : disk) :
  load_zero_center_data_loop to_float32 cfg xs_mean d inputs = Ok (xs_mean', d') ->
  (length xs_mean + length inputs <= length xs_mean'
   <= length xs_mean + 2 * length inputs)%nat.
Proof.
  revert xs_mean d. induction inputs as [|i inputs IH]; intros xs_mean d H; simpl in H.
  - injection H as <- _. simpl. lia.
  - apply bind_Ok in H. destruct H as ([xs1 d1] & Hin & H).
    apply IH in H.
    apply load_zero_center_data_input_appended in Hin.
    destruct Hin as (files & d0 & paths & [img|] & _ & _ & _ & Happ).
    + destruct Happ as [-> _]. rewrite length_app in H. simpl in *. lia.
    + destruct Happ as [img ->]. rewrite length_app in H. simpl in *. lia.
Qed.

End ZeroCenterFacts.

(** C8 at a configuration with one model input.  On the fresh disk the
    mean image is computed and saved and the list has one entry; called
    again on the disk this leaves behind, the saved file is found and the
    list has two entries for the one input. *)
Theorem load_zero_center_data_precalculated_twice :
  let first := load_zero_center_data (fun q => q) one_input_cfg fresh_disk in
  let second := load_zero_center_data (fun q => q) one_input_cfg (disk_after first fresh_disk) in
  result_length first = Some 1%nat /\
  d_dirs (disk_after first fresh_disk) !! "zero_center/" = Some ["run.toml_0.npz"] /\
  result_length second = Some 2%nat.
Proof. vm_compute. repeat split. Qed.

(** ** Model set-up *)

Module ModelSetupFacts.

Import ModelSetup.

Section Setup.

Variable get_available_gpus : Z -> list string.
Variable custom_objects : gset string.

(** C7.  In mode ['avolkov'], [parallelize_model_to_n_gpus] returns the
    model and the batchsize it was given when [n_gpu[0] == 1], and for
    [n_gpu[0] > 1] the parallelized model with the batchsize multiplied by
    the number of GPUs [get_available_gpus] reports; for every other mode
    it raises [ValueError]. *)
Theorem parallelize_model_to_n_gpus_spec
    (m : model) (n : Z) (mode : string) (batchsize : Z) (a : compile_args) :
  (mode = "avolkov" -> n = 1 ->
   parallelize_model_to_n_gpus get_available_gpus m (n, mode) batchsize a
   = mk_keras [] (Ok (m, batchsize))) /\
  (mode = "avolkov" -> 1 < n ->
   k_result (parallelize_model_to_n_gpus get_available_gpus m (n, mode) batchsize a)
   = Ok (ParallelModel m (get_available_gpus n),
         batchsize * Z.of_nat (length (get_available_gpus n)))) /\
  (mode <> "avolkov" ->
   exists msg,
     parallelize_model_to_n_gpus get_available_gpus m (n, mode) batchsize a
     = mk_keras [] (Raise (ValueError msg))).
Proof.
  unfold parallelize_model_to_n_gpus. simpl.
  split; [|split].
  - intros -> ->. reflexivity.
  - intros -> Hn. simpl.
    destruct (Z.eqb_spec n 1); [lia|].
    destruct (Z.ltb_spec 1 n); [|lia]. reflexivity.
  - intros Hmode. apply String.eqb_neq in Hmode. rewrite Hmode. eauto.
Qed.

(** The optimizer ['adam'] is known, so [get_optimizer_info] returns. *)
Lemma get_optimizer_info_adam (loss_opt : loss_opt_t) :
  exists a, get_optimizer_info custom_objects loss_opt "adam" = Ok a.
Proof. eexists. reflexivity. Qed.

(** C6, as the code has it.  In mode ['avolkov'] with [n_gpu[0] >= 1]:
    for [epoch[0] == 0] a model is built and, if building succeeds,
    compiled as the last call; for [epoch[0] != 0] nothing is built, the
    model is loaded from [folder_name + '/saved_models/model_epoch_' +
    epoch[0] + '_file_' + epoch[1] + '.h5'] and [build_or_load_nn_model]
    itself does not compile it.  In both cases
    [parallelize_model_to_n_gpus] compiles the parallelized model when
    [n_gpu[0] > 1]: a loaded model is then compiled once, and not at all
    only when [n_gpu[0] == 1]. *)
Theorem build_or_load_nn_model_calls
    (epoch : Z * Z) (folder_name nn_arch : string) (n_bins : list bins)
    (class_type : class_type_t) (swap_4d_channels : option string) (str_ident : string)
    (loss_opt : loss_opt_t) (n : Z) (batchsize : Z) :
  1 <= n ->
  let run :=
    build_or_load_nn_model get_available_gpus custom_objects epoch folder_name nn_arch
      n_bins class_type swap_4d_channels str_ident loss_opt (n, "avolkov") batchsize in
  let path :=
    folder_name ++ "/saved_models/model_epoch_" ++ pretty epoch.1
                ++ "_file_" ++ pretty epoch.2 ++ ".h5" in
  let gpus := get_available_gpus n in
  exists a : compile_args,
    get_optimizer_info custom_objects loss_opt "adam" = Ok a /\
    (epoch.1 = 0 ->
     forall built : model,
       build_nn_model nn_arch n_bins class_type swap_4d_channels str_ident = Ok built ->
       run = if n =? 1
             then mk_keras [Summary built; Compile built a] (Ok built)
             else mk_keras [MakeParallel built gpus;
                            PrintMgpuModelsummary (ParallelModel built gpus);
                            Compile (ParallelModel built gpus) a;
                            Summary (ParallelModel built gpus);
                            Compile (ParallelModel built gpus) a]
                           (Ok (ParallelModel built gpus))) /\
    (epoch.1 <> 0 ->
     run = if n =? 1
           then mk_keras [LoadModel path; Summary (LoadedModel path)]
                         (Ok (LoadedModel path))
           else mk_keras [LoadModel path;
                          MakeParallel (LoadedModel path) gpus;
                          PrintMgpuModelsummary (ParallelModel (LoadedModel path) gpus);
                          Compile (ParallelModel (LoadedModel path) gpus) a;
                          Summary (ParallelModel (LoadedModel path) gpus)]
                         (Ok (ParallelModel (LoadedModel path) gpus))).
Proof.
  intros Hn run path gpus.
  destruct (get_optimizer_info_adam loss_opt) as [a Ha].
  exists a. split; [exact Ha|].
  subst run. unfold build_or_load_nn_model, parallelize_model_to_n_gpus.
  rewrite Ha. split.
  - intros Hepoch built Hbuilt. apply Z.eqb_eq in Hepoch.
    rewrite Hepoch, Hbuilt. simpl.
    destruct (Z.eqb_spec n 1) as [->|Hne]; [reflexivity|].
    destruct (Z.ltb_spec 1 n); [|lia]. reflexivity.
  - intros Hepoch. apply Z.eqb_neq in Hepoch. rewrite Hepoch. simpl.
    destruct (Z.eqb_spec n 1) as [->|Hne]; [reflexivity|].
    destruct (Z.ltb_spec 1 n); [|lia]. reflexivity.
Qed.

End Setup.

Lemma parallelize_model_to_n_gpus_spec_witness :
  parallelize_model_to_n_gpus two_gpus (LoadedModel "m.h5") (1, "avolkov") 64
    (mk_compile_args ∅ Adam [] ∅)
  = mk_keras [] (Ok (LoadedModel "m.h5", 64)) /\
  k_result (parallelize_model_to_n_gpus two_gpus (LoadedModel "m.h5") (2, "avolkov") 64
              (mk_compile_args ∅ Adam [] ∅))
  = Ok (ParallelModel (LoadedModel "m.h5") ["/gpu:0"; "/gpu:1"], 128) /\
  exists msg,
    parallelize_model_to_n_gpus two_gpus (LoadedModel "m.h5") (2, "horovod") 64
      (mk_compile_args ∅ Adam [] ∅)
    = mk_keras [] (Raise (ValueError msg)).
Proof.
  split; [|split].
  - apply (parallelize_model_to_n_gpus_spec two_gpus (LoadedModel "m.h5") 1 "avolkov" 64);
      reflexivity.
  - apply (parallelize_model_to_n_gpus_spec two_gpus (LoadedModel "m.h5") 2 "avolkov" 64);
      [reflexivity | lia].
  - apply (parallelize_model_to_n_gpus_spec two_gpus (LoadedModel "m.h5") 2 "horovod" 64).
    discriminate.
Defined.

(** C6 as stated fails: resuming from epoch (1, 1) on two GPUs, the model
    is loaded, not built, and [compile] is called on it (parallelized). *)
Lemma build_or_load_nn_model_compiles_loaded_model :
  let run :=
    build_or_load_nn_model two_gpus ∅ (1, 1) "run" "VGG" [(11, 13, 18, 60)]
      (2, "track-shower") None "" (∅, None) (2, "avolkov") 64 in
  let loaded := LoadedModel "run/saved_models/model_epoch_1_file_1.h5" in
  k_result run = Ok (ParallelModel loaded ["/gpu:0"; "/gpu:1"]) /\
  compile_calls (k_log run)
  = [Compile (ParallelModel loaded ["/gpu:0"; "/gpu:1"]) (mk_compile_args ∅ Adam [] ∅)].
Proof. vm_compute. split; reflexivity. Qed.

Lemma build_or_load_nn_model_calls_witness :
  exists a : compile_args,
    get_optimizer_info ∅ (∅, None) "adam" = Ok a /\
    (((3, 2).1 : Z) = 0 ->
     forall built : model,
       build_nn_model "VGG" [(11, 13, 18, 60)] (2, "track-shower") None "" = Ok built ->
       build_or_load_nn_model two_gpus ∅ (3, 2) "run" "VGG" [(11, 13, 18, 60)]
         (2, "track-shower") None "" (∅, None) (2, "avolkov") 64
       = mk_keras [MakeParallel built (two_gpus 2);
                   PrintMgpuModelsummary (ParallelModel built (two_gpus 2));
                   Compile (ParallelModel built (two_gpus 2)) a;
                   Summary (ParallelModel built (two_gpus 2));
                   Compile (ParallelModel built (two_gpus 2)) a]
                  (Ok (ParallelModel built (two_gpus 2)))) /\
    (((3, 2).1 : Z) <> 0 ->
     build_or_load_nn_model two_gpus ∅ (3, 2) "run" "VGG" [(11, 13, 18, 60)]
       (2, "track-shower") None "" (∅, None) (2, "avolkov") 64
     = let path := "run/saved_models/model_epoch_3_file_2.h5" in
       mk_keras [LoadModel path;
                 MakeParallel (LoadedModel path) (two_gpus 2);
                 PrintMgpuModelsummary (ParallelModel (LoadedModel path) (two_gpus 2));
                 Compile (ParallelModel (LoadedModel path) (two_gpus 2)) a;
                 Summary (ParallelModel (LoadedModel path) (two_gpus 2))]
                (Ok (ParallelModel (LoadedModel path) (two_gpus 2)))).
Proof.
  apply (build_or_load_nn_model_calls two_gpus ∅ (3, 2) "run" "VGG"
           [(11, 13, 18, 60)] (2, "track-shower") None "" (∅, None) 2 64).
  lia.
Defined.

End ModelSetupFacts.

(** * Further properties *)

(** ** [get_dimensions_encoding]: which bins are left out *)

(** The bins of a tuple that are not 1, in the order x, y, z, t. *)
Lemma get_dimensions_encoding_leaves_out (batchsize nx ny nz nt : Z) :
  Z.of_nat (length (filter (fun n => n = 1) [nx; ny; nz; nt])) <= 2 ->
  get_dimensions_encoding (nx, ny, nz, nt) batchsize
  = batchsize :: (filter (fun n => n <> 1) [nx; ny; nz; nt]
                  ++ (if decide (filter (fun n => n = 1) [nx; ny; nz; nt] = [])
                      then [] else [1]))%list.
Proof.
  unfold get_dimensions_encoding.
  rewrite !filter_cons, !filter_nil.
  destruct (Z.eqb_spec nx 1), (Z.eqb_spec ny 1), (Z.eqb_spec nz 1), (Z.eqb_spec nt 1);
    repeat case_decide; try congruence; try lia; simpl; intros; try reflexivity; lia.
Qed.

Lemma get_dimensions_encoding_leaves_out_witness :
  get_dimensions_encoding (11, 1, 18, 1) 32
  = 32 :: (filter (fun n => n <> 1) [11; 1; 18; 1]
           ++ (if decide (filter (fun n => n = 1) [11; 1; 18; 1] = [])
               then [] else [1]))%list.
Proof. apply (get_dimensions_encoding_leaves_out 32 11 1 18 1). simpl. lia. Defined.

(** ** [encode_targets]: the classes besides track-shower, and events
       outside the particle table *)

Lemma dict_lookup_QQ_particle_type_dict (p c : Q) :
  dict_lookup_QQ particle_type_dict p c
  = if Qeq_bool p 12 && Qeq_bool c 0 then Ok 0%nat
    else if Qeq_bool p 12 && Qeq_bool c 1 then Ok 1%nat
    else if Qeq_bool p 14 && Qeq_bool c 1 then Ok 2%nat
    else if Qeq_bool p 16 && Qeq_bool c 1 then Ok 3%nat
    else Raise KeyError.
Proof. reflexivity. Qed.

Lemma andb_Qeq_bool_false (p c a b : Q) :
  ~ (p == a /\ c == b)%Q -> Qeq_bool p a && Qeq_bool c b = false.
Proof.
  intros H. destruct (Qeq_bool p a) eqn:Ep; [|reflexivity].
  destruct (Qeq_bool c b) eqn:Ec; [|reflexivity].
  apply Qeq_bool_iff in Ep, Ec. tauto.
Qed.

(** An event whose pair [(|particle_type|, is_cc)] is not a key of
    [particle_type_dict] (a muon-NC or tau-NC event, say) makes
    [encode_targets] raise [KeyError], for track-shower and for
    tau-CC_vs_other_neutrinos alike. *)
Theorem encode_targets_unknown_event
    (rand : bool) (y_val : list Q) (particle_type is_cc : Q) (class_type : class_type_t) :
  y_val !! 1%nat = Some particle_type ->
  y_val !! 3%nat = Some is_cc ->
  class_type = (2, "track-shower") \/ class_type.2 = "tau-CC_vs_other_neutrinos" ->
  ~ ((Qabs particle_type == 12 /\ is_cc == 0) \/
     (Qabs particle_type == 12 /\ is_cc == 1) \/
     (Qabs particle_type == 14 /\ is_cc == 1) \/
     (Qabs particle_type == 16 /\ is_cc == 1))%Q ->
  encode_targets rand y_val class_type = Raise KeyError.
Proof.
  intros H1 H3 Hclass Hpair.
  assert (Hlook : dict_lookup_QQ particle_type_dict (Qabs particle_type) is_cc
                  = Raise KeyError).
  { rewrite dict_lookup_QQ_particle_type_dict.
    rewrite !andb_Qeq_bool_false by tauto. reflexivity. }
  unfold encode_targets, getitem.
  destruct Hclass as [-> | Hclass].
  - simpl. rewrite H1, H3. simpl.
    unfold convert_particle_class_to_categorical. simpl Z.eqb. cbv iota.
    rewrite Hlook. reflexivity.
  - destruct class_type as [n ident]. simpl in Hclass. subst ident. simpl.
    rewrite H1, H3. simpl.
    unfold convert_particle_class_to_categorical. simpl Z.eqb. cbv iota.
    rewrite Hlook. reflexivity.
Qed.

Lemma encode_targets_unknown_event_witness :
  encode_targets true [7; 14; 3; 0; 0; 0; 0; 1]%Q (2, "track-shower") = Raise KeyError.
Proof.
  apply (encode_targets_unknown_event true [7; 14; 3; 0; 0; 0; 0; 1]%Q 14 0);
    [reflexivity | reflexivity | left; reflexivity |].
  intros [[Ha Hb]|[[Ha Hb]|[[Ha Hb]|[Ha Hb]]]]; compute in Ha, Hb;
    (discriminate Ha || discriminate Hb).
Defined.

(** [encode_targets] reads the particle type through its absolute value
    only: for the three supported classes an antiparticle gets the label of
    its particle. *)
Theorem encode_targets_antiparticle
    (rand : bool) (y_val : list Q) (particle_type : Q) (class_type : class_type_t) :
  y_val !! 1%nat = Some particle_type ->
  class_type.2 = "track-shower" \/ class_type.2 = "up_down" \/
  class_type.2 = "tau-CC_vs_other_neutrinos" ->
  encode_targets rand (<[1%nat := (- particle_type)%Q]> y_val) class_type
  = encode_targets rand y_val class_type.
Proof.
  intros H1 Hclass.
  assert (Habs : Qabs (- particle_type) = Qabs particle_type).
  { destruct particle_type as [n d]. unfold Qabs, Qopp. simpl. rewrite Z.abs_opp.
    reflexivity. }
  assert (Hlen : (1 < length y_val)%nat) by (eapply lookup_lt_Some; eauto).
  assert (H1' : <[1%nat := (- particle_type)%Q]> y_val !! 1%nat = Some (- particle_type)%Q)
    by (apply list_lookup_insert_eq; exact Hlen).
  assert (H3' : <[1%nat := (- particle_type)%Q]> y_val !! 3%nat = y_val !! 3%nat)
    by (apply list_lookup_insert_ne; lia).
  assert (H7' : <[1%nat := (- particle_type)%Q]> y_val !! 7%nat = y_val !! 7%nat)
    by (apply list_lookup_insert_ne; lia).
  destruct class_type as [n ident]. simpl in Hclass.
  unfold encode_targets, getitem. simpl fst. simpl snd.
  rewrite H1', H3', H7', H1.
  destruct Hclass as [-> | [-> | ->]]; simpl String.eqb; cbv iota.
  - destruct (negb (n =? 2)); [reflexivity|].
    simpl. destruct (y_val !! 3%nat); [|reflexivity]. simpl.
    unfold convert_particle_class_to_categorical. rewrite Habs. reflexivity.
  - reflexivity.
  - simpl. destruct (y_val !! 3%nat); [|reflexivity]. simpl.
    unfold convert_particle_class_to_categorical. rewrite Habs. reflexivity.
Qed.

Lemma encode_targets_antiparticle_witness :
  encode_targets true (<[1%nat := (- 14)%Q]> [7; 14; 3; 1]%Q) (2, "track-shower")
  = encode_targets true [7; 14; 3; 1]%Q (2, "track-shower").
Proof.
  apply (encode_targets_antiparticle true [7; 14; 3; 1]%Q 14 (2, "track-shower"));
    [reflexivity | left; reflexivity].
Defined.

Lemma sign_int_pos (q : Q) : (0 < q)%Q -> sign_int q = 1.
Proof.
  unfold Qlt, sign_int. simpl. intros H. apply Z.sgn_pos. lia.
Qed.

Lemma sign_int_neg (q : Q) : (q < 0)%Q -> sign_int q = -1.
Proof.
  unfold Qlt, sign_int. simpl. intros H. apply Z.sgn_neg. lia.
Qed.

Lemma sign_int_zero (q : Q) : (q == 0)%Q -> sign_int q = 0.
Proof.
  unfold Qeq, sign_int. simpl. intros H. rewrite Z.mul_1_r in H. rewrite H. reflexivity.
Qed.

(** The up/down value of an event, as [get_class_up_down_categorical] has
    it after its three steps. *)
Lemma get_class_up_down_categorical_value (rand : bool) (dir_z : Q) (n_neurons : Z) (v : Z) :
  ((0 < dir_z)%Q /\ v = 1) \/ ((dir_z < 0)%Q /\ v = 0) \/
  ((dir_z == 0)%Q /\ v = if rand then 1 else 0) ->
  get_class_up_down_categorical rand dir_z n_neurons
  = (y_cat_up_down ← np_zeros n_neurons;
     if n_neurons =? 1 then setitem y_cat_up_down 0 (inject_Z v)
     else setitem y_cat_up_down (Z.to_nat v) 1%Q).
Proof.
  unfold get_class_up_down_categorical.
  intros [[H ->]|[[H ->]|[H ->]]].
  - rewrite (sign_int_pos _ H). reflexivity.
  - rewrite (sign_int_neg _ H). reflexivity.
  - rewrite (sign_int_zero _ H). destruct rand; reflexivity.
Qed.

(** With [class_type = (n, 'up_down')] the label depends on the sign of
    [dir_z] (column 7) alone: class 1 for an event going up, class 0 for one
    going down, and the drawn value for [dir_z == 0].  For [n == 1] the
    label is the class itself, for [n >= 2] the one-hot vector of length
    [n]; [n == 0] raises [IndexError] and a negative [n] [ValueError]. *)
Theorem encode_targets_up_down
    (rand : bool) (y_val : list Q) (dir_z : Q) (n : Z) (v : Z) :
  y_val !! 7%nat = Some dir_z ->
  ((0 < dir_z)%Q /\ v = 1) \/ ((dir_z < 0)%Q /\ v = 0) \/
  ((dir_z == 0)%Q /\ v = if rand then 1 else 0) ->
  let r := encode_targets rand y_val (n, "up_down") in
  (n = 1 -> r = Ok [inject_Z v]) /\
  (2 <= n -> r = Ok (<[Z.to_nat v := 1%Q]> (replicate (Z.to_nat n) 0%Q))) /\
  (n = 0 -> r = Raise IndexError) /\
  (n < 0 -> exists msg, r = Raise (ValueError msg)).
Proof.
  intros H7 Hv r.
  assert (Hr : r = get_class_up_down_categorical rand dir_z n).
  { subst r. unfold encode_targets, getitem. simpl. rewrite H7. reflexivity. }
  rewrite Hr, (get_class_up_down_categorical_value rand dir_z n v Hv). clear Hr r.
  assert (Hv01 : v = 0 \/ v = 1).
  { destruct Hv as [[_ ->]|[[_ ->]|[_ ->]]]; [auto | auto | destruct rand; auto]. }
  unfold np_zeros, setitem.
  split; [|split; [|split]].
  - intros ->. reflexivity.
  - intros Hn. destruct (Z.ltb_spec n 0); [lia|]. simpl.
    destruct (Z.eqb_spec n 1); [lia|].
    destruct (decide (Z.to_nat v < length (replicate (Z.to_nat n) 0%Q))%nat) as [_|Hlen];
      [reflexivity|].
    exfalso. apply Hlen. rewrite length_replicate. lia.
  - intros ->. simpl.
    destruct (decide (Z.to_nat v < 0)%nat) as [Hlen|_]; [lia | reflexivity].
  - intros Hn. destruct (Z.ltb_spec n 0); [|lia]. simpl. eauto.
Qed.

Lemma encode_targets_up_down_witness :
  let r := encode_targets true [7; 14; 3; 1; 0; 0; 0; -1 # 2]%Q (2, "up_down") in
  ((2:Z) = 1 -> r = Ok [inject_Z 0]) /\
  (2 <= 2 -> r = Ok (<[Z.to_nat 0 := 1%Q]> (replicate (Z.to_nat 2) 0%Q))) /\
  ((2:Z) = 0 -> r = Raise IndexError) /\
  (2 < 0 -> exists msg, r = Raise (ValueError msg)).
Proof.
  apply (encode_targets_up_down true [7; 14; 3; 1; 0; 0; 0; -1 # 2]%Q (-1 # 2) 2 0).
  - reflexivity.
  - right; left. split; reflexivity.
Defined.

(** With [class_type = (n, 'tau-CC_vs_other_neutrinos')] and an event of
    the particle table: for [n == 2] the label is [1, 0] for tau-CC, i.e.
    (16, 1), and [0, 1] for the three other pairs; for [n == 1] it is [1]
    for tau-CC and [0] otherwise. *)
Theorem encode_targets_tau_cc
    (rand : bool) (y_val : list Q) (particle_type is_cc : Q) :
  y_val !! 1%nat = Some particle_type ->
  y_val !! 3%nat = Some is_cc ->
  ((Qabs particle_type == 12 /\ is_cc == 0) \/
   (Qabs particle_type == 12 /\ is_cc == 1) \/
   (Qabs particle_type == 14 /\ is_cc == 1) \/
   (Qabs particle_type == 16 /\ is_cc == 1))%Q ->
  encode_targets rand y_val (2, "tau-CC_vs_other_neutrinos")
  = Ok (if Qeq_bool (Qabs particle_type) 16 && Qeq_bool is_cc 1
        then [1; 0]%Q else [0; 1]%Q) /\
  encode_targets rand y_val (1, "tau-CC_vs_other_neutrinos")
  = Ok (if Qeq_bool (Qabs particle_type) 16 && Qeq_bool is_cc 1
        then [1]%Q else [0]%Q).
Proof.
  intros H1 H3 Hpair.
  unfold encode_targets, getitem. simpl. rewrite H1, H3. simpl.
  unfold convert_particle_class_to_categorical. simpl.
  change 16%Q with (inject_Z 16).
  change (Qeq_bool is_cc 1) with (Qeq_bool is_cc (inject_Z 1)).
  destruct Hpair as [[Hp Hc]|[[Hp Hc]|[[Hp Hc]|[Hp Hc]]]];
    rewrite !(Qeq_bool_via _ _ _ Hp), !(Qeq_bool_via _ _ _ Hc); split; reflexivity.
Qed.

Lemma encode_targets_tau_cc_witness :
  encode_targets true [7; -16; 3; 1]%Q (2, "tau-CC_vs_other_neutrinos")
  = Ok (if Qeq_bool (Qabs (-16)) 16 && Qeq_bool 1 1 then [1; 0]%Q else [0; 1]%Q) /\
  encode_targets true [7; -16; 3; 1]%Q (1, "tau-CC_vs_other_neutrinos")
  = Ok (if Qeq_bool (Qabs (-16)) 16 && Qeq_bool 1 1 then [1]%Q else [0]%Q).
Proof.
  apply (encode_targets_tau_cc true [7; -16; 3; 1]%Q (-16) 1); [reflexivity | reflexivity |].
  right; right; right. split; reflexivity.
Defined.

(** ** [get_regression_labels]: when it raises *)

(** A class string that is none of the three regression labels. *)
Lemma get_regression_labels_other_class
    (to_float32 : Q -> Q) (y_values : array2) (class_type : class_type_t) :
  class_type.2 <> "energy_and_direction_and_bjorken-y" ->
  class_type.2 <> "energy_dir_bjorken-y_errors" ->
  class_type.2 <> "energy_dir_bjorken-y_vtx_errors" ->
  exists msg, get_regression_labels to_float32 y_values class_type = Raise (ValueError msg).
Proof.
  intros H1 H2 H3. unfold get_regression_labels.
  apply String.eqb_neq in H1, H2, H3. rewrite H1, H2, H3. eauto.
Qed.

(** [get_regression_labels] returns for 'energy_and_direction_and_bjorken-y'
    whatever the array; for the two classes with errors it returns exactly
    when the array has more than four columns and raises [IndexError]
    otherwise; for every other class string it raises [ValueError]. *)
Theorem get_regression_labels_raises
    (to_float32 : Q -> Q) (y_values : array2) (class_type : class_type_t) :
  let r := get_regression_labels to_float32 y_values class_type in
  (class_type.2 = "energy_and_direction_and_bjorken-y" -> exists ys, r = Ok ys) /\
  (class_type.2 = "energy_dir_bjorken-y_errors" \/
   class_type.2 = "energy_dir_bjorken-y_vtx_errors" ->
   ((a2_ncols y_values <= 4)%nat -> r = Raise IndexError) /\
   ((4 < a2_ncols y_values)%nat -> exists ys, r = Ok ys)) /\
  (class_type.2 <> "energy_and_direction_and_bjorken-y" ->
   class_type.2 <> "energy_dir_bjorken-y_errors" ->
   class_type.2 <> "energy_dir_bjorken-y_vtx_errors" ->
   exists msg, r = Raise (ValueError msg)).
Proof.
  intros r. subst r. unfold get_regression_labels, correct_elec_nc.
  destruct class_type as [n ident]. simpl fst. simpl snd.
  split; [|split].
  - intros ->. simpl. eauto.
  - intros [-> | ->]; simpl String.eqb; cbv iota; simpl a2_ncols;
      (split; intros Hc;
       destruct (decide (a2_ncols y_values <= 4)%nat); try lia; simpl; eauto).
  - intros H1 H2 H3. apply String.eqb_neq in H1, H2, H3.
    rewrite H1, H2, H3. eauto.
Qed.

Lemma get_regression_labels_raises_witness :
  exists msg,
    get_regression_labels (fun q => q) (mk_array2 2 [[1; 12]]%Q) (2, "up_down")
    = Raise (ValueError msg).
Proof.
  apply (get_regression_labels_raises (fun q => q) (mk_array2 2 [[1; 12]]%Q) (2, "up_down"));
    discriminate.
Defined.

(** ** The generator: classes it cannot serve, files shorter than a batch,
       and what comes after a pass *)

Section GeneratorMore.

Variable to_float32 : Q -> Q.
Variable np_subtract : ndarray -> ndarray -> exc ndarray.
Variable np_transpose : np_arg -> list Z -> exc ndarray.
Variable np_concatenate : list ndarray -> exc ndarray.
Variable rand : bool.
Variable fs : gmap string h5file.
Variable args : gen_args.

Local Abbreviation b := (batchsize args).
Local Abbreviation make_batch' :=
  (make_batch to_float32 np_subtract np_transpose np_concatenate rand args).
Local Abbreviation inner_step' :=
  (inner_step to_float32 np_subtract np_transpose np_concatenate rand args).
Local Abbreviation inner_loop' :=
  (inner_loop to_float32 np_subtract np_transpose np_concatenate rand args).
Local Abbreviation next' :=
  (next to_float32 np_subtract np_transpose np_concatenate rand fs args).
Local Abbreviation yielded_from' :=
  (yielded_from to_float32 np_subtract np_transpose np_concatenate rand fs args).

Lemma next_no_batch (fuel : nat) (st : gen_state) (o : output) (st' : gen_state) :
  (forall f dims n bt, make_batch' f dims n <> Ok bt) ->
  next' fuel st <> Yield o st'.
Proof.
  intros Hno. revert st. induction fuel as [|fuel IH]; intros st; [discriminate|].
  destruct st as [|dims fsz|dims f fsz n|]; simpl.
  - destruct (dimensions args); [apply IH | discriminate].
  - destruct (open_files fs args) as [f|]; [|discriminate].
    destruct fsz; [apply IH|].
    destruct (dict_getitem f 0); [apply IH | discriminate].
  - unfold inner_step.
    destruct (n <=? fsz - b); [|apply IH].
    destruct (make_batch' f dims n) as [bt|] eqn:Hmk; [|discriminate].
    exfalso. exact (Hno f dims n bt Hmk).
  - discriminate.
Qed.

Lemma make_batch_unsupported_class (f : list h5file) (dims : list (list Z)) (n : Z)
    (bt : batch) :
  (class_type args).2 <> "track-shower" ->
  (class_type args).2 <> "energy_and_direction_and_bjorken-y" ->
  (class_type args).2 <> "energy_dir_bjorken-y_errors" ->
  (class_type args).2 <> "energy_dir_bjorken-y_vtx_errors" ->
  make_batch' f dims n <> Ok bt.
Proof.
  intros Hts H1 H2 H3 Hmk.
  apply make_batch_Ok in Hmk. destruct Hmk as (_ & _ & _ & _ & _ & _ & Hys).
  unfold build_ys in Hys. apply String.eqb_neq in Hts. rewrite Hts in Hys. simpl in Hys.
  destruct (get_regression_labels_other_class to_float32 (b_y_values bt) (class_type args)
              H1 H2 H3) as [msg Hmsg].
  rewrite Hmsg in Hys. discriminate.
Qed.

(** Files shorter than a batch: the frame goes round the outer loop without
    ever reaching a [yield]. *)
Lemma next_short_file (dims : list (list Z)) (f : list h5file) (fsz : Z) (fuel : nat) :
  open_files fs args = Ok f ->
  fsz < b ->
  next' fuel (GenOuter dims (Some fsz)) = NoAnswer /\
  next' fuel (GenInner dims f fsz 0) = NoAnswer.
Proof.
  intros Hopen Hlt. induction fuel as [|fuel [IHo IHi]]; [split; reflexivity|].
  split; simpl.
  - rewrite Hopen. exact IHi.
  - unfold inner_step. destruct (Z.leb_spec 0 (fsz - b)); [lia|]. exact IHo.
Qed.

(** What a completed pass says about the single loop tests. *)
Lemma inner_loop_done_steps (pass_fuel : nat) (f : list h5file) (dims : list (list Z))
    (fsz n : Z) (batches : list batch) :
  inner_loop' pass_fuel f dims fsz n = (batches, PassDone) ->
  (forall (j : nat) (bt : batch),
     batches !! j = Some bt ->
     inner_step' f dims fsz (n + Z.of_nat j * b)
     = StepYield bt (n + Z.of_nat (S j) * b)) /\
  inner_step' f dims fsz (n + Z.of_nat (length batches) * b) = StepExit.
Proof.
  revert n batches. induction pass_fuel as [|pass_fuel IH]; intros n batches H;
    simpl in H; [discriminate|].
  destruct (inner_step' f dims fsz n) as [bt0 n'| |] eqn:Hstep.
  - destruct (inner_loop' pass_fuel f dims fsz n') as [rest e] eqn:Hrest.
    injection H as <- ->.
    assert (Hn' : n' = n + b).
    { unfold inner_step in Hstep. destruct (n <=? fsz - b); [|discriminate].
      destruct (make_batch' f dims n); [|discriminate]. congruence. }
    subst n'. destruct (IH _ _ Hrest) as [Hyield Hexit]. split.
    + intros [|j] bt Hj; simpl in Hj.
      * injection Hj as <-. rewrite Z.mul_0_l, Z.add_0_r.
        rewrite Hstep. f_equal. lia.
      * specialize (Hyield j bt Hj).
        replace (n + Z.of_nat (S j) * b) with (n + b + Z.of_nat j * b) by lia.
        rewrite Hyield. f_equal. lia.
    + replace (n + Z.of_nat (length (bt0 :: rest)) * b)
        with (n + b + Z.of_nat (length rest) * b) by (simpl length; lia).
      exact Hexit.
  - discriminate.
  - injection H as <-. split.
    + intros j bt Hj. rewrite lookup_nil in Hj. discriminate.
    + simpl. rewrite Z.add_0_r. exact Hstep.
Qed.

Lemma next_inner_yield (fuel : nat) (dims : list (list Z)) (f : list h5file)
    (fsz n n' : Z) (bt : batch) :
  inner_step' f dims fsz n = StepYield bt n' ->
  next' (S fuel) (GenInner dims f fsz n)
  = Yield (output_of args bt) (GenInner dims f fsz n').
Proof. intros H. simpl. rewrite H. reflexivity. Qed.

Lemma next_inner_exit (fuel : nat) (dims : list (list Z)) (f : list h5file) (fsz n : Z) :
  inner_step' f dims fsz n = StepExit ->
  open_files fs args = Ok f ->
  next' (S (S fuel)) (GenInner dims f fsz n) = next' fuel (GenInner dims f fsz 0).
Proof. intros H Hopen. simpl. rewrite H, Hopen. reflexivity. Qed.

Lemma yielded_from_cycle (dims : list (list Z)) (f : list h5file) (fsz : Z)
    (pass_fuel : nat) (batches : list batch) (fuel : nat) :
  open_files fs args = Ok f ->
  inner_loop' pass_fuel f dims fsz 0 = (batches, PassDone) ->
  batches <> [] ->
  forall (count j k : nat),
    (j <= length batches)%nat ->
    (k < count)%nat ->
    yielded_from' (S (S (S fuel))) count (GenInner dims f fsz (Z.of_nat j * b)) !! k
    = map (output_of args) batches !! ((j + k) mod length batches)%nat.
Proof.
  intros Hopen Hpass Hne.
  destruct (inner_loop_done_steps _ _ _ _ _ _ Hpass) as [Hyield Hexit].
  rewrite Z.add_0_l in Hexit.
  set (m := length batches) in *.
  assert (Hm : (0 < m)%nat) by (subst m; destruct batches; [congruence | simpl; lia]).
  assert (Hstep : forall (fu j : nat), (j < m)%nat ->
            exists bt, batches !! j = Some bt /\
              next' (S fu) (GenInner dims f fsz (Z.of_nat j * b))
              = Yield (output_of args bt) (GenInner dims f fsz (Z.of_nat (S j) * b))).
  { intros fu j Hj. destruct (lookup_lt_is_Some_2 batches j Hj) as [bt Hbt].
    exists bt. split; [exact Hbt|]. apply next_inner_yield.
    specialize (Hyield j bt Hbt). rewrite !Z.add_0_l in Hyield. exact Hyield. }
  assert (Hwrap : exists bt, batches !! 0%nat = Some bt /\
            next' (S (S (S fuel))) (GenInner dims f fsz (Z.of_nat m * b))
            = Yield (output_of args bt) (GenInner dims f fsz (Z.of_nat 1 * b))).
  { destruct (Hstep fuel 0%nat Hm) as (bt & Hbt & Hnext).
    exists bt. split; [exact Hbt|].
    rewrite (next_inner_exit _ _ _ _ _ Hexit Hopen). exact Hnext. }
  induction count as [|count IH]; intros j k Hj Hk; [lia|].
  destruct (decide (j < m)%nat) as [Hlt|Hge].
  - destruct (Hstep (S (S fuel)) j Hlt) as (bt & Hbt & Hnext).
    cbn [yielded_from]. rewrite Hnext.
    destruct k as [|k].
    + simpl. rewrite Nat.add_0_r, Nat.mod_small by exact Hlt.
      rewrite list_lookup_fmap, Hbt. reflexivity.
    + simpl lookup. rewrite (IH (S j) k) by lia.
      f_equal. f_equal. lia.
  - assert (j = m) by lia. subst j.
    destruct Hwrap as (bt & Hbt & Hnext).
    cbn [yielded_from]. rewrite Hnext.
    destruct k as [|k].
    + simpl. rewrite Nat.add_0_r, Nat.Div0.mod_same.
      rewrite list_lookup_fmap, Hbt. reflexivity.
    + simpl lookup. rewrite (IH 1%nat k) by lia.
      f_equal.
      replace (m + S k)%nat with (1 + k + 1 * m)%nat by lia.
      rewrite Nat.Div0.mod_add. reflexivity.
Qed.

(** The first call of [next], once the dimensions are computed and the
    files are open, enters the inner loop at counter 0 with the file size in
    effect: [f_size] if given, the number of rows of the first file's ['y']
    otherwise. *)
Lemma next_start (fuel : nat) (dims : list (list Z)) (f : list h5file) (fsz : Z) :
  dimensions args = Ok dims ->
  open_files fs args = Ok f ->
  f_size args = Some fsz \/
  (f_size args = None /\
   exists f0, f !! 0%nat = Some f0 /\ fsz = Z.of_nat (length (ds_rows (h5_y f0)))) ->
  next' (S (S fuel)) GenStart = next' fuel (GenInner dims f fsz 0).
Proof.
  intros Hdims Hopen Hsize. simpl. rewrite Hdims, Hopen.
  destruct Hsize as [-> | (-> & f0 & Hf0 & ->)]; [reflexivity|].
  unfold dict_getitem. rewrite Hf0. reflexivity.
Qed.

(** A class that neither [encode_targets] (through 'track-shower') nor
    [get_regression_labels] serves: no call of [next] ever yields. *)
Theorem next_unsupported_class
    (fuel : nat) (st st' : gen_state) (o : output) :
  (class_type args).2 <> "track-shower" ->
  (class_type args).2 <> "energy_and_direction_and_bjorken-y" ->
  (class_type args).2 <> "energy_dir_bjorken-y_errors" ->
  (class_type args).2 <> "energy_dir_bjorken-y_vtx_errors" ->
  next' fuel st <> Yield o st'.
Proof.
  intros Hts H1 H2 H3. apply next_no_batch.
  intros f dims n bt. apply make_batch_unsupported_class; assumption.
Qed.

(** With a file size below the batchsize the generator never answers: the
    inner loop is skipped, the files are closed and opened again, without
    end and without a [yield]. *)
Theorem next_never_answers_short_file
    (dims : list (list Z)) (f : list h5file) (fsz : Z) (fuel : nat) :
  dimensions args = Ok dims ->
  open_files fs args = Ok f ->
  f_size args = Some fsz \/
  (f_size args = None /\
   exists f0, f !! 0%nat = Some f0 /\ fsz = Z.of_nat (length (ds_rows (h5_y f0)))) ->
  fsz < b ->
  next' fuel GenStart = NoAnswer.
Proof.
  intros Hdims Hopen Hsize Hlt.
  destruct fuel as [|[|fuel]]; [reflexivity| |].
  - simpl. rewrite Hdims. reflexivity.
  - rewrite (next_start fuel dims f fsz Hdims Hopen Hsize).
    apply (next_short_file dims f fsz fuel Hopen Hlt).
Qed.

(** After a pass that ran to its end the generator starts over at the first
    row: with [m] batches in a pass, the [k]-th output of the generator is
    the batch number [k mod m] of the pass.  The rows after the last full
    batch are in no output. *)
Theorem yielded_from_periodic
    (dims : list (list Z)) (f : list h5file) (fsz : Z)
    (pass_fuel : nat) (batches : list batch) (fuel count k : nat) :
  dimensions args = Ok dims ->
  open_files fs args = Ok f ->
  f_size args = Some fsz \/
  (f_size args = None /\
   exists f0, f !! 0%nat = Some f0 /\ fsz = Z.of_nat (length (ds_rows (h5_y f0)))) ->
  inner_loop' pass_fuel f dims fsz 0 = (batches, PassDone) ->
  batches <> [] ->
  (k < count)%nat ->
  yielded_from' (S (S (S fuel))) count GenStart !! k
  = map (output_of args) batches !! (k mod length batches)%nat.
Proof.
  intros Hdims Hopen Hsize Hpass Hne Hk.
  destruct (inner_loop_done_steps _ _ _ _ _ _ Hpass) as [Hyield _].
  destruct batches as [|bt0 rest] eqn:Hb; [congruence|]. rewrite <- Hb in *.
  assert (Hbt0 : batches !! 0%nat = Some bt0) by (rewrite Hb; reflexivity).
  specialize (Hyield 0%nat bt0 Hbt0). rewrite !Z.add_0_l in Hyield.
  destruct count as [|count]; [lia|].
  cbn [yielded_from].
  rewrite (next_start (S fuel) dims f fsz Hdims Hopen Hsize).
  rewrite (next_inner_yield _ _ _ _ _ _ _ Hyield).
  destruct k as [|k].
  - simpl lookup. rewrite Nat.Div0.mod_0_l, list_lookup_fmap, Hbt0. reflexivity.
  - simpl lookup.
    rewrite (yielded_from_cycle dims f fsz pass_fuel batches fuel Hopen Hpass)
      by (rewrite ?Hb; simpl; (congruence || lia)).
    reflexivity.
Qed.

End GeneratorMore.

Lemma next_unsupported_class_witness :
  next (fun q => q) not_reached not_reached not_reached1 true example_fs
    (mk_gen_args ["train.h5"] 2 [(2, 1, 1, 1)] (2, "up_down") "" (Some 5) None true None)
    5 GenStart
  <> Yield (Out2 (InputList []) (CatLabels [])) GenStart.
Proof.
  apply (next_unsupported_class (fun q => q) not_reached not_reached not_reached1 true
           example_fs
           (mk_gen_args ["train.h5"] 2 [(2, 1, 1, 1)] (2, "up_down") "" (Some 5) None
              true None));
    discriminate.
Defined.

Lemma next_never_answers_short_file_witness :
  next (fun q => q) not_reached not_reached not_reached1 true example_fs
    (mk_gen_args ["train.h5"] 8 [(2, 1, 1, 1)] (2, "track-shower") "" None None true None)
    1000 GenStart
  = NoAnswer.
Proof.
  apply (next_never_answers_short_file (fun q => q) not_reached not_reached not_reached1
           true example_fs
           (mk_gen_args ["train.h5"] 8 [(2, 1, 1, 1)] (2, "track-shower") "" None None
              true None)
           [[8; 2; 1; 1]] [example_file] 5 1000).
  - reflexivity.
  - reflexivity.
  - right. split; [reflexivity|]. exists example_file. split; reflexivity.
  - simpl. lia.
Defined.

Lemma yielded_from_periodic_witness :
  let batches :=
    (inner_loop (fun q => q) not_reached not_reached not_reached1 true example_args
       3 [example_file] [[2; 2; 1; 1]] 5 0).1 in
  yielded_from (fun q => q) not_reached not_reached not_reached1 true example_fs
    example_args 3 8 GenStart !! 5%nat
  = map (output_of example_args) batches !! (5 mod length batches)%nat.
Proof.
  apply (yielded_from_periodic (fun q => q) not_reached not_reached not_reached1 true
           example_fs example_args [[2; 2; 1; 1]] [example_file] 5 3 _ 0 8 5).
  - reflexivity.
  - reflexivity.
  - left. reflexivity.
  - vm_compute. reflexivity.
  - vm_compute. discriminate.
  - lia.
Defined.

(** ** [get_mean_image]: files that fit into memory, NaN, and the size of
       the steps *)

Lemma get_array_memsize_entries (x : dataset) :
  get_array_memsize x = Z.of_nat (length (ds_rows x)) * shape_size (ds_row_shape x).
Proof.
  unfold get_array_memsize. cbn [hd tail]. rewrite Z.div_mul by lia.
  generalize (Z.of_nat (length (ds_rows x))) as n.
  induction (ds_row_shape x) as [|d s IH]; intros n; simpl.
  - lia.
  - rewrite IH. unfold shape_size. simpl. lia.
Qed.

Lemma slice_all {A : Type} (l : list A) :
  slice l 0 (Z.of_nat (length l)) = l.
Proof.
  replace (Z.of_nat (length l)) with (0 + Z.of_nat (length l)) by lia.
  rewrite slice_take_drop by lia. rewrite Nat2Z.id. simpl. rewrite drop_0.
  apply take_ge. lia.
Qed.

Lemma sum_axis0_length (width : nat) (rows : list (list Q)) :
  (length (sum_axis0 width rows) <= width)%nat.
Proof.
  unfold sum_axis0. induction rows as [|r rows IH]; simpl.
  - rewrite length_replicate. lia.
  - unfold add_rows at 1. rewrite length_zip_with.
    etransitivity; [apply Nat.le_min_r | exact IH].
Qed.

Lemma add_zero_row (width : nat) (m : list Q) :
  (length m <= width)%nat ->
  Forall2 Qeq (map (fun s => s / inject_Z (Z.of_nat 1))%Q
                 (add_rows m (replicate width 0%Q))) m.
Proof.
  revert width. induction m as [|x m IH]; intros width Hlen.
  - destruct width; constructor.
  - destruct width as [|width]; [simpl in Hlen; lia|].
    simpl. constructor.
    + unfold Qdiv. change (inject_Z (Z.of_nat 1)) with 1%Q. field.
    + apply IH. simpl in Hlen. lia.
Qed.

(** The number of steps is 1 for a file of at most [n_gpu * 8e9] entries. *)
Lemma ceil_div_one (a b : Z) : 0 < a <= b -> ceil_div a b = 1.
Proof.
  intros H. unfold ceil_div.
  rewrite <- (Z.div_unique (- a) b (-1) (b - a)); lia.
Qed.

(** A file whose ['x'] has at least one and at most [n_gpu * 8e9] entries
    is averaged in a single step, and [get_mean_image] returns the mean of
    the whole dataset, bin by bin, rounded to float32. *)
Theorem get_mean_image_single_step
    (to_float32 : Q -> Q) (h5 : gmap string h5file) (path : string) (f : h5file)
    (n_gpu : Z) :
  (forall q1 q2 : Q, q1 == q2 -> to_float32 q1 == to_float32 q2)%Q ->
  h5 !! path = Some f ->
  0 < get_array_memsize (h5_x f) <= n_gpu * 8000000000 ->
  exists m w : list Q,
    get_mean_image to_float32 h5 path n_gpu
    = Ok (mk_image (ds_row_shape (h5_x f)) (Some m)) /\
    whole_mean (h5_x f) = Some w /\
    Forall2 Qeq m (map to_float32 w).
Proof.
  intros Hround Hfile Hsize. set (x := h5_x f) in *.
  assert (Hrows : ds_rows x <> []).
  { intros Hnil. rewrite get_array_memsize_entries, Hnil in Hsize. simpl in Hsize. lia. }
  unfold get_mean_image. rewrite Hfile. fold x.
  destruct (Z.eqb_spec (n_gpu * 8000000000) 0) as [H0|_]; [lia|].
  rewrite (ceil_div_one _ _ Hsize).
  unfold mean_image_in_steps, whole_mean. simpl Z.eqb. simpl Z.ltb. cbv iota.
  change (range 1) with [0]. cbn [map].
  unfold step_mean. simpl Z.eqb. simpl orb. cbv iota.
  rewrite Z.mul_0_l, slice_all.
  unfold mean_axis0 at 2.
  destruct (ds_rows x) as [|r rows] eqn:E; [congruence|]. rewrite <- E.
  set (w := map (fun s => (s / inject_Z (Z.of_nat (length (ds_rows x))))%Q)
              (sum_axis0 (row_width x) (ds_rows x))).
  assert (Hw : mean_axis0 (row_width x) (ds_rows x) = Some w).
  { unfold mean_axis0. rewrite E. rewrite <- E. reflexivity. }
  rewrite Hw. unfold mean_of_means. cbn [mapM mbind option_bind id mret option_ret].
  unfold mean_axis0. cbn [sum_axis0 fold_right length fmap option_fmap option_map].
  eexists _, w. split; [reflexivity|]. split; [reflexivity|].
  assert (Hlen : (length w <= row_width x)%nat).
  { subst w. rewrite length_map. apply sum_axis0_length. }
  pose proof (add_zero_row (row_width x) w Hlen) as Hadd.
  clear -Hadd Hround. induction Hadd as [|a c l1 l2 Hac _ IH]; simpl; constructor.
  - apply Hround, Hac.
  - exact IH.
Qed.

Lemma get_mean_image_single_step_witness :
  exists m w : list Q,
    get_mean_image (fun q => q) {[ "train_0.h5" := train_0 ]} "train_0.h5" 1
    = Ok (mk_image (ds_row_shape (h5_x train_0)) (Some m)) /\
    whole_mean (h5_x train_0) = Some w /\
    Forall2 Qeq m (map (fun q => q) w).
Proof.
  apply (get_mean_image_single_step (fun q => q) {[ "train_0.h5" := train_0 ]}
           "train_0.h5" train_0 1).
  - intros q1 q2 H. exact H.
  - reflexivity.
  - vm_compute. split; [reflexivity | discriminate].
Defined.

(** *** The chunks of the steps *)

Lemma concat_consecutive {A : Type} (l : list A) (k m : nat) :
  concat (map (fun i => take k (drop (i * k) l)) (seq 0 m)) = take (m * k) l.
Proof.
  induction m as [|m IH].
  - simpl. rewrite take_0. reflexivity.
  - rewrite seq_S, map_app, concat_app, IH. simpl. rewrite app_nil_r.
    rewrite take_take_drop. f_equal. lia.
Qed.

(** The rows of the steps: [k] rows each, the last one to the end. *)
Lemma step_mean_chunks (x : dataset) (steps : Z) :
  0 < steps ->
  let n_rows := Z.of_nat (length (ds_rows x)) in
  let k := Z.to_nat (Z.quot n_rows steps) in
  let s := Z.to_nat steps in
  map (step_mean x steps (Z.quot n_rows steps) n_rows) (range steps)
  = map (mean_axis0 (row_width x))
      (map (fun i => take k (drop (i * k) (ds_rows x))) (seq 0 (s - 1))
       ++ [drop ((s - 1) * k) (ds_rows x)])%list.
Proof.
  intros Hsteps n_rows k s.
  assert (Hq : 0 <= Z.quot n_rows steps) by (apply Z.quot_pos; lia).
  unfold range. fold s.
  replace s with (S (s - 1)) at 1 by lia.
  rewrite seq_S, !map_app, !map_map. simpl. f_equal.
  - apply map_ext_in. intros i Hi. apply in_seq in Hi.
    unfold step_mean.
    destruct (Z.eqb_spec (Z.of_nat i) (steps - 1)) as [E|_]; [lia|].
    destruct (Z.eqb_spec steps 1) as [E|_]; [lia|]. simpl.
    replace ((Z.of_nat i + 1) * Z.quot n_rows steps)
      with (Z.of_nat i * Z.quot n_rows steps + Z.quot n_rows steps) by lia.
    rewrite slice_take_drop by (try apply Z.mul_nonneg_nonneg; lia). fold k. do 2 f_equal.
    rewrite Z2Nat.inj_mul, Nat2Z.id by lia. reflexivity.
  - unfold step_mean.
    destruct (Z.eqb_spec (Z.of_nat (s - 1)) (steps - 1)) as [_|E]; [|lia]. simpl.
    f_equal. f_equal.
    assert (Hle : Z.of_nat (s - 1) * Z.quot n_rows steps <= n_rows).
    { pose proof (Z.quot_rem' n_rows steps) as Hd.
      pose proof (Z.rem_nonneg n_rows steps) as Hr.
      assert (0 <= Z.rem n_rows steps) by (apply Hr; lia). nia. }
    replace n_rows with (Z.of_nat (s - 1) * Z.quot n_rows steps
                         + (n_rows - Z.of_nat (s - 1) * Z.quot n_rows steps)) at 2 by lia.
    assert (Hpos : 0 <= Z.of_nat (s - 1) * Z.quot n_rows steps) by (apply Z.mul_nonneg_nonneg; lia).
    rewrite slice_take_drop by lia.
    rewrite Z2Nat.inj_mul, Nat2Z.id by lia. fold k.
    apply take_ge. rewrite length_drop. subst n_rows. lia.
Qed.

Lemma mapM_id_Some {A : Type} (l : list A) : mapM id (map Some l) = Some l.
Proof. induction l as [|a l IH]; simpl; [reflexivity|]. rewrite IH. reflexivity. Qed.

Lemma mapM_id_None {A : Type} (l : list (option A)) : In None l -> mapM id l = None.
Proof.
  induction l as [|a l IH]; simpl; [tauto|]. intros [->|Hin]; [reflexivity|].
  destruct a; simpl; [|reflexivity]. rewrite (IH Hin). reflexivity.
Qed.

Lemma mean_axis0_Some (width : nat) (rows : list (list Q)) :
  rows <> [] ->
  mean_axis0 width rows
  = Some (map (fun s => s / inject_Z (Z.of_nat (length rows)))%Q (sum_axis0 width rows)).
Proof. destruct rows; [congruence | reflexivity]. Qed.

Lemma mean_axis0_None (width : nat) (rows : list (list Q)) :
  mean_axis0 width rows = None <-> rows = [].
Proof. destruct rows; simpl; split; congruence. Qed.

(** *** Sums of rows, up to equality of rationals *)

Lemma Qeqs_refl (a : list Q) : Forall2 Qeq a a.
Proof. induction a; constructor; [reflexivity | assumption]. Qed.

Lemma Qeqs_sym (a b : list Q) : Forall2 Qeq a b -> Forall2 Qeq b a.
Proof. induction 1; constructor; [symmetry|]; assumption. Qed.

Lemma Qeqs_trans (a b c : list Q) :
  Forall2 Qeq a b -> Forall2 Qeq b c -> Forall2 Qeq a c.
Proof.
  intros Hab. revert c. induction Hab as [|x y a b Hxy _ IH]; intros c Hbc.
  - inversion Hbc. constructor.
  - inversion Hbc as [|y' z b' c' Hyz Hbc']; subst. constructor.
    + rewrite Hxy. exact Hyz.
    + apply IH, Hbc'.
Qed.

Lemma add_rows_Qeq (a a' b b' : list Q) :
  Forall2 Qeq a a' -> Forall2 Qeq b b' -> Forall2 Qeq (add_rows a b) (add_rows a' b').
Proof.
  intros Ha. revert b b'. induction Ha as [|x x' a a' Hx _ IH]; intros b b' Hb.
  - constructor.
  - destruct Hb as [|y y' b b' Hy Hb]; simpl; constructor.
    + rewrite Hx, Hy. reflexivity.
    + apply IH, Hb.
Qed.

Lemma add_rows_assoc (a b c : list Q) :
  Forall2 Qeq (add_rows a (add_rows b c)) (add_rows (add_rows a b) c).
Proof.
  revert b c. induction a as [|x a IH]; intros [|y b] [|z c]; simpl; try constructor.
  - ring.
  - apply IH.
Qed.

Lemma add_rows_zero_l (width : nat) (m : list Q) :
  (length m <= width)%nat -> Forall2 Qeq m (add_rows (replicate width 0%Q) m).
Proof.
  revert width. induction m as [|x m IH]; intros width Hlen.
  - destruct width; constructor.
  - destruct width as [|width]; [simpl in Hlen; lia|].
    simpl. constructor; [ring | apply IH; simpl in Hlen; lia].
Qed.

Lemma map_div_Qeq (d : Q) (a b : list Q) :
  Forall2 Qeq a b -> Forall2 Qeq (map (fun s => s / d)%Q a) (map (fun s => s / d)%Q b).
Proof.
  induction 1 as [|x y a b Hxy _ IH]; simpl; constructor; [|exact IH].
  rewrite Hxy. reflexivity.
Qed.

Lemma add_rows_map_div (d : Q) (a b : list Q) :
  Forall2 Qeq (add_rows (map (fun s => s / d)%Q a) (map (fun s => s / d)%Q b))
              (map (fun s => s / d)%Q (add_rows a b)).
Proof.
  revert b. induction a as [|x a IH]; intros [|y b]; simpl; try constructor.
  - unfold Qdiv. ring.
  - apply IH.
Qed.

Lemma sum_axis0_app (width : nat) (a b : list (list Q)) :
  Forall2 Qeq (sum_axis0 width (a ++ b)) (add_rows (sum_axis0 width a) (sum_axis0 width b)).
Proof.
  induction a as [|r a IH]; simpl.
  - apply add_rows_zero_l, sum_axis0_length.
  - change (sum_axis0 width (r :: a ++ b)) with (add_rows r (sum_axis0 width (a ++ b))).
    change (sum_axis0 width (r :: a)) with (add_rows r (sum_axis0 width a)).
    eapply Qeqs_trans; [|apply add_rows_assoc].
    apply add_rows_Qeq; [apply Qeqs_refl | exact IH].
Qed.

(** The sum of the per-chunk means of chunks of [k] rows is the sum of all
    rows divided by [k]. *)
Lemma sum_axis0_chunk_means (width : nat) (d : Q) (chunks : list (list (list Q))) :
  Forall2 Qeq
    (sum_axis0 width (map (fun c => map (fun s => s / d)%Q (sum_axis0 width c)) chunks))
    (map (fun s => s / d)%Q (sum_axis0 width (concat chunks))).
Proof.
  induction chunks as [|c chunks IH].
  - simpl. unfold sum_axis0. simpl. induction width as [|w IHw]; simpl; constructor.
    + unfold Qdiv. ring.
    + exact IHw.
  - cbn [map concat].
    change (sum_axis0 width (?r :: ?l)) with (add_rows r (sum_axis0 width l)).
    eapply Qeqs_trans; [apply add_rows_Qeq; [apply Qeqs_refl | exact IH]|].
    eapply Qeqs_trans; [apply add_rows_map_div|].
    apply map_div_Qeq.
    apply Qeqs_sym, sum_axis0_app.
Qed.

Lemma map_div_div (k s : nat) (v : list Q) :
  (0 < k)%nat -> (0 < s)%nat ->
  Forall2 Qeq
    (map (fun q => q / inject_Z (Z.of_nat s))%Q (map (fun q => q / inject_Z (Z.of_nat k))%Q v))
    (map (fun q => q / inject_Z (Z.of_nat (s * k)))%Q v).
Proof.
  intros Hk Hs. induction v as [|q v IH]; simpl; constructor; [|exact IH].
  rewrite Nat2Z.inj_mul, inject_Z_mult.
  assert (~ inject_Z (Z.of_nat k) == 0)%Q.
  { intros H. unfold Qeq in H. simpl in H. lia. }
  assert (~ inject_Z (Z.of_nat s) == 0)%Q.
  { intros H'. unfold Qeq in H'. simpl in H'. lia. }
  field. split; assumption.
Qed.

(** The mean of the means of chunks of one size is the mean of all rows. *)
Lemma mean_of_equal_chunks (width k : nat) (chunks : list (list (list Q))) :
  (0 < k)%nat -> chunks <> [] -> Forall (fun c => length c = k) chunks ->
  exists m tot : list Q,
    mean_of_means width (map (mean_axis0 width) chunks) = Some m /\
    mean_axis0 width (concat chunks) = Some tot /\
    Forall2 Qeq m tot.
Proof.
  intros Hk Hne Hall.
  set (g := fun c : list (list Q) =>
              map (fun s => s / inject_Z (Z.of_nat k))%Q (sum_axis0 width c)).
  assert (Hmeans : map (mean_axis0 width) chunks = map Some (map g chunks)).
  { rewrite map_map. apply map_ext_in. intros c Hc.
    rewrite List.Forall_forall in Hall. specialize (Hall c Hc).
    rewrite mean_axis0_Some by (intros ->; simpl in Hall; lia).
    rewrite Hall. reflexivity. }
  assert (Hlen : length (concat chunks) = (length chunks * k)%nat).
  { clear Hne Hmeans. induction Hall as [|c chunks Hc _ IH]; simpl; [reflexivity|].
    rewrite length_app, IH, Hc. reflexivity. }
  assert (Hs : (0 < length chunks)%nat) by (destruct chunks; [congruence | simpl; lia]).
  unfold mean_of_means. rewrite Hmeans, mapM_id_Some. simpl.
  rewrite (mean_axis0_Some width (map g chunks))
    by (destruct chunks; [congruence | discriminate]).
  rewrite (mean_axis0_Some width (concat chunks))
    by (intros E; rewrite E in Hlen; simpl in Hlen; nia).
  eexists _, _. split; [reflexivity|]. split; [reflexivity|].
  rewrite length_map, Hlen.
  eapply Qeqs_trans; [|apply map_div_div; assumption].
  apply map_div_Qeq. apply sum_axis0_chunk_means.
Qed.

Lemma steps_chunks_lengths {A : Type} (rows : list A) (k s : nat) :
  (1 <= s)%nat -> (s * k <= length rows)%nat ->
  Forall (fun c => length c = k) (map (fun i => take k (drop (i * k) rows)) (seq 0 (s - 1))).
Proof.
  intros Hs Hle. rewrite List.Forall_forall. intros c Hc. apply in_map_iff in Hc.
  destruct Hc as (i & <- & Hi). apply in_seq in Hi.
  rewrite length_take, length_drop. nia.
Qed.

Lemma ceil_div_pos (a b : Z) : 0 < a -> 0 < b -> 0 < ceil_div a b /\ a <= ceil_div a b * b < a + b.
Proof.
  intros Ha Hb. unfold ceil_div.
  pose proof (Z.div_mod (- a) b ltac:(lia)) as Hd.
  pose proof (Z.mod_pos_bound (- a) b Hb) as Hm. nia.
Qed.

Lemma get_mean_image_steps (to_float32 : Q -> Q) (h5 : gmap string h5file) (path : string)
    (f : h5file) (n_gpu : Z) :
  h5 !! path = Some f -> 0 < n_gpu -> 0 < get_array_memsize (h5_x f) ->
  let steps := ceil_div (get_array_memsize (h5_x f)) (n_gpu * 8000000000) in
  let n_rows := Z.of_nat (length (ds_rows (h5_x f))) in
  let k := Z.to_nat (Z.quot n_rows steps) in
  let s := Z.to_nat steps in
  0 < steps /\
  get_mean_image to_float32 h5 path n_gpu
  = Ok (mk_image (ds_row_shape (h5_x f))
          (map to_float32 <$>
           mean_of_means (row_width (h5_x f))
             (map (mean_axis0 (row_width (h5_x f)))
                (map (fun i => take k (drop (i * k) (ds_rows (h5_x f)))) (seq 0 (s - 1))
                 ++ [drop ((s - 1) * k) (ds_rows (h5_x f))])%list))).
Proof.
  intros Hfile Hgpu Hsize steps n_rows k s.
  destruct (ceil_div_pos (get_array_memsize (h5_x f)) (n_gpu * 8000000000)) as [Hsteps _];
    [lia | lia |]. fold steps in Hsteps.
  split; [exact Hsteps|].
  unfold get_mean_image. rewrite Hfile.
  destruct (Z.eqb_spec (n_gpu * 8000000000) 0) as [H0|_]; [lia|].
  fold steps. unfold mean_image_in_steps.
  destruct (Z.eqb_spec steps 0) as [H0|_]; [lia|].
  destruct (Z.ltb_spec steps 0) as [H0|_]; [lia|].
  rewrite (step_mean_chunks (h5_x f) steps Hsteps). reflexivity.
Qed.

(** With at least one GPU and a file that exists, [get_mean_image] returns
    the mean of the whole dataset, bin by bin and rounded to float32,
    whenever the number of steps divides the number of rows. *)
Theorem get_mean_image_equal_steps
    (to_float32 : Q -> Q) (h5 : gmap string h5file) (path : string) (f : h5file)
    (n_gpu : Z) :
  (forall q1 q2 : Q, q1 == q2 -> to_float32 q1 == to_float32 q2)%Q ->
  h5 !! path = Some f ->
  0 < n_gpu ->
  0 < get_array_memsize (h5_x f) ->
  Z.of_nat (length (ds_rows (h5_x f)))
    mod ceil_div (get_array_memsize (h5_x f)) (n_gpu * 8000000000) = 0 ->
  exists m w : list Q,
    get_mean_image to_float32 h5 path n_gpu
    = Ok (mk_image (ds_row_shape (h5_x f)) (Some m)) /\
    whole_mean (h5_x f) = Some w /\
    Forall2 Qeq m (map to_float32 w).
Proof.
  intros Hround Hfile Hgpu Hsize Hmod.
  destruct (get_mean_image_steps to_float32 h5 path f n_gpu Hfile Hgpu Hsize) as [Hsteps ->].
  set (x := h5_x f) in *.
  set (steps := ceil_div (get_array_memsize x) (n_gpu * 8000000000)) in *.
  set (n_rows := Z.of_nat (length (ds_rows x))) in *.
  set (k := Z.to_nat (Z.quot n_rows steps)). set (s := Z.to_nat steps).
  assert (Hn0 : 0 <= n_rows) by apply Nat2Z.is_nonneg.
  assert (Hn : 0 < n_rows).
  { rewrite get_array_memsize_entries in Hsize. fold n_rows in Hsize.
    destruct (Z.eq_dec n_rows 0) as [E|E]; [rewrite E in Hsize; lia | lia]. }
  assert (Hquot : n_rows = steps * Z.quot n_rows steps).
  { rewrite Z.quot_div_nonneg by lia. apply Z.div_exact; lia. }
  assert (Hk : (0 < k)%nat) by (subst k; nia).
  assert (Hlen : length (ds_rows x) = (s * k)%nat).
  { subst s k. rewrite <- Z2Nat.inj_mul by (try apply Z.quot_pos; lia).
    rewrite <- Hquot. subst n_rows. lia. }
  set (chunks := (map (fun i => take k (drop (i * k) (ds_rows x))) (seq 0 (s - 1))
                  ++ [drop ((s - 1) * k) (ds_rows x)])%list).
  assert (Hconcat : concat chunks = ds_rows x).
  { subst chunks. rewrite concat_app, concat_consecutive. simpl. rewrite app_nil_r.
    apply take_drop. }
  assert (Hall : Forall (fun c => length c = k) chunks).
  { subst chunks. apply Forall_app. split.
    - apply steps_chunks_lengths; lia.
    - constructor; [|constructor]. rewrite length_drop, Hlen. nia. }
  destruct (mean_of_equal_chunks (row_width x) k chunks Hk) as (m & tot & Hm & Htot & Heq);
    [subst chunks; intros E; apply app_eq_nil in E; destruct E; discriminate | exact Hall |].
  rewrite Hm. rewrite Hconcat in Htot.
  exists (map to_float32 m), tot. split; [reflexivity|]. split; [exact Htot|].
  clear -Heq Hround. induction Heq as [|a c l1 l2 Hac _ IH]; simpl; constructor.
  - apply Hround, Hac.
  - exact IH.
Qed.

(** The result of [get_mean_image] is NaN in every bin exactly when one row
    of the dataset has more entries than [n_gpu * 8e9]. *)
Theorem get_mean_image_nan
    (to_float32 : Q -> Q) (h5 : gmap string h5file) (path : string) (f : h5file)
    (n_gpu : Z) :
  h5 !! path = Some f ->
  0 < n_gpu ->
  0 < get_array_memsize (h5_x f) ->
  exists data : option (list Q),
    get_mean_image to_float32 h5 path n_gpu = Ok (mk_image (ds_row_shape (h5_x f)) data) /\
    (data = None <-> n_gpu * 8000000000 < shape_size (ds_row_shape (h5_x f))).
Proof.
  intros Hfile Hgpu Hsize.
  destruct (get_mean_image_steps to_float32 h5 path f n_gpu Hfile Hgpu Hsize) as [Hsteps ->].
  set (x := h5_x f) in *.
  set (total := n_gpu * 8000000000) in *.
  set (steps := ceil_div (get_array_memsize x) total) in *.
  set (n_rows := Z.of_nat (length (ds_rows x))) in *.
  set (k := Z.to_nat (Z.quot n_rows steps)). set (s := Z.to_nat steps).
  set (chunks := (map (fun i => take k (drop (i * k) (ds_rows x))) (seq 0 (s - 1))
                  ++ [drop ((s - 1) * k) (ds_rows x)])%list).
  eexists. split; [reflexivity|].
  pose proof (get_array_memsize_entries x) as Hentries. fold n_rows in Hentries.
  assert (Hn0 : 0 <= n_rows) by apply Nat2Z.is_nonneg.
  assert (Hn : 0 < n_rows).
  { destruct (Z.eq_dec n_rows 0) as [E|E]; [rewrite Hentries, E in Hsize; lia | lia]. }
  assert (Hw : 0 < shape_size (ds_row_shape x)) by nia.
  destruct (ceil_div_pos (get_array_memsize x) total Hsize ltac:(lia)) as [_ Hceil].
  fold steps in Hceil.
  assert (Hiff : n_rows < steps <-> total < shape_size (ds_row_shape x)).
  { rewrite Hentries in Hceil. split; intros H; nia. }
  rewrite <- Hiff. clear Hiff.
  destruct (Z.lt_ge_cases n_rows steps) as [Hlt|Hge].
  - (* fewer rows than steps: the first step has no rows *)
    split; [intros _; exact Hlt | intros _].
    assert (Hk : k = 0%nat) by (subst k; rewrite Z.quot_small by lia; reflexivity).
    assert (Hs : (2 <= s)%nat) by lia.
    unfold mean_of_means. rewrite mapM_id_None; [reflexivity|].
    subst chunks. destruct (s - 1)%nat as [|s'] eqn:Es; [lia|].
    simpl. left. rewrite Hk. reflexivity.
  - (* every step has rows *)
    split; [|intros H; lia]. intros Hnone. exfalso.
    assert (Hq : 1 <= Z.quot n_rows steps).
    { rewrite Z.quot_div_nonneg by lia. apply Z.div_le_lower_bound; lia. }
    assert (Hqs : steps * Z.quot n_rows steps <= n_rows).
    { rewrite Z.quot_div_nonneg by lia. apply Z.mul_div_le; lia. }
    assert (Hk : (1 <= k)%nat) by lia.
    assert (Hsk : (s * k <= length (ds_rows x))%nat).
    { subst s k. rewrite <- Z2Nat.inj_mul by lia. subst n_rows. lia. }
    assert (Hall : Forall (fun c => c <> []) chunks).
    { subst chunks. apply Forall_app. split.
      - eapply Forall_impl; [apply (steps_chunks_lengths (ds_rows x) k s); lia|].
        intros c Hc ->. simpl in Hc. lia.
      - constructor; [|constructor]. intros E.
        apply (f_equal length) in E. rewrite length_drop in E. simpl in E. nia. }
    assert (Hmeans : exists ms, map (mean_axis0 (row_width x)) chunks = map Some ms /\ ms <> []).
    { assert (Hne : chunks <> [])
        by (subst chunks; intros E; apply app_eq_nil in E; destruct E; discriminate).
      clear -Hall Hne. induction Hall as [|c chunks Hc Hall IH]; [congruence|].
      destruct chunks as [|c' chunks].
      - exists [map (fun s => s / inject_Z (Z.of_nat (length c)))%Q
                 (sum_axis0 (row_width x) c)].
        simpl. rewrite mean_axis0_Some by exact Hc. split; [reflexivity | discriminate].
      - destruct IH as (ms & E & _); [discriminate|].
        exists (map (fun s => s / inject_Z (Z.of_nat (length c)))%Q
                  (sum_axis0 (row_width x) c) :: ms).
        cbn [map]. rewrite <- E, mean_axis0_Some by exact Hc.
        split; [reflexivity | discriminate]. }
    destruct Hmeans as (ms & Hms & Hne). fold chunks in Hnone. rewrite Hms in Hnone.
    unfold mean_of_means in Hnone. rewrite mapM_id_Some in Hnone. simpl in Hnone.
    rewrite mean_axis0_Some in Hnone by exact Hne. discriminate.
Qed.

(** The steps of [get_mean_image] split the rows of the dataset without
    leaving a row out or reading one twice: the per-step means are the
    means of consecutive pieces of [stepsize] rows each, followed by a last
    piece that holds all remaining rows. *)
Theorem step_mean_rows_cover (x : dataset) (steps : Z) :
  0 < steps ->
  let n_rows := Z.of_nat (length (ds_rows x)) in
  let stepsize := Z.quot n_rows steps in
  exists (front : list (list (list Q))) (last : list (list Q)),
    map (step_mean x steps stepsize n_rows) (range steps)
    = map (mean_axis0 (row_width x)) (front ++ [last])%list /\
    concat (front ++ [last])%list = ds_rows x /\
    Z.of_nat (length front) = steps - 1 /\
    Forall (fun c => Z.of_nat (length c) = stepsize) front /\
    Z.of_nat (length last) = stepsize + Z.rem n_rows steps.
Proof.
  intros Hsteps n_rows stepsize.
  set (k := Z.to_nat stepsize). set (s := Z.to_nat steps).
  assert (Hn0 : 0 <= n_rows) by apply Nat2Z.is_nonneg.
  assert (Hq : 0 <= stepsize) by (apply Z.quot_pos; lia).
  pose proof (Z.quot_rem' n_rows steps) as Hd. fold stepsize in Hd.
  assert (Hr : 0 <= Z.rem n_rows steps) by (apply Z.rem_nonneg; lia).
  assert (Hsk : (s * k <= length (ds_rows x))%nat).
  { subst s k. rewrite <- Z2Nat.inj_mul by lia. subst n_rows. lia. }
  exists (map (fun i => take k (drop (i * k) (ds_rows x))) (seq 0 (s - 1))),
         (drop ((s - 1) * k) (ds_rows x)).
  split; [exact (step_mean_chunks x steps Hsteps)|].
  split; [rewrite concat_app, concat_consecutive; simpl; rewrite app_nil_r; apply take_drop|].
  split; [rewrite length_map, length_seq; lia|].
  split.
  - eapply Forall_impl; [apply (steps_chunks_lengths (ds_rows x) k s); lia|].
    intros c Hc. simpl in Hc. rewrite Hc. subst k. lia.
  - rewrite length_drop.
    assert (Hmul : Z.of_nat ((s - 1) * k) = (steps - 1) * stepsize).
    { rewrite Nat2Z.inj_mul. subst s k. rewrite Nat2Z.inj_sub by lia.
      rewrite !Z2Nat.id by lia. reflexivity. }
    assert (Hle : ((s - 1) * k <= length (ds_rows x))%nat) by nia.
    rewrite Nat2Z.inj_sub by exact Hle. rewrite Hmul. fold n_rows. lia.
Qed.

Lemma step_mean_rows_cover_witness :
  exists (front : list (list (list Q))) (last : list (list Q)),
    map (step_mean three_rows 2 (Z.quot 3 2) 3) (range 2)
    = map (mean_axis0 (row_width three_rows)) (front ++ [last])%list /\
    concat (front ++ [last])%list = ds_rows three_rows /\
    Z.of_nat (length front) = 2 - 1 /\
    Forall (fun c => Z.of_nat (length c) = Z.quot 3 2) front /\
    Z.of_nat (length last) = Z.quot 3 2 + Z.rem 3 2.
Proof. apply (step_mean_rows_cover three_rows 2). lia. Defined.

(** With the number of steps that [get_mean_image] takes, every step but
    the last reads [stepsize] rows, and these hold at most [total_memory]
    entries. *)
Theorem step_mean_fits_memory (x : dataset) (n_gpu i : Z) :
  0 < n_gpu ->
  0 < get_array_memsize x ->
  let total_memory := n_gpu * 8000000000 in
  let steps := ceil_div (get_array_memsize x) total_memory in
  let n_rows := Z.of_nat (length (ds_rows x)) in
  let stepsize := Z.quot n_rows steps in
  let chunk := slice (ds_rows x) (i * stepsize) ((i + 1) * stepsize) in
  0 <= i < steps - 1 ->
  step_mean x steps stepsize n_rows i = mean_axis0 (row_width x) chunk /\
  Z.of_nat (length chunk) = stepsize /\
  Z.of_nat (length chunk) * shape_size (ds_row_shape x) <= total_memory.
Proof.
  intros Hgpu Hsize total_memory steps n_rows stepsize chunk Hi.
  assert (Hn0 : 0 <= n_rows) by apply Nat2Z.is_nonneg.
  pose proof (get_array_memsize_entries x) as Hentries. fold n_rows in Hentries.
  destruct (ceil_div_pos (get_array_memsize x) total_memory Hsize ltac:(lia)) as [Hsteps Hceil].
  fold steps in Hsteps, Hceil.
  assert (Hq : 0 <= stepsize) by (apply Z.quot_pos; lia).
  pose proof (Z.quot_rem' n_rows steps) as Hd. fold stepsize in Hd.
  assert (Hr : 0 <= Z.rem n_rows steps) by (apply Z.rem_nonneg; lia).
  assert (Hlen : Z.of_nat (length chunk) = stepsize).
  { subst chunk.
    replace ((i + 1) * stepsize) with (i * stepsize + stepsize) by lia.
    rewrite slice_take_drop by (try apply Z.mul_nonneg_nonneg; lia).
    rewrite length_take, length_drop.
    assert (i * stepsize + stepsize <= n_rows) by nia.
    assert (0 <= i * stepsize) by (apply Z.mul_nonneg_nonneg; lia).
    subst n_rows. lia. }
  split; [|split; [exact Hlen|]].
  - unfold step_mean.
    destruct (Z.eqb_spec i (steps - 1)) as [E|_]; [lia|].
    destruct (Z.eqb_spec steps 1) as [E|_]; [lia|]. reflexivity.
  - rewrite Hlen.
    assert (Hw : 0 <= shape_size (ds_row_shape x)).
    { destruct (Z.le_gt_cases 0 (shape_size (ds_row_shape x))); [assumption|]. nia. }
    assert (stepsize * steps <= n_rows) by lia.
    assert (stepsize * steps * shape_size (ds_row_shape x)
            <= n_rows * shape_size (ds_row_shape x)) by (apply Z.mul_le_mono_nonneg_r; lia).
    nia.
Qed.

(** When [get_mean_image] returns and when it raises, for [n_gpu >= 0]: it
    returns an image of the shape of one row exactly when the file exists,
    [n_gpu] is not 0 and the dataset has at least one entry; a missing file
    raises OSError, [n_gpu == 0] or a dataset without entries raises
    ZeroDivisionError. *)
Theorem get_mean_image_returns
    (to_float32 : Q -> Q) (h5 : gmap string h5file) (path : string) (n_gpu : Z) :
  0 <= n_gpu ->
  match h5 !! path with
  | None => get_mean_image to_float32 h5 path n_gpu = Raise (OSError path)
  | Some f =>
      if decide (n_gpu = 0 \/ get_array_memsize (h5_x f) = 0)
      then get_mean_image to_float32 h5 path n_gpu = Raise ZeroDivisionError
      else if decide (0 < get_array_memsize (h5_x f))
      then exists data, get_mean_image to_float32 h5 path n_gpu
                        = Ok (mk_image (ds_row_shape (h5_x f)) data)
      else exists e, get_mean_image to_float32 h5 path n_gpu = Raise e
  end.
Proof.
  intros Hgpu. destruct (h5 !! path) as [f|] eqn:Hfile.
  - destruct (decide (n_gpu = 0 \/ get_array_memsize (h5_x f) = 0)) as [H0|Hn0].
    + unfold get_mean_image. rewrite Hfile.
      destruct (Z.eqb_spec (n_gpu * 8000000000) 0) as [_|Hne]; [reflexivity|].
      destruct H0 as [H0|H0]; [lia|]. rewrite H0.
      unfold ceil_div. simpl. rewrite Z.div_0_l by lia. reflexivity.
    + destruct (decide (0 < get_array_memsize (h5_x f))) as [Hpos|Hneg].
      * destruct (get_mean_image_steps to_float32 h5 path f n_gpu Hfile) as [_ ->];
          [lia | exact Hpos |]. eexists. reflexivity.
      * unfold get_mean_image. rewrite Hfile.
        destruct (Z.eqb_spec (n_gpu * 8000000000) 0) as [_|Hne]; [eexists; reflexivity|].
        unfold mean_image_in_steps.
        destruct (Z.eqb_spec (ceil_div (get_array_memsize (h5_x f)) (n_gpu * 8000000000)) 0)
          as [_|Hnz]; [eexists; reflexivity|].
        destruct (Z.ltb_spec (ceil_div (get_array_memsize (h5_x f)) (n_gpu * 8000000000)) 0)
          as [_|Hge]; [eexists; reflexivity|].
        exfalso. unfold ceil_div in Hge, Hnz.
        assert (0 <= - get_array_memsize (h5_x f) / (n_gpu * 8000000000))
          by (apply Z.div_pos; lia). lia.
  - unfold get_mean_image. rewrite Hfile. reflexivity.
Qed.

Lemma get_array_memsize_flat_rows (n : Z) (v0 v1 v2 : Q) :
  0 <= n -> get_array_memsize (flat_rows (Z.to_nat n) v0 v1 v2) = 3 * n.
Proof.
  intros Hn. rewrite get_array_memsize_entries. unfold flat_rows, shape_size.
  cbn [ds_rows ds_row_shape length fold_right]. rewrite Z2Nat.id by exact Hn. lia.
Qed.

Lemma get_mean_image_equal_steps_witness :
  exists m w : list Q,
    get_mean_image (fun q => q)
      {[ "train.h5" := mk_h5file (flat_rows (Z.to_nat 6000000000) 0 3 6) (mk_dataset [] []) ]}
      "train.h5" 1
    = Ok (mk_image
            (ds_row_shape (h5_x (mk_h5file (flat_rows (Z.to_nat 6000000000) 0 3 6)
                                   (mk_dataset [] []))))
            (Some m)) /\
    whole_mean (h5_x (mk_h5file (flat_rows (Z.to_nat 6000000000) 0 3 6) (mk_dataset [] [])))
    = Some w /\
    Forall2 Qeq m (map (fun q => q) w).
Proof.
  apply (get_mean_image_equal_steps (fun q => q)
           {[ "train.h5" := mk_h5file (flat_rows (Z.to_nat 6000000000) 0 3 6)
                              (mk_dataset [] []) ]}
           "train.h5" (mk_h5file (flat_rows (Z.to_nat 6000000000) 0 3 6) (mk_dataset [] [])) 1).
  - intros q1 q2 H. exact H.
  - apply lookup_singleton_eq.
  - lia.
  - cbn [h5_x]. rewrite get_array_memsize_flat_rows by lia. lia.
  - cbn [h5_x]. rewrite get_array_memsize_flat_rows by lia. reflexivity.
Defined.

Lemma get_mean_image_nan_witness :
  exists data : option (list Q),
    get_mean_image (fun q => q) {[ "train_0.h5" := train_0 ]} "train_0.h5" 1
    = Ok (mk_image (ds_row_shape (h5_x train_0)) data) /\
    (data = None <-> 1 * 8000000000 < shape_size (ds_row_shape (h5_x train_0))).
Proof.
  apply (get_mean_image_nan (fun q => q) {[ "train_0.h5" := train_0 ]} "train_0.h5" train_0 1).
  - reflexivity.
  - lia.
  - vm_compute. reflexivity.
Defined.

Lemma step_mean_fits_memory_witness :
  let x := flat_rows (Z.to_nat 4000000000) 0 0 6 in
  let total_memory := 1 * 8000000000 in
  let steps := ceil_div (get_array_memsize x) total_memory in
  let n_rows := Z.of_nat (length (ds_rows x)) in
  let stepsize := Z.quot n_rows steps in
  let chunk := slice (ds_rows x) (0 * stepsize) ((0 + 1) * stepsize) in
  step_mean x steps stepsize n_rows 0 = mean_axis0 (row_width x) chunk /\
  Z.of_nat (length chunk) = stepsize /\
  Z.of_nat (length chunk) * shape_size (ds_row_shape x) <= total_memory.
Proof.
  apply (step_mean_fits_memory (flat_rows (Z.to_nat 4000000000) 0 0 6) 1 0).
  - lia.
  - rewrite get_array_memsize_flat_rows by lia. lia.
  - rewrite get_array_memsize_flat_rows by lia. vm_compute. split; [discriminate | reflexivity].
Defined.

Lemma get_mean_image_returns_witness :
  match ({[ "train_0.h5" := train_0 ]} : gmap string h5file) !! "train_0.h5" with
  | None => get_mean_image (fun q => q) {[ "train_0.h5" := train_0 ]} "train_0.h5" 1
            = Raise (OSError "train_0.h5")
  | Some f =>
      if decide (1 = 0 \/ get_array_memsize (h5_x f) = 0)
      then get_mean_image (fun q => q) {[ "train_0.h5" := train_0 ]} "train_0.h5" 1
           = Raise ZeroDivisionError
      else if decide (0 < get_array_memsize (h5_x f))
      then exists data, get_mean_image (fun q => q) {[ "train_0.h5" := train_0 ]} "train_0.h5" 1
                        = Ok (mk_image (ds_row_shape (h5_x f)) data)
      else exists e, get_mean_image (fun q => q) {[ "train_0.h5" := train_0 ]} "train_0.h5" 1
                     = Raise e
  end.
Proof.
  apply (get_mean_image_returns (fun q => q) {[ "train_0.h5" := train_0 ]} "train_0.h5" 1). lia.
Defined.

(** ** Zero-centering: the saved files *)

(** *** Strings *)

Lemma str_app_cons (c : ascii) (s1 s2 : string) : String c s1 ++ s2 = String c (s1 ++ s2).
Proof. reflexivity. Qed.

Lemma str_app_nil_l (s : string) : "" ++ s = s.
Proof. reflexivity. Qed.

Lemma str_app_nil_r (s : string) : s ++ "" = s.
Proof.
  induction s as [|c s IH]; [reflexivity|]. rewrite str_app_cons, IH. reflexivity.
Qed.

Lemma str_app_assoc (s1 s2 s3 : string) : (s1 ++ s2) ++ s3 = s1 ++ (s2 ++ s3).
Proof.
  induction s1 as [|c s1 IH]; [reflexivity|]. rewrite !str_app_cons, IH. reflexivity.
Qed.






Lemma lacks_app (c : ascii) (s1 s2 : string) :
  lacks c (s1 ++ s2) = lacks c s1 && lacks c s2.
Proof.
  induction s1 as [|c1 s1 IH]; [reflexivity|]. rewrite str_app_cons. simpl.
  rewrite IH, andb_assoc. reflexivity.
Qed.





(** The decimal digits of a number hold no character that is not a digit. *)
Lemma lacks_pretty_N_go (c : ascii) (x : N) (s : string) :
  (forall d : N, Ascii.eqb (pretty_N_char d) c = false) ->
  lacks c s = true -> lacks c (pretty_N_go x s) = true.
Proof.
  intros Hc. revert s. induction (N.lt_wf_0 x) as [x _ IH]; intros s Hs.
  destruct (N.eq_dec x 0%N) as [->|Hx].
  - rewrite pretty_N_go_0. exact Hs.
  - rewrite pretty_N_go_step by lia. apply IH.
    + apply N.div_lt; lia.
    + cbn [lacks]. rewrite Hs, Hc. reflexivity.
Qed.

Lemma lacks_pretty_N (c : ascii) (x : N) :
  (forall d : N, Ascii.eqb (pretty_N_char d) c = false) -> lacks c (pretty x) = true.
Proof.
  intros Hc. unfold pretty, pretty_N.
  destruct (decide (x = 0%N)) as [_|_].
  - change (negb (Ascii.eqb (pretty_N_char 0%N) c) && true = true).
    rewrite Hc. reflexivity.
  - apply lacks_pretty_N_go; [exact Hc | reflexivity].
Qed.



(** *** The search for a saved mean image *)


(** The search returns the image of the first file that was saved for
    exactly these train files; the files before it must load. *)
Theorem get_precalculated_xs_mean_if_exists_first_match
    (d : disk) (files paths : list string) :
  match get_precalculated_xs_mean_if_exists d files paths with
  | Ok (Some img) =>
      exists before file after z,
        files = (before ++ file :: after)%list /\
        Forall (other_files d paths) before /\
        d_npz d !! file = Some z /\
        npz_zero_center_used_ip_files z = paths /\
        img = npz_xs_mean z
  | Ok None => Forall (other_files d paths) files
  | Raise e =>
      exists before file after,
        files = (before ++ file :: after)%list /\
        Forall (other_files d paths) before /\
        d_npz d !! file = None /\
        e = OSError file
  end.
Proof.
  induction files as [|file files IH]; simpl.
  - constructor.
  - unfold np_load. destruct (d_npz d !! file) as [z|] eqn:Hz; simpl.
    + destruct (bool_decide_reflect (npz_zero_center_used_ip_files z = paths)) as [E|E].
      * exists [], file, files, z.
        split; [reflexivity|]. split; [constructor|]. split; [exact Hz|].
        split; [exact E | reflexivity].
      * assert (Hother : other_files d paths file) by (exists z; split; assumption).
        destruct (get_precalculated_xs_mean_if_exists d files paths) as [[img|]|e].
        -- destruct IH as (before & f & after & z' & -> & Hb & Hf & Hp & Hi).
           exists (file :: before), f, after, z'.
           split; [reflexivity|]. split; [constructor; assumption|]. split; [exact Hf|].
           split; [exact Hp | exact Hi].
        -- constructor; assumption.
        -- destruct IH as (before & f & after & -> & Hb & Hf & He).
           exists (file :: before), f, after.
           split; [reflexivity|]. split; [constructor; assumption|].
           split; [exact Hf | exact He].
    + exists [], file, files.
      split; [reflexivity|]. split; [constructor|]. split; [exact Hz | reflexivity].
Qed.

(** *** What a turn of [load_zero_center_data] saves, the next one finds *)



Section ZeroCenterSaved.

Variable to_float32 : Q -> Q.

(** The file name under which the image of input [i] is saved. *)
Local Abbreviation saved_name cfg i :=
  (basename (cfg_list_file cfg) ++ "_" ++ str_nat i ++ ".npz").




End ZeroCenterSaved.


(** ** Model set-up: the checkpoint path, and failing runs *)

Lemma split_at_char (c : ascii) (s1 s2 t1 t2 : string) :
  lacks c s1 = true -> lacks c s2 = true ->
  s1 ++ String c t1 = s2 ++ String c t2 -> s1 = s2 /\ t1 = t2.
Proof.
  revert s2. induction s1 as [|c1 s1 IH]; intros [|c2 s2] H1 H2 E.
  - rewrite !str_app_nil_l in E. injection E as ->. split; reflexivity.
  - rewrite str_app_nil_l, str_app_cons in E. injection E as <- _.
    cbn [lacks] in H2. rewrite Ascii.eqb_refl in H2. discriminate H2.
  - rewrite str_app_nil_l, str_app_cons in E. injection E as -> _.
    cbn [lacks] in H1. rewrite Ascii.eqb_refl in H1. discriminate H1.
  - rewrite !str_app_cons in E. injection E as -> E.
    cbn [lacks] in H1, H2.
    apply andb_true_iff in H1. destruct H1 as [_ H1].
    apply andb_true_iff in H2. destruct H2 as [_ H2].
    destruct (IH s2 H1 H2 E) as [-> ->]. split; reflexivity.
Qed.

Lemma lacks_pretty_Z (c : ascii) (z : Z) :
  (forall d : N, Ascii.eqb (pretty_N_char d) c = false) ->
  Ascii.eqb "-" c = false ->
  lacks c (pretty z) = true.
Proof.
  intros Hc Hdash. destruct z as [|x|x].
  - change (negb (Ascii.eqb (pretty_N_char 0%N) c) && true = true).
    rewrite Hc. reflexivity.
  - apply (lacks_pretty_N c (N.pos x) Hc).
  - change (pretty (Z.neg x)) with ("-" ++ pretty (N.pos x)).
    rewrite lacks_app, (lacks_pretty_N c (N.pos x) Hc). cbn [lacks].
    rewrite Hdash. reflexivity.
Qed.

(** Two checkpoints of one folder never share a file: different pairs
    [epoch] give different paths. *)
Theorem path_of_model_inj (folder_name : string) (epoch epoch' : Z * Z) :
  epoch <> epoch' ->
  ModelSetup.path_of_model folder_name epoch <> ModelSetup.path_of_model folder_name epoch'.
Proof.
  intros Hne E. apply Hne. unfold ModelSetup.path_of_model in E.
  apply (inj (String.append folder_name)) in E.
  apply (inj (String.append "/saved_models/model_epoch_")) in E.
  change ("_file_" ++ ?s) with (String "_" ("file_" ++ s)) in E.
  apply split_at_char in E;
    [| apply lacks_pretty_Z; [intros d; unfold pretty_N_char; repeat case_match|]; reflexivity
     | apply lacks_pretty_Z; [intros d; unfold pretty_N_char; repeat case_match|]; reflexivity].
  destruct E as [E1 E2].
  apply (inj (String.append "file_")) in E2.
  change (".h5") with (String "." "h5") in E2.
  apply split_at_char in E2;
    [| apply lacks_pretty_Z; [intros d; unfold pretty_N_char; repeat case_match|]; reflexivity
     | apply lacks_pretty_Z; [intros d; unfold pretty_N_char; repeat case_match|]; reflexivity].
  destruct E2 as [E2 _].
  apply (inj pretty) in E1. apply (inj pretty) in E2.
  destruct epoch, epoch'. simpl in *. congruence.
Qed.

Lemma path_of_model_inj_witness :
  ModelSetup.path_of_model "run" (1, 12) <> ModelSetup.path_of_model "run" (11, 2).
Proof. apply (path_of_model_inj "run" (1, 12) (11, 2)). intros H. discriminate H. Defined.


(** ** [get_modelname] *)

Lemma bins_count_same (nx ny nz nt nx' ny' nz' nt' : Z) :
  (nx = 1 <-> nx' = 1) -> (ny = 1 <-> ny' = 1) -> (nz = 1 <-> nz' = 1) ->
  (nt = 1 <-> nt' = 1) ->
  bins_count (nx, ny, nz, nt) 1 = bins_count (nx', ny', nz', nt') 1.
Proof.
  intros Hx Hy Hz Ht.
  unfold bins_count. cbn [bins_list]. rewrite !filter_cons, !filter_nil.
  repeat case_decide; simpl; try reflexivity; tauto.
Qed.

Lemma projection_step_bools
    (swap_4d_channels : option string) (i : nat) (nx ny nz nt nx' ny' nz' nt' : Z)
    (projection : string) :
  bins_count (nx, ny, nz, nt) 1 = bins_count (nx', ny', nz', nt') 1 ->
  (nt =? 31) = (nt' =? 31) ->
  (1 <? nx) = (1 <? nx') -> (1 <? ny) = (1 <? ny') ->
  (1 <? nz) = (1 <? nz') -> (1 <? nt) = (1 <? nt') ->
  projection_step swap_4d_channels i (nx, ny, nz, nt) projection
  = projection_step swap_4d_channels i (nx', ny', nz', nt') projection.
Proof.
  intros Hcount E31 Ex Ey Ez Et.
  unfold projection_step. rewrite Hcount, E31, Ex, Ey, Ez, Et. reflexivity.
Qed.

Lemma ltb_same (n n' : Z) : (1 < n <-> 1 < n') -> (1 <? n) = (1 <? n').
Proof. intros H. destruct (Z.ltb_spec 1 n), (Z.ltb_spec 1 n'); (reflexivity || lia). Qed.

Lemma eqb_same (n n' v : Z) : (n = v <-> n' = v) -> (n =? v) = (n' =? v).
Proof. intros H. destruct (Z.eqb_spec n v), (Z.eqb_spec n' v); (reflexivity || tauto). Qed.

Lemma projection_step_same_projection
    (swap_4d_channels : option string) (i : nat) (b b' : bins) (projection : string) :
  same_projection b b' ->
  projection_step swap_4d_channels i b projection
  = projection_step swap_4d_channels i b' projection.
Proof.
  destruct b as [[[nx ny] nz] nt], b' as [[[nx' ny'] nz'] nt'].
  intros [Hall H31].
  inversion Hall as [|? ? ? ? [Hx1 Hx] Hall1]; subst.
  inversion Hall1 as [|? ? ? ? [Hy1 Hy] Hall2]; subst.
  inversion Hall2 as [|? ? ? ? [Hz1 Hz] Hall3]; subst.
  inversion Hall3 as [|? ? ? ? [Ht1 Ht] _]; subst.
  apply projection_step_bools.
  - apply bins_count_same; assumption.
  - apply eqb_same, H31.
  - apply ltb_same, Hx.
  - apply ltb_same, Hy.
  - apply ltb_same, Hz.
  - apply ltb_same, Ht.
Qed.

(** The name of a model does not tell the numbers of bins apart: inputs
    that agree on which bins are 1, which are larger than 1 and whether
    there are 31 time bins get the same name. *)
Theorem get_modelname_same_projection
    (n_bins n_bins' : list bins) (class_type : class_type_t) (nn_arch : string)
    (swap_4d_channels : option string) (str_ident : string) :
  Forall2 same_projection n_bins n_bins' ->
  get_modelname n_bins class_type nn_arch swap_4d_channels str_ident
  = get_modelname n_bins' class_type nn_arch swap_4d_channels str_ident.
Proof.
  intros Hall. unfold get_modelname. do 4 f_equal.
  generalize 0%nat as i. generalize "" as projection.
  induction Hall as [|b b' n_bins n_bins' Hb _ IH]; intros projection i; simpl.
  - reflexivity.
  - rewrite (projection_step_same_projection swap_4d_channels i b b' projection Hb).
    apply IH.
Qed.

Lemma get_modelname_same_projection_witness :
  get_modelname [(11, 13, 18, 60)] (2, "track-shower") "VGG" None ""
  = get_modelname [(11, 13, 18, 50)] (2, "track-shower") "VGG" None "".
Proof.
  apply (get_modelname_same_projection [(11, 13, 18, 60)] [(11, 13, 18, 50)]).
  repeat constructor; simpl; lia.
Defined.


(** For one input that is not 4D, with every bin at least 1: the
    projection is the number of bins above 1, then ['d_'], then the letters
    of these bins. *)
Theorem get_modelname_projection
    (nx ny nz nt : Z) (class_type : class_type_t) (nn_arch : string)
    (swap_4d_channels : option string) :
  1 <= nx -> 1 <= ny -> 1 <= nz -> 1 <= nt ->
  bins_count (nx, ny, nz, nt) 1 <> 0 ->
  let letters :=
    (if 1 <? nx then "x" else "") ++ (if 1 <? ny then "y" else "")
    ++ (if 1 <? nz then "z" else "") ++ (if 1 <? nt then "t" else "") in
  get_modelname [(nx, ny, nz, nt)] class_type nn_arch swap_4d_channels ""
  = "model_" ++ nn_arch ++ "_" ++ pretty (String.length letters) ++ "d_" ++ letters
    ++ "_" ++ class_type.2.
Proof.
  intros Hx Hy Hz Ht Hcount letters. subst letters.
  unfold get_modelname, projection_loop, projection_step. cbn [is_not_empty].
  destruct (Z.eqb_spec (bins_count (nx, ny, nz, nt) 1) 0) as [E|_]; [contradiction|].
  cbn [andb Nat.ltb Nat.leb]. rewrite str_app_nil_r.
  unfold bins_count in *. cbn [bins_list] in *. rewrite !filter_cons, !filter_nil in *.
  destruct (Z.ltb_spec 1 nx), (Z.ltb_spec 1 ny), (Z.ltb_spec 1 nz), (Z.ltb_spec 1 nt);
    repeat case_decide; try lia; try (exfalso; apply Hcount; reflexivity);
    rewrite ?str_app_assoc; reflexivity.
Qed.

Lemma get_modelname_projection_witness :
  get_modelname [(11, 13, 18, 1)] (2, "track-shower") "VGG" None ""
  = "model_VGG_3d_xyz_track-shower".
Proof.
  apply (get_modelname_projection 11 13 18 1 (2, "track-shower") "VGG" None);
    [lia | lia | lia | lia | vm_compute; discriminate].
Defined.

(** ** The steps of an epoch *)

Lemma py_getitem_nonneg {A : Type} (l : list A) (i : nat) (a : A) :
  l !! i = Some a -> py_getitem l (Z.of_nat i) = Ok a.
Proof.
  intros H. pose proof (lookup_lt_Some _ _ _ H) as Hlt.
  unfold py_getitem.
  destruct (Z.leb_spec 0 (Z.of_nat i)); [|lia].
  destruct (Z.ltb_spec (Z.of_nat i) (Z.of_nat (length l))); [|lia].
  simpl. unfold getitem. rewrite Nat2Z.id, H. reflexivity.
Qed.

Lemma py_getitem_last {A : Type} (l : list A) (a : A) :
  py_getitem (l ++ [a]) (-1) = Ok a.
Proof.
  unfold py_getitem. rewrite length_app. simpl.
  destruct (Z.ltb_spec (-1) (Z.of_nat (length l + 1))); [|lia].
  destruct (Z.leb_spec (- Z.of_nat (length l + 1)) (-1)); [|lia].
  simpl. unfold getitem.
  replace (Z.to_nat (Z.of_nat (length l + 1) + -1)) with (length l) by lia.
  rewrite list_lookup_middle by reflexivity. reflexivity.
Qed.

(** The sum of the steps of the files. *)
Local Abbreviation steps_of batchsize f_sizes :=
  (fold_right Z.add 0 (map (fun f_size => Z.quot f_size batchsize) f_sizes)).

Lemma steps_loop_from (batchsize : Z) (f_sizes : list Z) (total : Z) (cum : list Z) (c : Z) :
  batchsize <> 0 ->
  exists cum',
    steps_loop batchsize f_sizes total (cum ++ [c])
    = Ok (total + steps_of batchsize f_sizes, (cum ++ [c]) ++ cum')%list /\
    length cum' = length f_sizes /\
    forall k : nat,
      (k < length f_sizes)%nat ->
      cum' !! k = Some (c + steps_of batchsize (take (S k) f_sizes)).
Proof.
  intros Hb. revert total cum c.
  induction f_sizes as [|f_size rest IH]; intros total cum c.
  - exists []. simpl. rewrite app_nil_r, Z.add_0_r.
    split; [reflexivity|]. split; [reflexivity|]. intros k Hk. simpl in Hk. lia.
  - cbn [steps_loop]. destruct (Z.eqb_spec batchsize 0) as [E|_]; [contradiction|].
    rewrite py_getitem_last. cbn [mbind exc_bind bind].
    destruct (IH (total + Z.quot f_size batchsize) (cum ++ [c])%list
                (c + Z.quot f_size batchsize)) as (cum' & Hloop & Hlen & Hcum).
    exists ((c + Z.quot f_size batchsize) :: cum').
    rewrite Hloop. split; [|split].
    + cbn [map fold_right]. f_equal. f_equal; [lia|].
      rewrite <- !app_assoc. reflexivity.
    + simpl. rewrite Hlen. reflexivity.
    + intros [|k] Hk.
      * simpl. rewrite ?take_0. simpl. f_equal. lia.
      * simpl in Hk. cbn [lookup list_lookup]. rewrite Hcum by lia.
        cbn [take map fold_right]. f_equal. lia.
Qed.


Lemma steps_loop_start (batchsize : Z) (f_sizes : list Z) :
  batchsize <> 0 ->
  exists steps_cum,
    steps_loop batchsize f_sizes 0 [0] = Ok (steps_of batchsize f_sizes, steps_cum) /\
    length steps_cum = S (length f_sizes) /\
    forall k : nat,
      (k <= length f_sizes)%nat ->
      steps_cum !! k = Some (steps_of batchsize (take k f_sizes)).
Proof.
  intros Hb.
  destruct (steps_loop_from batchsize f_sizes 0 [] 0 Hb) as (cum' & Hloop & Hlen & Hcum).
  exists (0 :: cum'). simpl in Hloop. rewrite Hloop.
  split; [reflexivity|]. split; [simpl; rewrite Hlen; reflexivity|].
  intros [|k] Hk.
  - rewrite take_0. reflexivity.
  - cbn [lookup list_lookup]. rewrite Hcum by lia. f_equal.
Qed.

Lemma steps_of_nonneg (batchsize : Z) (f_sizes : list Z) :
  0 < batchsize -> Forall (fun f_size => 0 <= f_size) f_sizes ->
  0 <= steps_of batchsize f_sizes.
Proof.
  intros Hb Hall. induction Hall as [|s rest Hs _ IH]; simpl; [lia|].
  assert (0 <= Z.quot s batchsize) by (apply Z.quot_pos; lia). lia.
Qed.

Lemma steps_of_take (batchsize : Z) (f_sizes : list Z) (k : nat) :
  0 < batchsize -> Forall (fun f_size => 0 <= f_size) f_sizes ->
  0 <= steps_of batchsize (take k f_sizes) <= steps_of batchsize f_sizes.
Proof.
  intros Hb Hall. revert k. induction Hall as [|s rest Hs Hrest IH]; intros k.
  - rewrite take_nil. simpl. lia.
  - assert (0 <= Z.quot s batchsize) by (apply Z.quot_pos; lia).
    destruct k as [|k]; cbn [take map fold_right].
    + pose proof (steps_of_nonneg batchsize rest Hb Hrest). lia.
    + specialize (IH k). lia.
Qed.

Lemma Qdiv_inject_Z_bounds (a t : Z) :
  0 <= a <= t -> 0 < t -> (0 <= inject_Z a / inject_Z t <= 1)%Q.
Proof.
  intros Ha Ht.
  assert (Hq : (0 < inject_Z t)%Q) by (unfold Qlt; simpl; lia).
  split.
  - apply Qle_shift_div_l; [exact Hq|]. rewrite Qmult_0_l.
    unfold Qle. simpl. lia.
  - apply Qle_shift_div_r; [exact Hq|]. rewrite Qmult_1_l.
    unfold Qle. simpl. lia.
Qed.

(** [epoch_number_float] for file number [f] of epoch [e], for a positive
    batchsize and files of which at least one holds a full batch: it lies
    between [e - 1] and [e], and it is [e] after the last file. *)
Theorem epoch_number_float_range (file_sizes : list Z) (batchsize e f : Z) :
  0 < batchsize ->
  Forall (fun f_size => 0 <= f_size) file_sizes ->
  0 < steps_of batchsize file_sizes ->
  0 <= f <= Z.of_nat (length file_sizes) ->
  exists q : Q,
    epoch_number_float file_sizes batchsize (e, f) = Ok q /\
    (inject_Z e - 1 <= q <= inject_Z e)%Q /\
    (f = Z.of_nat (length file_sizes) -> (q == inject_Z e)%Q).
Proof.
  intros Hb Hall Htotal Hf.
  destruct (steps_loop_start batchsize file_sizes ltac:(lia)) as (cum & Hloop & Hlen & Hcum).
  unfold epoch_number_float. rewrite Hloop. cbn [mbind exc_bind bind snd].
  specialize (Hcum (Z.to_nat f) ltac:(lia)).
  pose proof (py_getitem_nonneg cum (Z.to_nat f) _ Hcum) as Hget.
  rewrite Z2Nat.id in Hget by lia. cbn [fst snd]. rewrite Hget. cbn [bind].
  destruct (Z.eqb_spec (steps_of batchsize file_sizes) 0) as [E|_]; [lia|].
  eexists. split; [reflexivity|].
  pose proof (steps_of_take batchsize file_sizes (Z.to_nat f) Hb Hall) as Hdone.
  set (t := steps_of batchsize file_sizes) in *.
  set (c := steps_of batchsize (take (Z.to_nat f) file_sizes)) in *.
  destruct (Qdiv_inject_Z_bounds (t - c) t ltac:(lia) Htotal) as [H0 H1].
  split; [split|].
  - unfold Qminus. apply Qplus_le_r. apply Qopp_le_compat. exact H1.
  - unfold Qminus. rewrite <- (Qplus_0_r (inject_Z e)) at 2.
    apply Qplus_le_r. apply (Qopp_le_compat 0). exact H0.
  - intros Hlast. subst c. rewrite Hlast, Nat2Z.id, firstn_all. fold t.
    rewrite Z.sub_diag. unfold Qdiv. change (inject_Z 0) with 0%Q. ring.
Qed.

Lemma epoch_number_float_range_witness :
  exists q : Q,
    epoch_number_float [10; 7] 2 (3, 2) = Ok q /\
    (inject_Z 3 - 1 <= q <= inject_Z 3)%Q /\
    (2 = Z.of_nat (length [10; 7]) -> (q == inject_Z 3)%Q).
Proof.
  apply (epoch_number_float_range [10; 7] 2 3 2).
  - lia.
  - repeat constructor; lia.
  - vm_compute. reflexivity.
  - simpl. lia.
Defined.

(** ** [BatchLevelPerformanceLogger] *)

Section LoggerFacts.

Import Logger.

Lemma result_bind_Done {A B : Type} (c : result A) (k : A -> result B) (b : B) :
  (a ← c; k a) = Done b -> exists a, c = Done a /\ k a = Done b.
Proof. destruct c as [a|e]; simpl; [eauto | discriminate]. Qed.

Lemma same_settings_refl (lg : logger) : same_settings lg lg.
Proof. repeat split. Qed.

Lemma same_settings_trans (lg1 lg2 lg3 : logger) :
  same_settings lg1 lg2 -> same_settings lg2 lg3 -> same_settings lg1 lg3.
Proof.
  unfold same_settings. intros (?&?&?&?&?&?&?&?) (?&?&?&?&?&?&?&?).
  repeat split; congruence.
Qed.

(** The cases of [on_batch_end]. *)
Lemma on_batch_end_Done (lg lg' : logger) (logs : gmap string Q) :
  on_batch_end lg logs = Done lg' ->
  display lg <> 0 /\ same_settings lg lg' /\ seen lg' = seen lg + 1 /\
  exists cum,
    add_logs logs (cum_metrics lg) (metrics_names lg) = Done cum /\
    (((seen lg + 1) mod display lg <> 0 /\ cum_metrics lg' = cum /\
      loglist lg' = loglist lg /\ logfile_train lg' = logfile_train lg) \/
     ((seen lg + 1) mod display lg = 0 /\
      steps_per_total_epoch lg <> 0 /\
      exists offset means,
        py_getitem (steps_cum lg) (f_number lg - 1) = Ok offset /\
        take_means (display lg) cum (metrics_names lg) = Done (means, cum_metrics lg') /\
        log_of lg' = (log_of lg ++ [new_line lg offset means])%list /\
        ((flushes lg /\ loglist lg' = []) \/
         (~ flushes lg /\ logfile_train lg' = logfile_train lg)))).
Proof.
  unfold on_batch_end. intros H.
  apply result_bind_Done in H. destruct H as (cum & Hadd & H).
  destruct (Z.eqb_spec (display lg) 0) as [|Hd]; [discriminate|].
  split; [exact Hd|].
  destruct (Z.eqb_spec ((seen lg + 1) mod display lg) 0) as [Hmod|Hmod]; cbn [negb] in H.
  - destruct (Z.eqb_spec (steps_per_total_epoch lg) 0) as [|Ht]; [discriminate|].
    apply result_bind_Done in H. destruct H as (offset & Hoff & H).
    destruct (py_getitem (steps_cum lg) (f_number lg - 1)) as [o|] eqn:Hget; [|discriminate].
    injection Hoff as ->.
    apply result_bind_Done in H. destruct H as ([means cum2] & Hmeans & H).
    destruct (Z.eqb_spec (flush lg) (-1)) as [Hf|Hf]; cbn [negb] in H.
    + injection H as <-. cbn. split; [repeat split|]. split; [reflexivity|].
      exists cum. split; [exact Hadd|]. right. split; [exact Hmod|]. split; [exact Ht|].
      exists offset, means. split; [reflexivity|]. split; [exact Hmeans|].
      split; [unfold log_of; cbn; apply app_assoc|].
      right. split; [intros [Hne _]; contradiction | reflexivity].
    + destruct (Z.eqb_spec (flush lg) 0) as [|Hf0]; [discriminate|].
      destruct (Z.eqb_spec (display lg mod flush lg) 0) as [Hfm|Hfm].
      * injection H as <-. cbn. split; [repeat split|]. split; [reflexivity|].
        exists cum. split; [exact Hadd|]. right. split; [exact Hmod|]. split; [exact Ht|].
        exists offset, means. split; [reflexivity|]. split; [exact Hmeans|].
        split; [unfold log_of; cbn; rewrite app_nil_r; apply app_assoc|].
        left. split; [split; assumption | reflexivity].
      * injection H as <-. cbn. split; [repeat split|]. split; [reflexivity|].
        exists cum. split; [exact Hadd|]. right. split; [exact Hmod|]. split; [exact Ht|].
        exists offset, means. split; [reflexivity|]. split; [exact Hmeans|].
        split; [unfold log_of; cbn; apply app_assoc|].
        right. split; [intros [_ Hyes]; contradiction | reflexivity].
  - injection H as <-. cbn. split; [repeat split|]. split; [reflexivity|].
    exists cum. split; [exact Hadd|]. left. repeat split. exact Hmod.
Qed.


Lemma add_logs_spec (logs cum cum' : gmap string Q) (ms : list string) :
  NoDup ms ->
  add_logs logs cum ms = Done cum' ->
  (forall metric, metric ∈ ms ->
     exists c v, cum !! metric = Some c /\ logs !! metric = Some v /\
                 cum' !! metric = Some (c + v)%Q) /\
  (forall metric, metric ∉ ms -> cum' !! metric = cum !! metric).
Proof.
  intros Hnd. revert cum. induction Hnd as [|m ms Hm Hnd IH]; intros cum H; simpl in H.
  - injection H as <-. split; [intros metric Hin; inversion Hin | reflexivity].
  - destruct (cum !! m) as [c|] eqn:Hc; [|discriminate].
    destruct (logs !! m) as [v|] eqn:Hv; [|discriminate].
    destruct (IH _ H) as [Hin Hout]. split.
    + intros metric Hmetric. apply elem_of_cons in Hmetric.
      destruct (decide (metric = m)) as [->|Hne].
      * exists c, v. split; [exact Hc|]. split; [exact Hv|].
        rewrite (Hout m Hm). apply lookup_insert_eq.
      * destruct Hmetric as [->|Hmetric]; [congruence|].
        destruct (Hin metric Hmetric) as (c' & v' & Hc' & Hv' & Hres).
        rewrite lookup_insert_ne in Hc' by congruence. eauto.
    + intros metric Hmetric. rewrite not_elem_of_cons in Hmetric.
      destruct Hmetric as [Hne Hmetric].
      rewrite (Hout metric Hmetric). apply lookup_insert_ne. congruence.
Qed.

Lemma take_means_spec (d : Z) (cum cum' : gmap string Q) (ms : list string) (means : list Q) :
  NoDup ms ->
  take_means d cum ms = Done (means, cum') ->
  means = map (fun metric => (default 0%Q (cum !! metric) / inject_Z d)%Q) ms /\
  (forall metric, metric ∈ ms -> cum' !! metric = Some 0%Q) /\
  (forall metric, metric ∉ ms -> cum' !! metric = cum !! metric).
Proof.
  intros Hnd. revert cum means.
  induction Hnd as [|m ms Hm Hnd IH]; intros cum means H; simpl in H.
  - injection H as <- <-. split; [reflexivity|].
    split; [intros metric Hin; inversion Hin | reflexivity].
  - destruct (cum !! m) as [c|] eqn:Hc; [|discriminate].
    apply result_bind_Done in H. destruct H as ([means' cum1] & Hrec & H).
    injection H as <- <-.
    destruct (IH _ _ Hrec) as (Hmeans & Hin & Hout). split; [|split].
    + cbn [map]. rewrite Hc. cbn [default]. f_equal. rewrite Hmeans.
      apply map_ext_in. intros metric Hmetric. apply list_elem_of_In in Hmetric.
      rewrite lookup_insert_ne by (intros ->; contradiction). reflexivity.
    + intros metric Hmetric. apply elem_of_cons in Hmetric.
      destruct (decide (metric ∈ ms)) as [Hin'|Hnot]; [apply Hin, Hin'|].
      destruct Hmetric as [->|Hmetric]; [|contradiction].
      rewrite (Hout m Hnot). apply lookup_insert_eq.
    + intros metric Hmetric. rewrite not_elem_of_cons in Hmetric.
      destruct Hmetric as [Hne Hmetric].
      rewrite (Hout metric Hmetric). apply lookup_insert_ne. congruence.
Qed.


Lemma div_step_same (n dn : nat) :
  (0 < dn)%nat -> ((n + 1) mod dn <> 0)%nat -> ((n + 1) / dn = n / dn)%nat.
Proof.
  intros Hd Hmod.
  pose proof (Nat.div_mod_eq n dn) as Hn.
  pose proof (Nat.mod_upper_bound n dn ltac:(lia)) as Hr.
  destruct (decide (n mod dn + 1 = dn)%nat) as [E|E].
  - exfalso. apply Hmod. symmetry.
    apply (Nat.mod_unique (n + 1) dn (n / dn + 1) 0); [lia | nia].
  - symmetry. apply (Nat.div_unique (n + 1) dn (n / dn) (n mod dn + 1)); [lia | nia].
Qed.

Lemma div_step_next (n dn : nat) :
  (0 < dn)%nat -> ((n + 1) mod dn = 0)%nat ->
  ((n + 1) / dn = n / dn + 1)%nat /\ ((n / dn + 1) * dn = n + 1)%nat.
Proof.
  intros Hd Hmod.
  pose proof (Nat.div_mod_eq n dn) as Hn.
  pose proof (Nat.mod_upper_bound n dn ltac:(lia)) as Hr.
  pose proof (Nat.div_mod_eq (n + 1) dn) as Hn1. rewrite Hmod in Hn1.
  assert (Hq : ((n + 1) / dn = n / dn + 1)%nat) by nia.
  split; [exact Hq | nia].
Qed.

Lemma mod_of_nat (n dn : nat) :
  (Z.of_nat n + 1) mod Z.of_nat dn = 0 <-> ((n + 1) mod dn = 0)%nat.
Proof.
  replace (Z.of_nat n + 1) with (Z.of_nat (n + 1)) by lia.
  rewrite <- Nat2Z.inj_mod. lia.
Qed.

Lemma metric_sum_snoc (metric : string) (l : list (gmap string Q)) (logs : gmap string Q)
    (v : Q) :
  logs !! metric = Some v ->
  metric_sum metric (l ++ [logs]) = (metric_sum metric l + v)%Q.
Proof.
  intros H. unfold metric_sum. rewrite map_app, fold_left_app. simpl. rewrite H. reflexivity.
Qed.

Lemma log_of_stable (dn : nat) (processed : list (gmap string Q)) (logs : gmap string Q)
    (j : nat) :
  ((j + 1) * dn <= length processed)%nat ->
  take dn (drop (j * dn) (processed ++ [logs])) = take dn (drop (j * dn) processed).
Proof.
  intros H. rewrite drop_app_le by lia. apply take_app_le. rewrite length_drop. lia.
Qed.

(** One more batch. *)
Lemma on_batch_end_logged (dn : nat) (processed : list (gmap string Q))
    (lg lg' : logger) (logs : gmap string Q) :
  (0 < dn)%nat -> display lg = Z.of_nat dn -> NoDup (metrics_names lg) ->
  logged dn (metrics_names lg) processed lg ->
  on_batch_end lg logs = Done lg' ->
  logged dn (metrics_names lg) (processed ++ [logs]) lg'.
Proof.
  intros Hdn Hdisplay Hnd (Hseen & Hcum & Hlen & Hlines) H.
  apply on_batch_end_Done in H.
  destruct H as (_ & _ & Hseen' & cum & Hadd & Hcases).
  destruct (add_logs_spec _ _ _ _ Hnd Hadd) as [Hadded _].
  set (n := length processed) in *.
  assert (Hdiv : (n / dn * dn <= n)%nat).
  { pose proof (Nat.div_mod_eq n dn). nia. }
  assert (Hcum1 : forall metric, metric ∈ metrics_names lg ->
            cum !! metric
            = Some (metric_sum metric (drop (n / dn * dn) (processed ++ [logs])))).
  { intros metric Hin. destruct (Hadded metric Hin) as (c & v & Hc & Hv & ->).
    rewrite (Hcum metric Hin) in Hc. injection Hc as <-.
    rewrite drop_app_le by exact Hdiv. rewrite (metric_sum_snoc _ _ _ _ Hv). reflexivity. }
  assert (Hold : forall (j : nat) (l : line),
            log_of lg !! j = Some l ->
            ln_seen l = Z.of_nat ((j + 1) * dn) /\
            ln_means l
            = map (fun metric =>
                     (metric_sum metric (take dn (drop (j * dn) (processed ++ [logs])))
                      / inject_Z (Z.of_nat dn))%Q) (metrics_names lg)).
  { intros j l Hj. destruct (Hlines j l Hj) as [Hs Hm]. split; [exact Hs|].
    rewrite Hm. apply map_ext. intros metric.
    rewrite log_of_stable; [reflexivity|].
    apply lookup_lt_Some in Hj. rewrite Hlen in Hj. fold n. nia. }
  rewrite Hseen in Hcases.
  unfold logged. rewrite length_app. simpl length. fold n.
  split; [rewrite Hseen', Hseen; lia|].
  destruct Hcases as [(Hmod & -> & Hlog & Hfile)|(Hmod & _ & offset & means & _ & Hmeans & Elog & _)].
  - rewrite Hdisplay in Hmod.
    assert (Hnat : ((n + 1) mod dn <> 0)%nat) by (intros E; apply Hmod, mod_of_nat, E).
    rewrite (div_step_same n dn Hdn Hnat).
    assert (Elog : log_of lg' = log_of lg) by (unfold log_of; rewrite Hlog, Hfile; reflexivity).
    rewrite Elog. split; [exact Hcum1|]. split; [exact Hlen | exact Hold].
  - rewrite Hdisplay in Hmod.
    assert (Hnat : ((n + 1) mod dn = 0)%nat) by (apply mod_of_nat, Hmod).
    destruct (div_step_next n dn Hdn Hnat) as [Hq Hfull]. rewrite Hq.
    destruct (take_means_spec _ _ _ _ _ Hnd Hmeans) as (Hm & Hzero & _).
    rewrite Elog. split; [|split].
    + intros metric Hin. rewrite (Hzero metric Hin).
      rewrite drop_ge by (rewrite length_app; simpl; fold n; lia). reflexivity.
    + rewrite length_app, Hlen. reflexivity.
    + intros j l Hj.
      destruct (decide (j < n / dn)%nat) as [Hlt|Hge].
      * rewrite lookup_app_l in Hj by (rewrite Hlen; exact Hlt). apply Hold, Hj.
      * rewrite lookup_app_r in Hj by (rewrite Hlen; lia). rewrite Hlen in Hj.
        destruct (j - n / dn)%nat as [|k] eqn:Ek; [|destruct k; discriminate Hj].
        injection Hj as <-. assert (j = (n / dn)%nat) as -> by lia.
        unfold new_line. cbn [ln_seen ln_means]. split; [rewrite Hseen; lia|].
        rewrite Hm. apply map_ext_in. intros metric Hin. apply list_elem_of_In in Hin.
        rewrite (Hcum1 metric Hin). cbn [default]. rewrite Hdisplay.
        rewrite take_ge; [reflexivity|].
        rewrite length_drop, length_app. simpl. fold n. lia.
Qed.

Lemma on_batch_end_same_settings (lg lg' : logger) (logs : gmap string Q) :
  on_batch_end lg logs = Done lg' -> same_settings lg lg'.
Proof. intros H. apply on_batch_end_Done in H. tauto. Qed.

Lemma on_batches_same_settings (batches : list (gmap string Q)) (lg lg' : logger) :
  on_batches lg batches = Done lg' -> same_settings lg lg'.
Proof.
  revert lg. induction batches as [|logs rest IH]; intros lg H; simpl in H.
  - injection H as <-. apply same_settings_refl.
  - apply result_bind_Done in H. destruct H as (lg1 & H1 & H).
    eapply same_settings_trans; [apply (on_batch_end_same_settings _ _ _ H1) | apply IH, H].
Qed.

Lemma on_batches_logged (dn : nat) (ms : list string) (rest processed : list (gmap string Q))
    (lg lg' : logger) :
  (0 < dn)%nat -> display lg = Z.of_nat dn -> metrics_names lg = ms -> NoDup ms ->
  logged dn ms processed lg ->
  on_batches lg rest = Done lg' ->
  logged dn ms (processed ++ rest) lg'.
Proof.
  intros Hdn. revert processed lg.
  induction rest as [|logs rest IH]; intros processed lg Hd Hms Hnd Hlogged H; simpl in H.
  - injection H as <-. rewrite app_nil_r. exact Hlogged.
  - apply result_bind_Done in H. destruct H as (lg1 & H1 & H).
    pose proof (on_batch_end_same_settings _ _ _ H1) as (Hd1 & _ & _ & Hms1 & _).
    replace (processed ++ logs :: rest)%list with ((processed ++ [logs]) ++ rest)%list
      by (rewrite <- app_assoc; reflexivity).
    apply (IH (processed ++ [logs])%list lg1); [congruence | congruence | exact Hnd | | exact H].
    subst ms. apply (on_batch_end_logged dn processed lg lg1 logs); assumption.
Qed.

Lemma init_Ok (train_files : list (list string * Z)) (batchsize d : Z) (ms : list string)
    (folder_name : string) (epoch : Z * Z) (flush_after_n_lines : Z) (lg : logger) :
  init train_files batchsize d ms folder_name epoch flush_after_n_lines = Ok lg ->
  display lg = d /\ epoch_number lg = epoch.1 /\ f_number lg = epoch.2 /\
  metrics_names lg = ms /\ flush lg = flush_after_n_lines /\ seen lg = 0 /\
  loglist lg = [] /\ logfile_train lg = [] /\
  cum_metrics lg = fold_left (fun cum metric => <[metric := 0%Q]> cum) ms ∅ /\
  steps_loop batchsize (map snd train_files) 0 [0]
  = Ok (steps_per_total_epoch lg, steps_cum lg).
Proof.
  unfold init. intros H. apply bind_Ok in H. destruct H as ([total cum] & Hloop & H).
  injection H as <-. cbn. repeat split. exact Hloop.
Qed.

Lemma cum_metrics_init (ms : list string) (cum : gmap string Q) (metric : string) :
  metric ∈ ms \/ cum !! metric = Some 0%Q ->
  fold_left (fun cum metric => <[metric := 0%Q]> cum) ms cum !! metric = Some 0%Q.
Proof.
  revert cum. induction ms as [|m ms IH]; intros cum H; simpl.
  - destruct H as [H|H]; [inversion H | exact H].
  - apply IH. destruct (decide (metric = m)) as [->|Hne].
    + right. apply lookup_insert_eq.
    + destruct H as [H|H].
      * apply elem_of_cons in H. destruct H as [->|H]; [congruence | left; exact H].
      * right. rewrite lookup_insert_ne by congruence. exact H.
Qed.

Lemma init_logged (train_files : list (list string * Z)) (batchsize d : Z) (ms : list string)
    (folder_name : string) (epoch : Z * Z) (flush_after_n_lines : Z) (lg : logger) :
  init train_files batchsize d ms folder_name epoch flush_after_n_lines = Ok lg ->
  logged (Z.to_nat d) ms [] lg.
Proof.
  intros H. apply init_Ok in H.
  destruct H as (_ & _ & _ & _ & _ & Hseen & Hlog & Hfile & Hcum & _).
  unfold logged, log_of. rewrite Hseen, Hlog, Hfile, Hcum. simpl.
  split; [reflexivity|]. split; [|split; [rewrite Nat.Div0.div_0_l; reflexivity|]].
  - intros metric Hin. rewrite drop_nil. apply cum_metrics_init. left. exact Hin.
  - intros j l Hj. rewrite lookup_nil in Hj. discriminate Hj.
Qed.

(** The log file after [on_epoch_end], for distinct metric names and a
    positive [display]: one line for every full group of [display] batches,
    in order; line [j] (counted from 0) carries the batch number [(j + 1) *
    display] and, for every metric, the sum of that metric over the batches
    [j * display + 1 .. (j + 1) * display], added up from 0 in this order,
    divided by [display].  The batches after the last full group leave no
    line. *)
Theorem on_batches_logfile
    (train_files : list (list string * Z)) (batchsize d : Z) (ms : list string)
    (folder_name : string) (epoch : Z * Z) (flush_after_n_lines : Z)
    (batches : list (gmap string Q)) (lg0 lg : logger) :
  init train_files batchsize d ms folder_name epoch flush_after_n_lines = Ok lg0 ->
  NoDup ms ->
  0 < d ->
  on_batches lg0 batches = Done lg ->
  let file := logfile_train (on_epoch_end lg) in
  length file = (length batches / Z.to_nat d)%nat /\
  forall (j : nat) (l : line),
    file !! j = Some l ->
    ln_seen l = (Z.of_nat j + 1) * d /\
    ln_means l
    = map (fun metric =>
             (metric_sum metric (take (Z.to_nat d) (drop (j * Z.to_nat d) batches))
              / inject_Z d)%Q) ms.
Proof.
  intros Hinit Hnd Hd Hrun file.
  pose proof (init_logged _ _ _ _ _ _ _ _ Hinit) as Hlogged.
  apply init_Ok in Hinit. destruct Hinit as (Hdisplay & _ & _ & Hms & _).
  assert (Hlg : logged (Z.to_nat d) ms ([] ++ batches) lg).
  { apply (on_batches_logged (Z.to_nat d) ms batches [] lg0 lg);
      [lia | rewrite Hdisplay; lia | exact Hms | exact Hnd | exact Hlogged | exact Hrun]. }
  simpl in Hlg. destruct Hlg as (_ & _ & Hlen & Hlines).
  change file with (log_of lg). split; [exact Hlen|].
  intros j l Hj. destruct (Hlines j l Hj) as [Hs Hm]. split.
  - rewrite Hs. rewrite Nat2Z.inj_mul, Z2Nat.id by lia. lia.
  - rewrite Hm, Z2Nat.id by lia. reflexivity.
Qed.

(** Whether lines reach the file before [on_epoch_end] does not depend on
    the number of lines: if [flush_after_n_lines] is not -1 and divides
    [display], every line is written at once and [loglist] is empty after
    every batch; otherwise the file stays empty until [on_epoch_end]. *)
Theorem on_batches_flush
    (train_files : list (list string * Z)) (batchsize d : Z) (ms : list string)
    (folder_name : string) (epoch : Z * Z) (flush_after_n_lines : Z)
    (batches : list (gmap string Q)) (lg0 lg : logger) :
  init train_files batchsize d ms folder_name epoch flush_after_n_lines = Ok lg0 ->
  on_batches lg0 batches = Done lg ->
  if decide (flush_after_n_lines <> -1 /\ d mod flush_after_n_lines = 0)
  then loglist lg = []
  else logfile_train lg = [].
Proof.
  intros Hinit Hrun. apply init_Ok in Hinit.
  destruct Hinit as (Hdisplay & _ & _ & _ & Hflush & _ & Hlog & Hfile & _).
  assert (Hgen : forall lg1, display lg1 = d -> flush lg1 = flush_after_n_lines ->
            (if decide (flush_after_n_lines <> -1 /\ d mod flush_after_n_lines = 0)
             then loglist lg1 = [] else logfile_train lg1 = []) ->
            on_batches lg1 batches = Done lg ->
            if decide (flush_after_n_lines <> -1 /\ d mod flush_after_n_lines = 0)
            then loglist lg = [] else logfile_train lg = []).
  { clear. induction batches as [|logs rest IH]; intros lg1 Hd Hf Hstart H; simpl in H.
    - injection H as <-. exact Hstart.
    - apply result_bind_Done in H. destruct H as (lg2 & H2 & H).
      apply on_batch_end_Done in H2.
      destruct H2 as (_ & (Hd2 & _ & _ & _ & Hf2 & _) & _ & cum & _ & Hcases).
      apply (IH lg2); [congruence | congruence | | exact H].
      destruct Hcases
        as [(_ & _ & Hlog2 & Hfile2)|(_ & _ & offset & means & _ & _ & _ & Hflush2)].
      + rewrite Hlog2, Hfile2. exact Hstart.
      + unfold flushes in Hflush2. rewrite Hd, Hf in Hflush2.
        destruct (decide (flush_after_n_lines <> -1 /\ d mod flush_after_n_lines = 0))
          as [Hyes|Hno]; destruct Hflush2 as [[Hfl Hl]|[Hfl Hl]];
          [exact Hl | contradiction | contradiction | rewrite Hl; exact Hstart]. }
  apply (Hgen lg0 Hdisplay Hflush); [|exact Hrun].
  destruct (decide (flush_after_n_lines <> -1 /\ d mod flush_after_n_lines = 0)); assumption.
Qed.


Lemma on_batches_seen (batches : list (gmap string Q)) (lg lg' : logger) :
  on_batches lg batches = Done lg' -> seen lg' = seen lg + Z.of_nat (length batches).
Proof.
  revert lg. induction batches as [|logs rest IH]; intros lg H; simpl in H.
  - injection H as <-. simpl. lia.
  - apply result_bind_Done in H. destruct H as (lg1 & H1 & H).
    apply on_batch_end_Done in H1. destruct H1 as (_ & _ & Hseen & _).
    rewrite (IH _ H), Hseen. simpl length. lia.
Qed.

Lemma steps_of_app (batchsize : Z) (l1 l2 : list Z) :
  steps_of batchsize (l1 ++ l2) = steps_of batchsize l1 + steps_of batchsize l2.
Proof. induction l1 as [|s l1 IH]; simpl; [reflexivity | rewrite IH; lia]. Qed.

(** The two logs share their time axis.  When [on_batch_end] logs a line
    at batch number [s] of file number [f] of epoch [e], its Batch_float is
    the [epoch_number_float] that [write_summary_logfile] writes for [(e,
    f)], less the part of an epoch that the remaining [steps_f - s] batches
    of the file and half a [display] interval take. *)
Theorem on_batch_end_batchnumber_float
    (train_files : list (list string * Z)) (batchsize d : Z) (ms : list string)
    (folder_name : string) (e f : Z) (flush_after_n_lines : Z)
    (batches : list (gmap string Q)) (logs : gmap string Q) (lg0 lg lg' : logger)
    (f_size : Z) :
  init train_files batchsize d ms folder_name (e, f) flush_after_n_lines = Ok lg0 ->
  on_batches lg0 batches = Done lg ->
  on_batch_end lg logs = Done lg' ->
  (Z.of_nat (length batches) + 1) mod d = 0 ->
  1 <= f ->
  map snd train_files !! Z.to_nat (f - 1) = Some f_size ->
  exists (l : line) (q : Q),
    last (log_of lg') = Some l /\
    epoch_number_float (map snd train_files) batchsize (e, f) = Ok q /\
    (ln_batchnumber_float l
     + (inject_Z (Z.quot f_size batchsize - (Z.of_nat (length batches) + 1))
        + inject_Z d / 2) / inject_Z (steps_per_total_epoch lg0)
     == q)%Q.
Proof.
  intros Hinit Hrun Hend Hmod Hf Hsize.
  apply init_Ok in Hinit.
  destruct Hinit as (Hdisplay & Hepoch & Hfn & _ & _ & Hseen0 & _ & _ & _ & Hloop).
  cbn [fst snd] in Hepoch, Hfn.
  pose proof (on_batches_same_settings _ _ _ Hrun) as (Hd & He & Hfnum & _ & _ & Ht & Hc & _).
  pose proof (on_batches_seen _ _ _ Hrun) as Hseen. rewrite Hseen0, Z.add_0_l in Hseen.
  apply on_batch_end_Done in Hend.
  destruct Hend as (_ & _ & _ & cum & _ & Hcases).
  rewrite Hseen in Hcases.
  destruct Hcases as [(Hno & _)|(_ & Htotal & offset & means & Hoff & _ & Elog & _)];
    [rewrite Hd, Hdisplay in Hno; contradiction|].
  set (sizes := map snd train_files) in *.
  pose proof (lookup_lt_Some _ _ _ Hsize) as Hlt.
  assert (Hb : batchsize <> 0).
  { intros ->. destruct sizes as [|s rest]; [simpl in Hlt; lia|]. discriminate Hloop. }
  destruct (steps_loop_start batchsize sizes Hb) as (cums & Hloop' & Hlen & Hcum).
  rewrite Hloop' in Hloop. injection Hloop as Htot Hcums.
  assert (Etake : take (Z.to_nat f) sizes = (take (Z.to_nat (f - 1)) sizes ++ [f_size])%list).
  { replace (Z.to_nat f) with (S (Z.to_nat (f - 1))) by lia.
    apply take_S_r, Hsize. }
  pose proof (Hcum (Z.to_nat (f - 1)) ltac:(lia)) as Hbefore.
  pose proof (Hcum (Z.to_nat f) ltac:(lia)) as Hafter.
  rewrite Etake, steps_of_app in Hafter. cbn [map fold_right] in Hafter.
  rewrite Z.add_0_r in Hafter.
  set (before := steps_of batchsize (take (Z.to_nat (f - 1)) sizes)) in *.
  rewrite Hc, Hfnum, Hfn, <- Hcums in Hoff.
  pose proof (py_getitem_nonneg cums (Z.to_nat (f - 1)) _ Hbefore) as Hget.
  rewrite Z2Nat.id in Hget by lia. rewrite Hget in Hoff. injection Hoff as <-.
  exists (new_line lg before means). eexists. split; [|split].
  - rewrite Elog. apply last_snoc.
  - unfold epoch_number_float. fold sizes. rewrite Hloop'. cbn [mbind exc_bind bind snd fst].
    pose proof (py_getitem_nonneg cums (Z.to_nat f) _ Hafter) as Hget'.
    rewrite Z2Nat.id in Hget' by lia. rewrite Hget'. cbn [bind].
    destruct (Z.eqb_spec (steps_of batchsize sizes) 0) as [E|_]; [|reflexivity].
    exfalso. apply Htotal. rewrite Ht, <- Htot. exact E.
  - unfold new_line. cbn [ln_batchnumber_float fst].
    rewrite Hseen, Hd, Hdisplay, He, Hepoch, Ht, <- Htot.
    set (t := steps_of batchsize sizes) in *.
    assert (Hq : ~ (inject_Z t == 0)%Q).
    { intros E. apply Htotal. rewrite Ht, <- Htot.
      unfold Qeq in E. simpl in E. lia. }
    unfold Z.sub. rewrite !inject_Z_plus, !inject_Z_opp, !inject_Z_plus.
    field. exact Hq.
Qed.

End LoggerFacts.

Lemma on_batches_logfile_witness :
  exists lg0 lg : Logger.logger,
    Logger.init example_train_files 2 2 ["loss"; "acc"] "run" (1, 2) (-1) = Ok lg0 /\
    Logger.on_batches lg0 example_batches = Logger.Done lg /\
    let file := Logger.logfile_train (Logger.on_epoch_end lg) in
    length file = (length example_batches / Z.to_nat 2)%nat /\
    forall (j : nat) (l : Logger.line),
      file !! j = Some l ->
      Logger.ln_seen l = (Z.of_nat j + 1) * 2 /\
      Logger.ln_means l
      = map (fun metric =>
               (Logger.metric_sum metric
                  (take (Z.to_nat 2) (drop (j * Z.to_nat 2) example_batches))
                / inject_Z 2)%Q) ["loss"; "acc"].
Proof.
  destruct (Logger.init example_train_files 2 2 ["loss"; "acc"] "run" (1, 2) (-1))
    as [lg0|e] eqn:E0; [|vm_compute in E0; discriminate E0].
  destruct (Logger.on_batches lg0 example_batches) as [lg|e] eqn:E1.
  - exists lg0, lg. split; [reflexivity|]. split; [exact E1|].
    apply (on_batches_logfile example_train_files 2 2 ["loss"; "acc"] "run" (1, 2) (-1)
             example_batches lg0 lg E0); [|lia | exact E1].
    apply (bool_decide_unpack _). vm_compute. exact I.
  - exfalso. vm_compute in E0. injection E0 as <-. vm_compute in E1. discriminate E1.
Defined.

Lemma on_batches_flush_witness :
  exists lg0 lg : Logger.logger,
    Logger.init example_train_files 2 4 ["loss"; "acc"] "run" (1, 2) 2 = Ok lg0 /\
    Logger.on_batches lg0 example_batches = Logger.Done lg /\
    if decide ((2 : Z) <> -1 /\ 4 mod 2 = 0)
    then Logger.loglist lg = []
    else Logger.logfile_train lg = [].
Proof.
  destruct (Logger.init example_train_files 2 4 ["loss"; "acc"] "run" (1, 2) 2)
    as [lg0|e] eqn:E0; [|vm_compute in E0; discriminate E0].
  destruct (Logger.on_batches lg0 example_batches) as [lg|e] eqn:E1.
  - exists lg0, lg. split; [reflexivity|]. split; [exact E1|].
    apply (on_batches_flush example_train_files 2 4 ["loss"; "acc"] "run" (1, 2) 2
             example_batches lg0 lg E0 E1).
  - exfalso. vm_compute in E0. injection E0 as <-. vm_compute in E1. discriminate E1.
Defined.

Lemma on_batch_end_batchnumber_float_witness :
  exists (lg0 lg lg' : Logger.logger) (l : Logger.line) (q : Q),
    Logger.init example_train_files 2 3 ["loss"; "acc"] "run" (1, 2) (-1) = Ok lg0 /\
    Logger.on_batches lg0 (take 2 example_batches) = Logger.Done lg /\
    Logger.on_batch_end lg (example_logs 5 6) = Logger.Done lg' /\
    last (Logger.log_of lg') = Some l /\
    epoch_number_float (map snd example_train_files) 2 (1, 2) = Ok q /\
    (Logger.ln_batchnumber_float l
     + (inject_Z (Z.quot 7 2 - (Z.of_nat (length (take 2 example_batches)) + 1))
        + inject_Z 3 / 2) / inject_Z (Logger.steps_per_total_epoch lg0)
     == q)%Q.
Proof.
  destruct (Logger.init example_train_files 2 3 ["loss"; "acc"] "run" (1, 2) (-1))
    as [lg0|e] eqn:E0; [|vm_compute in E0; discriminate E0].
  destruct (Logger.on_batches lg0 (take 2 example_batches)) as [lg|e] eqn:E1;
    [|exfalso; vm_compute in E0; injection E0 as <-; vm_compute in E1; discriminate E1].
  destruct (Logger.on_batch_end lg (example_logs 5 6)) as [lg'|e] eqn:E2;
    [|exfalso; vm_compute in E0; injection E0 as <-; vm_compute in E1; injection E1 as <-;
      vm_compute in E2; discriminate E2].
  destruct (on_batch_end_batchnumber_float example_train_files 2 3 ["loss"; "acc"] "run"
              1 2 (-1) (take 2 example_batches) (example_logs 5 6) lg0 lg lg' 7 E0 E1 E2)
    as (l & q & Hl & Hq & Hrel); [reflexivity | lia | reflexivity|].
  exists lg0, lg, lg', l, q. repeat split; assumption.
Defined.

(** ** Reading the list file, and the rows of a file *)

Lemma py_count_all {A : Type} `{EqDecision A} (l : list A) (x : A) :
  py_count l x = length l <-> Forall (fun y => y = x) l.
Proof.
  unfold py_count. induction l as [|y l IH].
  - split; [constructor | reflexivity].
  - rewrite filter_cons. destruct (decide (y = x)) as [->|Hne]; simpl.
    + split.
      * intros H. constructor; [reflexivity | apply IH; lia].
      * intros H. inversion H; subst. f_equal. apply IH. assumption.
    + split.
      * intros H. pose proof (length_filter (fun y => y = x) l). lia.
      * intros H. inversion H; congruence.
Qed.

Lemma for_each_Forall2 {A B : Type} (f : A -> exc B) (l : list A) (r : list B) :
  Forall2 (fun a b => f a = Ok b) l r -> for_each f l = Ok r.
Proof.
  induction 1 as [|a b l r Hab _ IH]; simpl; [reflexivity|].
  rewrite Hab. simpl. rewrite IH. reflexivity.
Qed.

Lemma read_out_list_file_loop_Ok
    (file_content : list (string * list_file_input))
    (train0 val0 train val : list (string * list string)) (n_train0 n_val0 n_train n_val : list nat) :
  read_out_list_file_loop file_content train0 val0 n_train0 n_val0
  = Ok (train, val, n_train, n_val) <->
  exists train' val',
    Forall2 (fun c t => t.1 = c.1 /\ lf_train_files c.2 = Some t.2) file_content train' /\
    Forall2 (fun c v => v.1 = c.1 /\ lf_validation_files c.2 = Some v.2) file_content val' /\
    train = (train0 ++ train')%list /\ val = (val0 ++ val')%list /\
    n_train = (n_train0 ++ map (fun t => length t.2) train')%list /\
    n_val = (n_val0 ++ map (fun v => length v.2) val')%list.
Proof.
  revert train0 val0 n_train0 n_val0.
  induction file_content as [|[input_key input] rest IH]; intros train0 val0 n_train0 n_val0.
  - simpl. split.
    + intros H. injection H as <- <- <- <-. exists [], [].
      rewrite !app_nil_r. repeat split; constructor.
    + intros (train' & val' & Ht & Hv & -> & -> & -> & ->).
      inversion Ht; inversion Hv; subst. simpl. rewrite !app_nil_r. reflexivity.
  - cbn [read_out_list_file_loop]. split.
    + intros H. apply bind_Ok in H. destruct H as (tr & Htr & H).
      apply bind_Ok in H. destruct H as (va & Hva & H).
      apply IH in H. destruct H as (train' & val' & Ht & Hv & -> & -> & -> & ->).
      destruct (lf_train_files input) as [tr'|] eqn:Etr; [|discriminate].
      destruct (lf_validation_files input) as [va'|] eqn:Eva; [|discriminate].
      injection Htr as <-. injection Hva as <-.
      exists ((input_key, tr') :: train'), ((input_key, va') :: val').
      split; [constructor; [split; [reflexivity | exact Etr] | exact Ht]|].
      split; [constructor; [split; [reflexivity | exact Eva] | exact Hv]|].
      rewrite <- !app_assoc. repeat split.
    + intros (train' & val' & Ht & Hv & -> & -> & -> & ->).
      inversion Ht as [|c [k tr] ? train'' [Hk Htr] Ht']; subst.
      inversion Hv as [|c [k' va] ? val'' [Hk' Hva] Hv']; subst.
      cbn [fst snd] in *. rewrite Htr, Hva. cbn [dict_get mbind exc_bind bind].
      apply IH. exists train'', val''. subst k k'.
      split; [exact Ht'|]. split; [exact Hv'|].
      cbn [map fst snd]. rewrite <- !app_assoc. repeat split.
Qed.

Lemma all_of_one_length (l : list (string * list string)) :
  l <> [] ->
  (exists first,
     getitem (map (fun t => length t.2) l) 0 = Ok first /\
     py_count (map (fun t => length t.2) l) first = length (map (fun t => length t.2) l))
  <-> exists n, Forall (fun t => length t.2 = n) l.
Proof.
  intros Hne. destruct l as [|t l]; [congruence|]. split.
  - intros (first & Hfirst & Hcount). injection Hfirst as <-.
    exists (length t.2). apply py_count_all in Hcount.
    apply Forall_map in Hcount. exact Hcount.
  - intros (n & Hall). exists (length t.2). split; [reflexivity|].
    apply py_count_all. apply Forall_map.
    inversion Hall as [|? ? Hn Hrest]; subst.
    eapply Forall_impl; [exact Hall|]. intros t' Ht'. simpl in *. congruence.
Qed.

(** [read_out_list_file] returns exactly when there is at least one input,
    every input has its train and its validation files, all inputs have the
    same number of train files and all have the same number of validation
    files; it then returns the files as they stand in the list file, input
    by input. *)
Theorem read_out_list_file_returns
    (file_content : list (string * list_file_input))
    (train_files validation_files : list (string * list string)) :
  read_out_list_file file_content = Ok (train_files, validation_files) <->
  file_content <> [] /\
  Forall2 (fun c t => t.1 = c.1 /\ lf_train_files c.2 = Some t.2) file_content train_files /\
  Forall2 (fun c v => v.1 = c.1 /\ lf_validation_files c.2 = Some v.2)
    file_content validation_files /\
  (exists n, Forall (fun t => length t.2 = n) train_files) /\
  (exists m, Forall (fun v => length v.2 = m) validation_files).
Proof.
  unfold read_out_list_file. split.
  - intros H. apply bind_Ok in H. destruct H as ([[[tr va] nt] nv] & Hloop & H).
    apply read_out_list_file_loop_Ok in Hloop.
    destruct Hloop as (train' & val' & Ht & Hv & -> & -> & -> & ->).
    simpl app in H.
    apply bind_Ok in H. destruct H as (n0 & Hn0 & H).
    destruct (bool_decide_reflect
                (py_count (map (fun t => length t.2) train') n0
                 = length (map (fun t => length t.2) train'))) as [Hcount|]; [|discriminate].
    cbn [negb] in H.
    apply bind_Ok in H. destruct H as (m0 & Hm0 & H).
    destruct (bool_decide_reflect
                (py_count (map (fun v => length v.2) val') m0
                 = length (map (fun v => length v.2) val'))) as [Hcount'|]; [|discriminate].
    cbn [negb] in H. injection H as <- <-.
    assert (Hne : file_content <> []).
    { intros ->. inversion Ht; subst. discriminate Hn0. }
    assert (Hnet : train' <> []) by (intros ->; inversion Ht; subst; congruence).
    assert (Hnev : val' <> []) by (intros ->; inversion Hv; subst; congruence).
    split; [exact Hne|]. split; [exact Ht|]. split; [exact Hv|]. split.
    + apply (all_of_one_length train' Hnet). eauto.
    + apply (all_of_one_length val' Hnev). eauto.
  - intros (Hne & Ht & Hv & Hn & Hm).
    assert (Hloop : read_out_list_file_loop file_content [] [] [] []
                    = Ok (train_files, validation_files,
                          map (fun t => length t.2) train_files,
                          map (fun v => length v.2) validation_files)).
    { apply read_out_list_file_loop_Ok. exists train_files, validation_files.
      repeat split; assumption. }
    rewrite Hloop. cbn [mbind exc_bind bind].
    assert (Hnet : train_files <> []) by (intros ->; inversion Ht; subst; congruence).
    assert (Hnev : validation_files <> []) by (intros ->; inversion Hv; subst; congruence).
    apply (all_of_one_length train_files Hnet) in Hn. destruct Hn as (n0 & -> & Hcount).
    apply (all_of_one_length validation_files Hnev) in Hm. destruct Hm as (m0 & -> & Hcount').
    cbn [mbind exc_bind bind]. rewrite (bool_decide_eq_true_2 _ Hcount).
    cbn [negb mbind exc_bind bind]. rewrite (bool_decide_eq_true_2 _ Hcount'). reflexivity.
Qed.

(** [h5_get_number_of_rows] returns [n] exactly when the file exists, at
    least one dataset is named, and every named dataset is in the file and
    has [n] rows. *)
Theorem h5_get_number_of_rows_returns
    (fs : gmap string h5file) (h5_filepath : string) (datasets : list string) (n : nat) :
  h5_get_number_of_rows fs h5_filepath datasets = Ok n <->
  exists f,
    fs !! h5_filepath = Some f /\
    datasets <> [] /\
    Forall (fun name => exists ds, h5_getitem f name = Ok ds /\ length (ds_rows ds) = n)
      datasets.
Proof.
  unfold h5_get_number_of_rows. destruct (fs !! h5_filepath) as [f|]; [|split].
  - split.
    + intros H. exists f. split; [reflexivity|].
      apply bind_Ok in H. destruct H as (rows & Hrows & H).
      apply for_each_Ok in Hrows.
      apply bind_Ok in H. destruct H as (first & Hfirst & H).
      destruct (bool_decide_reflect (py_count rows first = length rows)) as [Hcount|];
        [|discriminate].
      cbn [negb] in H. rewrite Hfirst in H. injection H as ->.
      apply py_count_all in Hcount.
      split; [intros ->; inversion Hrows; subst; discriminate Hfirst|].
      clear Hfirst. induction Hrows as [|name r names rows Hr _ IH]; [constructor|].
      inversion Hcount; subst. constructor; [|apply IH; assumption].
      apply bind_Ok in Hr. destruct Hr as (ds & Hds & Hr). injection Hr as Hr. eauto.
    + intros (f' & Hf & Hne & Hall). injection Hf as <-.
      assert (Hrows : for_each (fun name => ds ← h5_getitem f name; Ok (length (ds_rows ds)))
                        datasets = Ok (map (fun _ => n) datasets)).
      { apply for_each_Forall2. clear Hne.
        induction Hall as [|name names (ds & Hds & Hlen) _ IH]; simpl; constructor; [|exact IH].
        rewrite Hds. simpl. rewrite Hlen. reflexivity. }
      rewrite Hrows. cbn [mbind exc_bind bind].
      destruct datasets as [|name names]; [congruence|].
      cbn [map getitem lookup list_lookup mbind exc_bind bind].
      rewrite bool_decide_eq_true_2; [reflexivity|].
      apply (py_count_all (n :: map (fun _ => n) names) n).
      constructor; [reflexivity|]. apply Forall_map. apply Forall_forall. reflexivity.
  - discriminate.
  - intros (f & Hf & _). discriminate.
Qed.

(** ** The names of the training logs *)

Lemma split_on_cons (c : ascii) (s : string) :
  exists piece pieces, split_on c s = piece :: pieces.
Proof.
  induction s as [|c' s IH]; simpl; [eauto|].
  destruct (Ascii.eqb c' c); [eauto|].
  destruct IH as (piece & pieces & ->). eauto.
Qed.

Lemma split_on_lacks (c : ascii) (s : string) :
  lacks c s = true -> split_on c s = [s].
Proof.
  induction s as [|c' s IH]; simpl; [reflexivity|]. intros H.
  apply andb_true_iff in H. destruct H as [Hc Hs]. apply negb_true_iff in Hc.
  rewrite Hc, (IH Hs). reflexivity.
Qed.

Lemma split_on_app (c : ascii) (s t : string) :
  split_on c (s ++ String c t) = (split_on c s ++ split_on c t)%list.
Proof.
  induction s as [|c' s IH].
  - rewrite str_app_nil_l. simpl. rewrite Ascii.eqb_refl. reflexivity.
  - rewrite str_app_cons. simpl. destruct (Ascii.eqb c' c).
    + rewrite IH. reflexivity.
    + rewrite IH. destruct (split_on_cons c s) as (piece & pieces & ->). reflexivity.
Qed.

Lemma join_cons (sep : string) (c : ascii) (piece : string) (pieces : list string) :
  join sep (String c piece :: pieces) = String c (join sep (piece :: pieces)).
Proof. destruct pieces; reflexivity. Qed.

(** [c.join(s.split(c)) == s] *)
Lemma join_split_on (c : ascii) (s : string) :
  join (String c EmptyString) (split_on c s) = s.
Proof.
  induction s as [|c' s IH]; [reflexivity|]. simpl.
  destruct (Ascii.eqb_spec c' c) as [->|Hne].
  - destruct (split_on_cons c s) as (piece & pieces & E). rewrite E in *.
    cbn [join]. rewrite str_app_nil_l, str_app_cons, str_app_nil_l.
    f_equal. exact IH.
  - destruct (split_on_cons c s) as (piece & pieces & E). rewrite E in *.
    rewrite join_cons, IH. reflexivity.
Qed.

Lemma slice_but_last {A : Type} (l : list A) (x : A) : slice (l ++ [x]) 0 (-1) = l.
Proof.
  unfold slice, slice_bound. rewrite length_app. simpl length.
  destruct (Z.ltb_spec 0 0); [lia|]. destruct (Z.ltb_spec (-1) 0); [|lia].
  rewrite Z.min_l by lia. rewrite Z.max_r by lia. simpl drop.
  replace (Z.to_nat (-1 + Z.of_nat (length l + 1) - 0)) with (length l) by lia.
  apply take_app_length.
Qed.

(** The folder of the training logs lies beside the summary file. *)
Lemma log_train_folder_beside (folder_name : string) :
  log_train_folder (folder_name ++ "/summary.txt") = folder_name ++ "/log_train/".
Proof.
  unfold log_train_folder.
  change "/summary.txt" with (String "/" "summary.txt").
  rewrite split_on_app, (split_on_lacks "/" "summary.txt") by reflexivity.
  rewrite slice_but_last. change "/" with (String "/" EmptyString) at 1.
  rewrite join_split_on. reflexivity.
Qed.

Ltac digits_lack :=
  apply lacks_pretty_Z; [intros ?; unfold pretty_N_char; repeat case_match|]; reflexivity.

(** The name that the logger gives its file is read back. *)
Lemma epoch_and_file_no_of_log (py_int : string -> exc Z) (e f : Z) :
  py_int (pretty e) = Ok e -> py_int (pretty f) = Ok f ->
  epoch_and_file_no py_int ("log_epoch_" ++ pretty e ++ "_file_" ++ pretty f ++ ".txt")
  = Ok (e, f).
Proof.
  intros He Hf. unfold epoch_and_file_no.
  assert (Hstem : lacks "." ("log_epoch_" ++ pretty e ++ "_file_" ++ pretty f) = true).
  { rewrite !lacks_app.
    rewrite (lacks_pretty_Z "." e), (lacks_pretty_Z "." f);
      try reflexivity; intros ?; unfold pretty_N_char; repeat case_match; reflexivity. }
  replace ("log_epoch_" ++ pretty e ++ "_file_" ++ pretty f ++ ".txt")
    with (("log_epoch_" ++ pretty e ++ "_file_" ++ pretty f) ++ String "." "txt")
    by (rewrite !str_app_assoc; reflexivity).
  rewrite split_on_app, (split_on_lacks _ _ Hstem). cbn [app getitem lookup list_lookup].
  cbn [mbind exc_bind bind].
  assert (Hparts : split_on "_" ("log_epoch_" ++ pretty e ++ "_file_" ++ pretty f)
                   = ["log"; "epoch"; pretty e; "file"; pretty f]).
  { change ("log_epoch_" ++ pretty e ++ "_file_" ++ pretty f)
      with ("log" ++ String "_" ("epoch" ++ String "_"
              (pretty e ++ String "_" ("file" ++ String "_" (pretty f))))).
    rewrite !split_on_app.
    rewrite (split_on_lacks "_" "log"), (split_on_lacks "_" "epoch"),
      (split_on_lacks "_" "file") by reflexivity.
    rewrite (split_on_lacks "_" (pretty e)), (split_on_lacks "_" (pretty f)) by digits_lack.
    reflexivity. }
  rewrite Hparts. cbn [getitem lookup list_lookup mbind exc_bind bind].
  rewrite He. cbn [bind]. rewrite Hf. reflexivity.
Qed.

(** [read_logfiles] finds the log that [BatchLevelPerformanceLogger]
    writes: for the summary file [folder_name + '/summary.txt'], the file
    of the logger lies in the folder that [read_logfiles] lists, and from
    its name [read_logfiles] reads back the epoch and the file number the
    logger was made for.  [int] need only read the two numerals. *)
Theorem read_logfiles_finds_log
    (py_int : string -> exc Z)
    (train_files : list (list string * Z)) (batchsize d : Z) (ms : list string)
    (folder_name : string) (e f : Z) (flush_after_n_lines : Z) (lg : Logger.logger) :
  py_int (pretty e) = Ok e ->
  py_int (pretty f) = Ok f ->
  Logger.init train_files batchsize d ms folder_name (e, f) flush_after_n_lines = Ok lg ->
  exists file : string,
    Logger.logfile_train_fname lg
    = log_train_folder (folder_name ++ "/summary.txt") ++ file /\
    epoch_and_file_no py_int file = Ok (e, f).
Proof.
  intros He Hf Hinit.
  exists ("log_epoch_" ++ pretty e ++ "_file_" ++ pretty f ++ ".txt").
  split; [|apply epoch_and_file_no_of_log; assumption].
  unfold Logger.init in Hinit. apply bind_Ok in Hinit.
  destruct Hinit as ([total cum] & _ & Hinit). injection Hinit as <-.
  cbn [Logger.logfile_train_fname fst snd].
  rewrite log_train_folder_beside, str_app_assoc. reflexivity.
Qed.

Lemma read_logfiles_finds_log_witness :
  exists (lg : Logger.logger) (file : string),
    Logger.init example_train_files 2 2 ["loss"; "acc"] "run" (1, 2) (-1) = Ok lg /\
    Logger.logfile_train_fname lg = log_train_folder ("run" ++ "/summary.txt") ++ file /\
    epoch_and_file_no int_1_2 file = Ok (1, 2).
Proof.
  destruct (Logger.init example_train_files 2 2 ["loss"; "acc"] "run" (1, 2) (-1))
    as [lg|err] eqn:E0; [|vm_compute in E0; discriminate E0].
  destruct (read_logfiles_finds_log int_1_2 example_train_files 2 2 ["loss"; "acc"] "run"
              1 2 (-1) lg eq_refl eq_refl E0) as (file & Hname & Hparse).
  exists lg, file. split; [reflexivity|]. split; [exact Hname | exact Hparse].
Defined.
